(** * AI code review bot: the webhook service and the review service

    A shallow embedding of the two TypeScript services of the repository
    and the properties of their orchestration pipeline:

    - review-service: [validation.ts] (zod schema of the review request),
      [llmClient.ts] ([generateCodeReview]: parsing and sanitising the
      model reply) and [routes/review.ts];
    - webhook-service: [verifyGitHubSignature.ts], [githubClient.ts]
      ([fetchPullRequestDiff]), [githubComments.ts] ([postReviewSummary])
      and [routes/githubWebhook.ts].

    Conventions.  A JavaScript string is represented by the [string] of
    its UTF-8 encoding, which is what a literal of this file denotes; its
    [length] property counts UTF-16 code units ([JS.length]).  A
    JavaScript number is an exact rational.  Built-ins of the platform
    whose algorithm is not part of the repository ([JSON.parse], the
    number-to-string conversion, HMAC-SHA256) are section variables: every
    theorem holds whatever they compute.  Every call that leaves the
    process is recorded in a trace.  Calls to the logger are left out,
    except in the signature middleware, where the line logged tells the
    branches apart. *)

From Stdlib Require Import String Ascii List ZArith QArith Bool Lia.
Import ListNotations.
Set Warnings "-register-all".
Close Scope Q_scope.
Open Scope list_scope.
Open Scope string_scope.

(** ** Strings as JavaScript sees them *)

Module Str.

Definition LF : ascii := ascii_of_nat 10.

Definition byte (n : nat) : string := String (ascii_of_nat n) EmptyString.

Definition bytes (l : list nat) : string :=
  fold_right (fun n s => String (ascii_of_nat n) s) EmptyString l.

(** [hay.includes(needle)] *)
Fixpoint includes (needle hay : string) : bool :=
  if String.prefix needle hay then true
  else match hay with
       | EmptyString => false
       | String _ rest => includes needle rest
       end.

(** [s.split(sep)] for a one-character separator: never an empty list. *)
Fixpoint split (sep : ascii) (s : string) : list string :=
  match s with
  | EmptyString => [EmptyString]
  | String c rest =>
      if Ascii.eqb c sep then EmptyString :: split sep rest
      else match split sep rest with
           | [] => [String c EmptyString]
           | w :: ws => String c w :: ws
           end
  end.

(** [parts.join(sep)] *)
Definition join (sep : string) (parts : list string) : string :=
  String.concat sep parts.

Definition lines (s : string) : list string := split LF s.

Fixpoint rev_acc (s acc : string) : string :=
  match s with
  | EmptyString => acc
  | String c rest => rev_acc rest (String c acc)
  end.

Definition rev (s : string) : string := rev_acc s EmptyString.

(** The UTF-8 encodings of the code points of ECMAScript's WhiteSpace and
    LineTerminator productions, which [String.prototype.trim] removes. *)
Definition whitespace : list string :=
  [ byte 9; byte 10; byte 11; byte 12; byte 13; byte 32;
    bytes [194; 160];
    bytes [225; 154; 128];
    bytes [226; 128; 128]; bytes [226; 128; 129]; bytes [226; 128; 130];
    bytes [226; 128; 131]; bytes [226; 128; 132]; bytes [226; 128; 133];
    bytes [226; 128; 134]; bytes [226; 128; 135]; bytes [226; 128; 136];
    bytes [226; 128; 137]; bytes [226; 128; 138];
    bytes [226; 128; 168]; bytes [226; 128; 169]; bytes [226; 128; 175];
    bytes [226; 129; 159];
    bytes [227; 128; 128];
    bytes [239; 187; 191] ].

Fixpoint drop (n : nat) (s : string) : string :=
  match n, s with
  | O, _ => s
  | S _, EmptyString => EmptyString
  | S m, String _ rest => drop m rest
  end.

(** Removes one leading member of [ws], if there is one. *)
Fixpoint strip_one (ws : list string) (s : string) : option string :=
  match ws with
  | [] => None
  | w :: ws' =>
      if String.prefix w s then Some (drop (String.length w) s)
      else strip_one ws' s
  end.

Fixpoint strip (fuel : nat) (ws : list string) (s : string) : string :=
  match fuel with
  | O => s
  | S fuel' =>
      match strip_one ws s with
      | Some s' => strip fuel' ws s'
      | None => s
      end
  end.

Definition trimStart (s : string) : string :=
  strip (String.length s) whitespace s.

Definition trimEnd (s : string) : string :=
  rev (strip (String.length s) (map rev whitespace) (rev s)).

(** [s.trim()] *)
Definition trim (s : string) : string := trimEnd (trimStart s).

(** UTF-16 code units of the code point whose UTF-8 encoding starts with
    this byte: none for a continuation byte, two for a four-byte sequence. *)
Definition utf16_units (c : ascii) : nat :=
  let n := nat_of_ascii c in
  if Nat.ltb n 128 then 1
  else if Nat.ltb n 192 then 0
  else if Nat.ltb n 240 then 1
  else 2.

End Str.

(** ** JavaScript values *)

Module JS.

Definition number := Q.

Inductive value : Type :=
| Undefined
| Null
| Bool (b : bool)
| Number (n : number)
| Str (s : string)
| Array (items : list value)
| Object (fields : list (string * value)).

(** The [typeof] operator. *)
Definition typeof (v : value) : string :=
  match v with
  | Undefined => "undefined"
  | Null => "object"
  | Bool _ => "boolean"
  | Number _ => "number"
  | Str _ => "string"
  | Array _ => "object"
  | Object _ => "object"
  end.

Definition isArray (v : value) : bool :=
  match v with Array _ => true | _ => false end.

(** [s.length] *)
Fixpoint length (s : string) : nat :=
  match s with
  | EmptyString => 0
  | String c rest => Str.utf16_units c + length rest
  end.

Definition isZero (n : number) : bool := Qeq_bool n 0%Q.

(** [Number.isInteger] *)
Definition isInteger (n : number) : bool :=
  (Qnum n mod Zpos (Qden n) =? 0)%Z.

(** ToBoolean: what [!v], [v && ...], [v || ...] and [v ? ... : ...] test. *)
Definition truthy (v : value) : bool :=
  match v with
  | Undefined | Null => false
  | Bool b => b
  | Number n => negb (isZero n)
  | Str s => negb (String.eqb s "")
  | Array _ | Object _ => true
  end.

Definition nullish (v : value) : bool :=
  match v with Undefined | Null => true | _ => false end.

(** An object after [JSON.parse] holds one value per key; the list keeps
    the keys in insertion order and the first binding of a key is the one
    the object has. *)
Fixpoint lookup (key : string) (fields : list (string * value)) : value :=
  match fields with
  | [] => Undefined
  | (k, v) :: rest => if String.eqb k key then v else lookup key rest
  end.

(** [v.key] for a [v] that is neither [null] nor [undefined] and a [key]
    that is no index and no member of a built-in prototype: the services
    read [action], [repository], [full_name], [pull_request], [number],
    [data], [summary], [comments], [file], [line], [severity] and
    [message] only.  On [null] and [undefined] it is what [v?.key] gives;
    where the code reads [v.key] there, the read throws and is modelled at
    that place. *)
Definition get (v : value) (key : string) : value :=
  match v with
  | Object fields => lookup key fields
  | _ => Undefined
  end.

(** [Object.hasOwn(v, key)] for the object with these fields. *)
Definition has_own (key : string) (fields : list (string * value)) : bool :=
  existsb (fun entry => String.eqb (fst entry) key) fields.

(** What a [catch] clause can receive: an [Error] object with its message
    (an [OpenAI.APIError] is an [Error] too) or any other value. *)
Inductive thrown : Type :=
| ErrorObject (message : string)
| APIError (message : string)
| NotAnError.

Definition instanceofError (e : thrown) : bool :=
  match e with NotAnError => false | _ => true end.

Definition errorMessage (e : thrown) : string :=
  match e with
  | ErrorObject m | APIError m => m
  | NotAnError => ""
  end.

(** Sequencing of steps that may throw. *)
Definition and_then {A B : Type} (r : thrown + A) (k : A -> thrown + B)
    : thrown + B :=
  match r with
  | inl e => inl e
  | inr x => k x
  end.

Section ToString.

(** Number::toString, radix 10. *)
Variable Number_toString : number -> string.

(** The [TypeError] of OrdinaryToPrimitive. *)
Definition cannot_convert : thrown :=
  ErrorObject "Cannot convert object to primitive value".

(** ToString, as a template literal and [Array.prototype.join] apply it to
    a value that came out of [JSON.parse].  An object is converted by its
    [toString] method: the inherited one gives [[object Object]], but an
    own member named [toString] hides it, is not callable (no JSON value
    is), and neither is what [valueOf] returns a primitive: the conversion
    throws.  An array is converted by joining its elements, [null] and
    [undefined] as the empty string. *)
Fixpoint toString (v : value) : thrown + string :=
  match v with
  | Undefined => inr "undefined"
  | Null => inr "null"
  | Bool true => inr "true"
  | Bool false => inr "false"
  | Number n => inr (Number_toString n)
  | Str s => inr s
  | Array items =>
      match
        (fix elements (l : list value) : thrown + list string :=
           match l with
           | [] => inr []
           | x :: rest =>
               match (if nullish x then inr "" else toString x) with
               | inl e => inl e
               | inr part =>
                   match elements rest with
                   | inl e => inl e
                   | inr parts => inr (part :: parts)
                   end
               end
           end) items
      with
      | inl e => inl e
      | inr parts => inr (Str.join "," parts)
      end
  | Object fields =>
      if has_own "toString" fields then inl cannot_convert
      else inr "[object Object]"
  end.

(** An element of [Array.prototype.join]: [null] and [undefined] give the
    empty string. *)
Definition joined (v : value) : thrown + string :=
  if nullish v then inr "" else toString v.

End ToString.

End JS.

(** ** The response envelope ([types.ts], the same in both services) *)

Module Api.

Inductive ErrorCode : Type :=
| VALIDATION_ERROR
| AUTHENTICATION_ERROR
| AUTHORIZATION_ERROR
| NOT_FOUND
| RATE_LIMIT_EXCEEDED
| INTERNAL_ERROR
| EXTERNAL_SERVICE_ERROR
| TIMEOUT_ERROR.

Record ErrorBody : Type := {
  code : ErrorCode;
  message : string;
  details : option JS.value;
  error_requestId : option string
}.

(** [ApiResponse<T>] *)
Inductive ApiResponse (T : Type) : Type :=
| SuccessResponse (data : T) (requestId : option string)
| ErrorResponse (error : ErrorBody).

Arguments SuccessResponse {T} data requestId.
Arguments ErrorResponse {T} error.

Definition createErrorResponse {T : Type} (code : ErrorCode) (message : string)
    (details : option JS.value) (requestId : option string) : ApiResponse T :=
  ErrorResponse
    {| code := code; message := message; details := details;
       error_requestId := requestId |}.

Definition createSuccessResponse {T : Type} (data : T)
    (requestId : option string) : ApiResponse T :=
  SuccessResponse data requestId.

(** [res.status(status).json(body)] *)
Record HttpResponse (T : Type) : Type := {
  status : Z;
  body : ApiResponse T
}.

Arguments status {T} _.
Arguments body {T} _.

Definition respond {T : Type} (status : Z) (body : ApiResponse T)
    : HttpResponse T :=
  {| status := status; body := body |}.

End Api.

(** ** zod, as far as [ReviewRequestSchema] uses it

    zod 3 is a dependency of the repository, not part of it: what follows
    is the behaviour of [z.object], [z.string().min().max()],
    [z.number().int().positive()] and [.optional()] under [safeParse],
    with zod's default messages for the issues the schema gives no message
    for. *)

Module Zod.

Record ZodIssue : Type := {
  path : list string;
  message : string
}.

Definition issue (path : list string) (message : string) : ZodIssue :=
  {| path := path; message := message |}.

(** [getParsedType], on JSON values *)
Definition getParsedType (v : JS.value) : string :=
  match v with
  | JS.Undefined => "undefined"
  | JS.Null => "null"
  | JS.Bool _ => "boolean"
  | JS.Number _ => "number"
  | JS.Str _ => "string"
  | JS.Array _ => "array"
  | JS.Object _ => "object"
  end.

(** The default message of an [invalid_type] issue. *)
Definition invalid_type (expected : string) (received : JS.value) : string :=
  match received with
  | JS.Undefined => "Required"
  | _ => "Expected " ++ expected ++ ", received " ++ getParsedType received
  end.

Definition issues_of {T : Type} (r : list ZodIssue + T) : list ZodIssue :=
  match r with
  | inl issues => issues
  | inr _ => []
  end.

(** A parsed field is kept only if none of its checks raised an issue. *)
Definition checked {T : Type} (issues : list ZodIssue) (x : T)
    : list ZodIssue + T :=
  match issues with
  | [] => inr x
  | _ :: _ => inl issues
  end.

End Zod.

(** ** The review service *)

Module ReviewService.

Import Api.

(** [config.ts] *)
Record Config : Type := {
  port : JS.number;
  openaiApiKey : string;
  maxDiffSize : JS.number;
  maxRequestSize : string;
  rateLimitWindowMs : JS.number;
  rateLimitMax : JS.number
}.

(** [types.ts] *)
Inductive Severity : Type := info | warning | error.

Definition Severity_string (s : Severity) : string :=
  match s with
  | info => "info"
  | warning => "warning"
  | error => "error"
  end.

Record ReviewComment : Type := {
  file : string;
  line : JS.number;
  severity : Severity;
  message : string
}.

Record ReviewRequest : Type := {
  repo : string;
  prNumber : JS.number;
  diff : string;
  language : option string
}.

(** The comments of a [ReviewResponse] are the very objects the model
    sent, extra fields included: [filter] narrows their type and converts
    nothing. *)
Record ReviewResponse : Type := {
  summary : string;
  comments : list JS.value
}.

(** The object a [ReviewComment] is at run time. *)
Definition ReviewComment_value (c : ReviewComment) : JS.value :=
  JS.Object
    [ ("file", JS.Str (file c));
      ("line", JS.Number (line c));
      ("severity", JS.Str (Severity_string (severity c)));
      ("message", JS.Str (message c)) ].

Section Validation.

Variable Number_toString : JS.number -> string.
Variable config : Config.

(** [middleware/validation.ts]: one definition per key of
    [ReviewRequestSchema]. *)

Definition schema_repo (v : JS.value) : list Zod.ZodIssue + string :=
  match v with
  | JS.Str s =>
      Zod.checked
        (if Nat.ltb (JS.length s) 1
         then [Zod.issue ["repo"] "Repository name is required"] else [])
        s
  | _ => inl [Zod.issue ["repo"] (Zod.invalid_type "string" v)]
  end.

Definition schema_prNumber (v : JS.value) : list Zod.ZodIssue + JS.number :=
  match v with
  | JS.Number n =>
      Zod.checked
        ((if JS.isInteger n then []
          else [Zod.issue ["prNumber"] "Expected integer, received float"])
         ++ (if Qle_bool n 0%Q
             then [Zod.issue ["prNumber"] "PR number must be a positive integer"]
             else []))%list
        n
  | _ => inl [Zod.issue ["prNumber"] (Zod.invalid_type "number" v)]
  end.

Definition diff_too_big_message : string :=
  "Diff exceeds maximum size of " ++ Number_toString (maxDiffSize config)
  ++ " characters".

(** [input.data.length > check.value] *)
Definition exceeds (len : nat) (n : JS.number) : bool :=
  negb (Qle_bool (inject_Z (Z.of_nat len)) n).

Definition schema_diff (v : JS.value) : list Zod.ZodIssue + string :=
  match v with
  | JS.Str s =>
      Zod.checked
        ((if Nat.ltb (JS.length s) 1
          then [Zod.issue ["diff"] "Diff is required"] else [])
         ++ (if exceeds (JS.length s) (maxDiffSize config)
             then [Zod.issue ["diff"] diff_too_big_message] else []))%list
        s
  | _ => inl [Zod.issue ["diff"] (Zod.invalid_type "string" v)]
  end.

Definition schema_language (v : JS.value)
    : list Zod.ZodIssue + option string :=
  match v with
  | JS.Undefined => inr None
  | JS.Str s => inr (Some s)
  | _ => inl [Zod.issue ["language"] (Zod.invalid_type "string" v)]
  end.

(** [ReviewRequestSchema.safeParse]: every key is parsed, in the order of
    the schema, and the issues of all of them are reported together;
    unknown keys are stripped. *)
Definition safeParse (input : JS.value) : list Zod.ZodIssue + ReviewRequest :=
  match input with
  | JS.Object _ =>
      let r := schema_repo (JS.get input "repo") in
      let n := schema_prNumber (JS.get input "prNumber") in
      let d := schema_diff (JS.get input "diff") in
      let l := schema_language (JS.get input "language") in
      match r, n, d, l with
      | inr r', inr n', inr d', inr l' =>
          inr {| repo := r'; prNumber := n'; diff := d'; language := l' |}
      | _, _, _, _ =>
          inl (Zod.issues_of r ++ Zod.issues_of n ++ Zod.issues_of d
               ++ Zod.issues_of l)%list
      end
  | _ => inl [Zod.issue [] (Zod.invalid_type "object" input)]
  end.

(** [{ field: err.path.join('.'), message: err.message }] *)
Definition field_error (err : Zod.ZodIssue) : JS.value :=
  JS.Object
    [ ("field", JS.Str (Str.join "." (Zod.path err)));
      ("message", JS.Str (Zod.message err)) ].

(** [validateReviewRequest]: the response it sends, or the validated body
    it hands to [next()]. *)
Definition validateReviewRequest (requestId : option string)
    (body : JS.value) : HttpResponse ReviewResponse + ReviewRequest :=
  match safeParse body with
  | inl issues =>
      inl (respond 400
             (createErrorResponse VALIDATION_ERROR "Invalid request body"
                (Some (JS.Object [("errors", JS.Array (map field_error issues))]))
                requestId))
  | inr data => inr data
  end.

End Validation.

(** [llmClient.ts] *)

Definition quoted (s : string) : string := Str.byte 34 ++ s ++ Str.byte 34.

Definition SYSTEM_PROMPT : string :=
  Str.join (Str.byte 10)
    [ "You are a senior code reviewer. Given a unified diff, return JSON code review suggestions with summary and comments.";
      "";
      "You must respond ONLY with valid JSON matching this exact structure:";
      "{";
      "  " ++ quoted "summary" ++ ": " ++ quoted "A brief summary of the code review" ++ ",";
      "  " ++ quoted "comments" ++ ": [";
      "    {";
      "      " ++ quoted "file" ++ ": " ++ quoted "path/to/file.ts" ++ ",";
      "      " ++ quoted "line" ++ ": 10,";
      "      " ++ quoted "severity" ++ ": " ++ quoted "info" ++ " | "
        ++ quoted "warning" ++ " | " ++ quoted "error" ++ ",";
      "      " ++ quoted "message" ++ ": " ++ quoted "Your review comment here";
      "    }";
      "  ]";
      "}";
      "";
      "Be constructive and helpful in your feedback. Focus on code quality, potential bugs, performance issues, and best practices." ].

(** One call of [openai.chat.completions.create] with model
    [gpt-4o-mini], as the trace records it. *)
Record BackendCall : Type := {
  system_content : string;
  user_content : string
}.

(** [['info', 'warning', 'error'].includes(v)] *)
Definition severities_include (v : JS.value) : bool :=
  match v with
  | JS.Str s => existsb (String.eqb s) ["info"; "warning"; "error"]
  | _ => false
  end.

(** The predicate [response.comments.filter] is given. *)
Definition isReviewComment (comment : JS.value) : bool :=
  if negb (String.eqb (JS.typeof comment) "object")
     || match comment with JS.Null => true | _ => false end
  then false
  else
    let c := comment in
    String.eqb (JS.typeof (JS.get c "file")) "string"
    && String.eqb (JS.typeof (JS.get c "line")) "number"
    && String.eqb (JS.typeof (JS.get c "severity")) "string"
    && severities_include (JS.get c "severity")
    && String.eqb (JS.typeof (JS.get c "message")) "string".

Definition sanitizeSummary (v : JS.value) : string :=
  match v with
  | JS.Str s =>
      if JS.truthy (JS.Str (Str.trim s)) then Str.trim s
      else "Code review completed"
  | _ => "Code review completed"
  end.

Definition sanitizeComments (v : JS.value) : list JS.value :=
  match v with
  | JS.Array items => filter isReviewComment items
  | _ => []
  end.

(** The "sanity checks with fallbacks" of [generateCodeReview], applied to
    a parsed reply that passed the type guard. *)
Definition sanitize (response : JS.value) : ReviewResponse :=
  {| summary := sanitizeSummary (JS.get response "summary");
     comments := sanitizeComments (JS.get response "comments") |}.

Section LlmClient.

(** [JSON.parse]: [None] when it throws a [SyntaxError]. *)
Variable JSON_parse : string -> option JS.value.

(** The model backend: the call throws, or returns a completion of which
    the code reads [choices[0]?.message?.content] ([None] when that is
    [null] or [undefined]). *)
Variable backend : BackendCall -> JS.thrown + option string.

Definition userPrompt (diff : string) (language : option string) : string :=
  match language with
  | Some l =>
      if JS.truthy (JS.Str l)
      then "Review this " ++ l ++ " code diff:" ++ Str.byte 10 ++ Str.byte 10 ++ diff
      else "Review this code diff:" ++ Str.byte 10 ++ Str.byte 10 ++ diff
  | None => "Review this code diff:" ++ Str.byte 10 ++ Str.byte 10 ++ diff
  end.

(** The [try] block of [generateCodeReview], after the backend answered. *)
Definition readCompletion (content : option string)
    : JS.thrown + ReviewResponse :=
  match content with
  | None => inl (JS.ErrorObject "No response content from OpenAI")
  | Some content =>
      if negb (JS.truthy (JS.Str content))
      then inl (JS.ErrorObject "No response content from OpenAI")
      else
        match JSON_parse content with
        | None => inl (JS.ErrorObject "Invalid JSON response from OpenAI")
        | Some parsedResponse =>
            if negb (String.eqb (JS.typeof parsedResponse) "object")
               || match parsedResponse with JS.Null => true | _ => false end
            then inl (JS.ErrorObject "OpenAI response is not a valid object")
            else inr (sanitize parsedResponse)
        end
  end.

(** The [catch] block of [generateCodeReview]: what it throws in turn. *)
Definition rethrow (e : JS.thrown) : JS.thrown :=
  match e with
  | JS.APIError m => JS.ErrorObject ("OpenAI API error: " ++ m)
  | JS.ErrorObject m => JS.ErrorObject m
  | JS.NotAnError => JS.ErrorObject "Unexpected error generating code review"
  end.

(** [generateCodeReview]: the backend calls it made, and what it throws or
    returns. *)
Definition generateCodeReview (diff : string) (language : option string)
    : list BackendCall * (JS.thrown + ReviewResponse) :=
  let call :=
    {| system_content := SYSTEM_PROMPT;
       user_content := userPrompt diff language |} in
  ([call],
   match backend call with
   | inl e => inl (rethrow e)
   | inr content =>
       match readCompletion content with
       | inl e => inl (rethrow e)
       | inr response => inr response
       end
   end).

(** [routes/review.ts]: the handler behind [validateReviewRequest]. *)
Definition reviewHandler (requestId : option string)
    (reviewRequest : ReviewRequest)
    : list BackendCall * HttpResponse ReviewResponse :=
  let (calls, outcome) :=
    generateCodeReview (diff reviewRequest) (language reviewRequest) in
  (calls,
   match outcome with
   | inr reviewResponse =>
       respond 200 (createSuccessResponse reviewResponse requestId)
   | inl _ =>
       respond 500
         (createErrorResponse EXTERNAL_SERVICE_ERROR
            "Failed to generate code review" None requestId)
   end).

Variable Number_toString : JS.number -> string.
Variable config : Config.

(** [router.post('/', validateReviewRequest, handler)] *)
Definition postReview (requestId : option string) (body : JS.value)
    : list BackendCall * HttpResponse ReviewResponse :=
  match validateReviewRequest Number_toString config requestId body with
  | inl response => ([], response)
  | inr reviewRequest => reviewHandler requestId reviewRequest
  end.

End LlmClient.

End ReviewService.

(** ** The webhook service *)

Module WebhookService.

Import Api.

(** [config.ts] *)
Record Config : Type := {
  port : JS.number;
  reviewServiceUrl : string;
  githubToken : string;
  githubWebhookSecret : option string;
  maxRequestSize : string;
  rateLimitWindowMs : JS.number;
  rateLimitMax : JS.number
}.

(** A member of [req.headers]: [string | string[] | undefined]. *)
Inductive Header : Type :=
| Absent
| Single (value : string)
| Repeated (values : list string).

(** *** [middleware/verifyGitHubSignature.ts] *)

(** What the middleware does besides answering: the lines it logs and its
    calls into [crypto]. *)
Inductive VerifyEvent : Type :=
| Logged (level message : string)
| CreateHmac (secret data : string)
| TimingSafeEqual (a b : string).

(** How a middleware ends: it calls [next()], it sends a response, or it
    lets an exception escape. *)
Inductive Middleware (T : Type) : Type :=
| Next
| Responded (response : HttpResponse T)
| Escaped (e : JS.thrown).

Arguments Next {T}.
Arguments Responded {T} response.
Arguments Escaped {T} e.

(** [crypto.timingSafeEqual]: a [RangeError] ([None]) unless both buffers
    have the same byte length. *)
Definition timingSafeEqual (a b : string) : option bool :=
  if Nat.eqb (String.length a) (String.length b)
  then Some (String.eqb a b)
  else None.

Definition unauthorized {T : Type} (message : string)
    (requestId : option string) : Middleware T :=
  Responded
    (respond 401
       (createErrorResponse AUTHENTICATION_ERROR message None requestId)).

Section VerifyGitHubSignature.

(** [createHmac('sha256', secret).update(data).digest('hex')] *)
Variable hmac_sha256_hex : string -> string -> string.

Variable config : Config.

(** [Buffer.from(s, 'utf8')] is the string itself under the convention of
    this file, and a buffer's [length] is [String.length]. *)
Definition verifyGitHubSignature {T : Type} (requestId : option string)
    (rawBody : option string) (signature : Header)
    : list VerifyEvent * Middleware T :=
  match githubWebhookSecret config with
  | None =>
      ([Logged "warn" "GITHUB_WEBHOOK_SECRET is not configured, skipping signature verification"],
       Next)
  | Some secret =>
      if negb (JS.truthy (JS.Str secret)) then
        ([Logged "warn" "GITHUB_WEBHOOK_SECRET is not configured, skipping signature verification"],
         Next)
      else
        match rawBody with
        | None =>
            ([Logged "error" "Missing rawBody in request - signature verification requires raw body buffer"],
             unauthorized "Missing request body for signature verification"
               requestId)
        | Some rawBody =>
            match signature with
            | Absent | Repeated _ =>
                ([Logged "error" "Missing or invalid x-hub-signature-256 header"],
                 unauthorized "Missing or invalid signature header" requestId)
            | Single signatureHeader =>
                if negb (JS.truthy (JS.Str signatureHeader)) then
                  ([Logged "error" "Missing or invalid x-hub-signature-256 header"],
                   unauthorized "Missing or invalid signature header"
                     requestId)
                else
                  let expectedSignature := hmac_sha256_hex secret rawBody in
                  let expected := "sha256=" ++ expectedSignature in
                  let computed :=
                    [CreateHmac secret rawBody;
                     Logged "debug" "Verifying GitHub webhook signature"] in
                  if negb (Nat.eqb (String.length expected)
                             (String.length signatureHeader))
                  then
                    (computed ++ [Logged "error" "Signature length mismatch"],
                     unauthorized "Invalid signature" requestId)%list
                  else
                    let compared :=
                      (computed ++ [TimingSafeEqual expected signatureHeader])%list in
                    match timingSafeEqual expected signatureHeader with
                    | None =>
                        (compared,
                         Escaped (JS.ErrorObject "Input buffers must have the same byte length"))
                    | Some false =>
                        (compared ++ [Logged "error" "GitHub webhook signature verification failed"],
                         unauthorized "Invalid signature" requestId)%list
                    | Some true =>
                        (compared ++ [Logged "debug" "GitHub webhook signature verified successfully"],
                         Next)%list
                    end
            end
        end
  end.

End VerifyGitHubSignature.

(** *** Calls that leave the process, and the monad that records them *)

(** The number of the pull request is passed on as the payload has it:
    the type [number] of [types.ts] is erased at run time. *)
Inductive Call : Type :=
| PullsGet (owner repo : string) (pull_number : JS.value)
| HttpGet (url accept : string) (timeout : Z)
| HttpPost (url : string) (data : JS.value) (timeout : Z)
| CreateReview (owner repo : string) (pull_number : JS.value)
    (event body : string).

(** The other side of those calls.  [octokit.rest.pulls.get] yields the
    [diff_url] of the pull request ([None] when it has none);
    [httpClient], with its retries, yields [response.data];
    [octokit.rest.pulls.createReview] yields nothing the code reads. *)
Record World : Type := {
  pulls_get : string -> string -> JS.value -> JS.thrown + option string;
  http_get : string -> JS.thrown + JS.value;
  http_post : string -> JS.value -> JS.thrown + JS.value;
  create_review :
    string -> string -> JS.value -> string -> string -> JS.thrown + unit
}.

(** A computation that may throw, with the calls it made so far. *)
Definition M (A : Type) : Type := (list Call * (JS.thrown + A))%type.

Definition ret {A : Type} (x : A) : M A := ([], inr x).

Definition throw {A : Type} (e : JS.thrown) : M A := ([], inl e).

(** A step that makes no call. *)
Definition lift {A : Type} (r : JS.thrown + A) : M A := ([], r).

Definition perform {A : Type} (c : Call) (result : JS.thrown + A) : M A :=
  ([c], result).

Definition bind {A B : Type} (m : M A) (k : A -> M B) : M B :=
  match m with
  | (t, inl e) => (t, inl e)
  | (t, inr x) => let (t', r) := k x in ((t ++ t')%list, r)
  end.

(** [try { m } catch (e) { handler e }] *)
Definition try_catch {A : Type} (m : M A) (handler : JS.thrown -> M A) : M A :=
  match m with
  | (t, inl e) => let (t', r) := handler e in ((t ++ t')%list, r)
  | (t, inr x) => (t, inr x)
  end.

Notation "x <- m ;; k" := (bind m (fun x => k))
  (at level 61, m at next level, right associativity).

(** [types.ts] *)
Inductive Severity : Type := info | warning | error.

Definition Severity_string (s : Severity) : string :=
  match s with
  | info => "info"
  | warning => "warning"
  | error => "error"
  end.

Record ReviewComment : Type := {
  file : string;
  line : JS.number;
  severity : Severity;
  message : string
}.

(** The object a [ReviewComment] is at run time. *)
Definition ReviewComment_value (c : ReviewComment) : JS.value :=
  JS.Object
    [ ("file", JS.Str (file c));
      ("line", JS.Number (line c));
      ("severity", JS.Str (Severity_string (severity c)));
      ("message", JS.Str (message c)) ].

(** The [data] of the handler's success envelopes. *)
Inductive WebhookData : Type :=
| Ignored
| Processed (forwardedToReviewService postedReviewToGitHub : bool)
    (reason : option string).

Section Pipeline.

Variable Number_toString : JS.number -> string.
Variable config : Config.
Variable world : World.

(** [PR #${pullNumber} in ${owner}/${repo}], the phrase of three error
    messages: the template converts the number the payload gave. *)
Definition pr_in (pullNumber : JS.value) (owner repo : string)
    : JS.thrown + string :=
  JS.and_then (JS.toString Number_toString pullNumber)
    (fun number => inr ("PR #" ++ number ++ " in " ++ owner ++ "/" ++ repo)).

(** *** [githubClient.ts] *)

Definition fetchPullRequestDiff (owner repo : string) (pullNumber : JS.value)
    : M string :=
  try_catch
    (diffUrl <- perform (PullsGet owner repo pullNumber)
                  (pulls_get world owner repo pullNumber) ;;
     match diffUrl with
     | None =>
         place <- lift (pr_in pullNumber owner repo) ;;
         throw (JS.ErrorObject ("No diff_url found for " ++ place))
     | Some diffUrl =>
         if negb (JS.truthy (JS.Str diffUrl)) then
           place <- lift (pr_in pullNumber owner repo) ;;
           throw (JS.ErrorObject ("No diff_url found for " ++ place))
         else
           data <- perform (HttpGet diffUrl "application/vnd.github.v3.diff" 10000)
                     (http_get world diffUrl) ;;
           match data with
           | JS.Str diff => ret diff
           | _ => throw (JS.ErrorObject "Invalid diff response format")
           end
     end)
    (fun e =>
       if JS.instanceofError e then
         place <- lift (pr_in pullNumber owner repo) ;;
         throw (JS.ErrorObject
                  ("Failed to fetch diff for " ++ place
                   ++ ": " ++ JS.errorMessage e))
       else
         place <- lift (pr_in pullNumber owner repo) ;;
         throw (JS.ErrorObject
                  ("Unexpected error fetching PR diff for " ++ place))).

(** *** [githubComments.ts] *)

Definition NO_ISSUES : string :=
  "_No specific issues were detected. Nice work!_".

(** One element of [comments.map(...)].  The parameters are typed
    [ReviewComment[]] but the handler passes what the review service sent,
    so the template is evaluated on arbitrary values: reading a property
    of [null] or [undefined] throws a [TypeError], and so does the
    conversion of a member that cannot be converted to a string. *)
Definition bullet (c : JS.value) : JS.thrown + string :=
  match c with
  | JS.Null =>
      inl (JS.ErrorObject "Cannot read properties of null (reading 'severity')")
  | JS.Undefined =>
      inl (JS.ErrorObject "Cannot read properties of undefined (reading 'severity')")
  | _ =>
      JS.and_then (JS.toString Number_toString (JS.get c "severity"))
        (fun severity =>
      JS.and_then (JS.toString Number_toString (JS.get c "file"))
        (fun file =>
      JS.and_then (JS.toString Number_toString (JS.get c "line"))
        (fun line =>
      JS.and_then (JS.toString Number_toString (JS.get c "message"))
        (fun message =>
      inr ("- (**" ++ severity ++ "**) `" ++ file ++ ":" ++ line
           ++ "` – " ++ message)))))
  end.

Fixpoint bullets (comments : list JS.value) : JS.thrown + list string :=
  match comments with
  | [] => inr []
  | c :: rest =>
      match bullet c with
      | inl e => inl e
      | inr b =>
          match bullets rest with
          | inl e => inl e
          | inr bs => inr (b :: bs)
          end
      end
  end.

Definition findings (comments : list JS.value) : JS.thrown + string :=
  match comments with
  | [] => inr NO_ISSUES
  | _ :: _ =>
      match bullets comments with
      | inl e => inl e
      | inr bs => inr (Str.join (Str.byte 10) bs)
      end
  end.

(** [[heading, '', summary, '', '#### Findings', findings].join('\n')]:
    the join converts the summary, which the handler passes as the review
    service sent it. *)
Definition reviewBody (summary : JS.value) (findings : string)
    : JS.thrown + string :=
  JS.and_then (JS.joined Number_toString summary)
    (fun summary =>
       inr (Str.join (Str.byte 10)
              [ "### 🤖 AI Code Review Assistant";
                "";
                summary;
                "";
                "#### Findings";
                findings ])).

Definition postReviewSummary (owner repo : string) (pullNumber : JS.value)
    (summary : JS.value) (comments : list JS.value) : M unit :=
  text <- lift (findings comments) ;;
  body <- lift (reviewBody summary text) ;;
  try_catch
    (perform (CreateReview owner repo pullNumber "COMMENT" body)
       (create_review world owner repo pullNumber "COMMENT" body))
    (fun err =>
       let errorMessage :=
         if JS.instanceofError err then JS.errorMessage err
         else "Unknown error" in
       place <- lift (pr_in pullNumber owner repo) ;;
       throw (JS.ErrorObject
                ("Failed to post review summary to " ++ place
                 ++ ": " ++ errorMessage))).

(** *** [routes/githubWebhook.ts]

    [req.body] is what [express.json] parsed, or [undefined] when the
    request had no JSON body: the type [GitHubWebhookPayload] the handler
    gives it is erased at run time, so the payload is a value like any
    other. *)

(** [['opened', 'reopened', 'synchronize'].includes(action)] *)
Definition actions_include (action : JS.value) : bool :=
  match action with
  | JS.Str a => existsb (String.eqb a) ["opened"; "reopened"; "synchronize"]
  | _ => false
  end.

Definition actionable (eventType : Header) (body : JS.value) : bool :=
  match eventType with
  | Single e =>
      String.eqb e "pull_request"
      && (JS.truthy (JS.get body "action")
          && actions_include (JS.get body "action"))
  | _ => false
  end.

(** [const [owner, repo] = fullName.split('/')]: the first two segments,
    [None] standing for [undefined]. *)
Definition owner_repo (fullName : string) : option string * option string :=
  let parts := Str.split "/" fullName in
  (nth_error parts 0, nth_error parts 1).

(** [!s] for a [string | undefined]. *)
Definition missing (s : option string) : bool :=
  match s with
  | Some s => negb (JS.truthy (JS.Str s))
  | None => true
  end.

(** The body sent to the review service. *)
Definition reviewRequestBody (fullName : string) (pullNumber : JS.value)
    (diff : string) : JS.value :=
  JS.Object
    [ ("repo", JS.Str fullName);
      ("prNumber", pullNumber);
      ("diff", JS.Str diff);
      ("language", JS.Str "typescript") ].

(** [!diff || diff.trim().length === 0] *)
Definition emptyDiff (diff : string) : bool :=
  negb (JS.truthy (JS.Str diff)) || Nat.eqb (JS.length (Str.trim diff)) 0.

(** [reviewServiceResponse.data.data || reviewServiceResponse.data] *)
Definition reviewData (data : JS.value) : JS.value :=
  if JS.truthy (JS.get data "data") then JS.get data "data" else data.

(** [error.message.includes('timeout') || error.message.includes('TIMEOUT')] *)
Definition isTimeout (message : string) : bool :=
  Str.includes "timeout" message || Str.includes "TIMEOUT" message.

(** [reviewServiceResponse.data.data], which the handler reads first for
    its log line: reading a property of [null] or [undefined] throws. *)
Definition data_of (data : JS.value) : M JS.value :=
  match data with
  | JS.Null =>
      throw (JS.ErrorObject "Cannot read properties of null (reading 'data')")
  | JS.Undefined =>
      throw (JS.ErrorObject "Cannot read properties of undefined (reading 'data')")
  | _ => ret (JS.get data "data")
  end.

(** The part of the handler that runs once owner and repository are
    known: diff fetch, forwarding, publication. *)
Definition review (requestId : option string) (fullName : string)
    (pullNumber : JS.value) (owner repo : string)
    : M (HttpResponse WebhookData) :=
  diff <- fetchPullRequestDiff owner repo pullNumber ;;
  if emptyDiff diff then
    ret (respond 200
           (createSuccessResponse
              (Processed false false (Some "PR has no changes to review"))
              requestId))
  else
    data <- perform
              (HttpPost (reviewServiceUrl config ++ "/review")
                 (reviewRequestBody fullName pullNumber diff) 120000)
              (http_post world (reviewServiceUrl config ++ "/review")
                 (reviewRequestBody fullName pullNumber diff)) ;;
    _ <- data_of data ;;
    let summary := JS.get (reviewData data) "summary" in
    let comments := JS.get (reviewData data) "comments" in
    match comments with
    | JS.Array comments =>
        if negb (JS.truthy summary) then
          ret (respond 500
                 (createErrorResponse EXTERNAL_SERVICE_ERROR
                    "Invalid response format from review service" None
                    requestId))
        else
          try_catch
            (_ <- postReviewSummary owner repo pullNumber summary comments ;;
             ret (respond 200
                    (createSuccessResponse (Processed true true None)
                       requestId)))
            (fun postError =>
               ret (respond 500
                      (createErrorResponse EXTERNAL_SERVICE_ERROR
                         ("Failed to post review to GitHub: "
                          ++ (if JS.instanceofError postError
                              then JS.errorMessage postError
                              else "Unknown error"))
                         None requestId)))
    | _ =>
        ret (respond 500
               (createErrorResponse EXTERNAL_SERVICE_ERROR
                  "Invalid response format from review service" None
                  requestId))
    end.

(** The [try] block of the handler.  [fullName.split] exists for a string
    only: on any other truthy value the call throws a [TypeError]. *)
Definition dispatch (requestId : option string) (eventType : Header)
    (body : JS.value) : M (HttpResponse WebhookData) :=
  if actionable eventType body then
    let fullName := JS.get (JS.get body "repository") "full_name" in
    let pullNumber := JS.get (JS.get body "pull_request") "number" in
    if negb (JS.truthy fullName) || negb (JS.truthy pullNumber) then
      ret (respond 400
             (createErrorResponse VALIDATION_ERROR
                "Missing repo full_name or PR number" None requestId))
    else
      match fullName with
      | JS.Str fullName =>
          let (owner, repo) := owner_repo fullName in
          match owner, repo with
          | Some owner, Some repo =>
              if negb (JS.truthy (JS.Str owner))
                 || negb (JS.truthy (JS.Str repo))
              then
                ret (respond 400
                       (createErrorResponse VALIDATION_ERROR
                          "Invalid repository full_name format"
                          (Some (JS.Object [("fullName", JS.Str fullName)]))
                          requestId))
              else review requestId fullName pullNumber owner repo
          | _, _ =>
              ret (respond 400
                     (createErrorResponse VALIDATION_ERROR
                        "Invalid repository full_name format"
                        (Some (JS.Object [("fullName", JS.Str fullName)]))
                        requestId))
          end
      | _ => throw (JS.ErrorObject "fullName.split is not a function")
      end
  else
    ret (respond 200 (createSuccessResponse Ignored requestId)).

(** The [catch] block of the handler. *)
Definition failure (requestId : option string) (e : JS.thrown)
    : HttpResponse WebhookData :=
  if JS.instanceofError e then
    respond 500
      (createErrorResponse
         (if isTimeout (JS.errorMessage e) then TIMEOUT_ERROR
          else INTERNAL_ERROR)
         ("Failed to process webhook: " ++ JS.errorMessage e) None requestId)
  else
    respond 500
      (createErrorResponse INTERNAL_ERROR
         "Failed to process webhook: Unknown error" None requestId).

(** The [try ... catch] statement of the handler: the calls it made and
    the response it sent. *)
Definition guarded (requestId : option string) (eventType : Header)
    (body : JS.value) : list Call * HttpResponse WebhookData :=
  match dispatch requestId eventType body with
  | (t, inr response) => (t, response)
  | (t, inl e) => (t, failure requestId e)
  end.

(** The handler of [POST /webhook], behind [verifyGitHubSignature].  Its
    first statement, before the [try], logs [body.action]: without a
    parsed body that read throws, and the handler ends without a
    response. *)
Definition webhook (requestId : option string) (eventType : Header)
    (body : JS.value) : list Call * (JS.thrown + HttpResponse WebhookData) :=
  match body with
  | JS.Null =>
      ([], inl (JS.ErrorObject
                  "Cannot read properties of null (reading 'action')"))
  | JS.Undefined =>
      ([], inl (JS.ErrorObject
                  "Cannot read properties of undefined (reading 'action')"))
  | _ =>
      let (calls, response) := guarded requestId eventType body in
      (calls, inr response)
  end.

End Pipeline.

(** *** The endpoint: [router.post('/webhook', verifyGitHubSignature, handler)] *)

(** A request as the two functions see it: [req.id], [req.rawBody], two
    members of [req.headers] and [req.body]. *)
Record Request : Type := {
  requestId : option string;
  rawBody : option string;
  x_hub_signature_256 : Header;
  x_github_event : Header;
  payload : JS.value
}.

Section Endpoint.

Variable hmac_sha256_hex : string -> string -> string.
Variable Number_toString : JS.number -> string.
Variable config : Config.
Variable world : World.

Definition authenticate (req : Request) : Middleware WebhookData :=
  snd (verifyGitHubSignature hmac_sha256_hex config (requestId req)
         (rawBody req) (x_hub_signature_256 req)).

(** The calls made on behalf of the request and the response sent, or the
    exception handed to the error middleware. *)
Definition postWebhook (req : Request)
    : list Call * (JS.thrown + HttpResponse WebhookData) :=
  match authenticate req with
  | Next =>
      webhook Number_toString config world (requestId req)
        (x_github_event req) (payload req)
  | Responded response => ([], inr response)
  | Escaped e => ([], inl e)
  end.

(** The error-handling middleware of [createServer], which answers for
    what a handler threw (Express 5 hands it the rejection of an [async]
    handler):
    [res.status(500).json({ success: false, error: { code: 'INTERNAL_ERROR',
    message: 'An internal error occurred', requestId: req.id } })]. *)
Definition errorMiddleware (req : Request) : HttpResponse WebhookData :=
  respond 500
    (ErrorResponse
       {| Api.code := INTERNAL_ERROR;
          Api.message := "An internal error occurred";
          Api.details := None;
          Api.error_requestId := requestId req |}).

(** What the client of [POST /github/webhook] is answered. *)
Definition answer (req : Request) : list Call * HttpResponse WebhookData :=
  match postWebhook req with
  | (calls, inr response) => (calls, response)
  | (calls, inl _) => (calls, errorMiddleware req)
  end.

End Endpoint.

End WebhookService.

(** ** The platform built-ins, for the examples

    Reference definitions of the three built-ins the services are
    parameterised by.  No theorem about the services depends on them; they
    instantiate the section variables where a statement is evaluated on
    concrete data. *)

(** FIPS 180-4 SHA-256 and RFC 2104 HMAC, on bytes as [N]. *)
Module Crypto.

Local Open Scope N_scope.

Definition w32 (x : N) : N := N.land x 0xffffffff.

Definition rotr (n x : N) : N :=
  N.lor (N.shiftr x n) (w32 (N.shiftl x (32 - n))).

Definition Ch (x y z : N) : N :=
  N.lxor (N.land x y) (N.land (N.lxor x 0xffffffff) z).

Definition Maj (x y z : N) : N :=
  N.lxor (N.land x y) (N.lxor (N.land x z) (N.land y z)).

Definition Sigma0 (x : N) : N := N.lxor (rotr 2 x) (N.lxor (rotr 13 x) (rotr 22 x)).
Definition Sigma1 (x : N) : N := N.lxor (rotr 6 x) (N.lxor (rotr 11 x) (rotr 25 x)).
Definition sigma0 (x : N) : N := N.lxor (rotr 7 x) (N.lxor (rotr 18 x) (N.shiftr x 3)).
Definition sigma1 (x : N) : N := N.lxor (rotr 17 x) (N.lxor (rotr 19 x) (N.shiftr x 10)).

Definition K : list N :=
  [ 1116352408; 1899447441; 3049323471; 3921009573; 961987163; 1508970993; 2453635748; 2870763221;
    3624381080; 310598401; 607225278; 1426881987; 1925078388; 2162078206; 2614888103; 3248222580;
    3835390401; 4022224774; 264347078; 604807628; 770255983; 1249150122; 1555081692; 1996064986;
    2554220882; 2821834349; 2952996808; 3210313671; 3336571891; 3584528711; 113926993; 338241895;
    666307205; 773529912; 1294757372; 1396182291; 1695183700; 1986661051; 2177026350; 2456956037;
    2730485921; 2820302411; 3259730800; 3345764771; 3516065817; 3600352804; 4094571909; 275423344;
    430227734; 506948616; 659060556; 883997877; 958139571; 1322822218; 1537002063; 1747873779;
    1955562222; 2024104815; 2227730452; 2361852424; 2428436474; 2756734187; 3204031479; 3329325298 ].

Definition H0 : list N :=
  [ 1779033703; 3144134277; 1013904242; 2773480762;
    1359893119; 2600822924; 528734635; 1541459225 ].

(** Big-endian bytes of [x], [n] of them. *)
Fixpoint be_bytes (n : nat) (x : N) : list N :=
  match n with
  | O => []
  | S m => N.land (N.shiftr x (8 * N.of_nat m)) 0xff :: be_bytes m x
  end.

Fixpoint be_word (bs : list N) (acc : N) : N :=
  match bs with
  | [] => acc
  | b :: rest => be_word rest (N.lor (N.shiftl acc 8) b)
  end.

Definition pad (msg : list N) : list N :=
  let len := List.length msg in
  let zeros := ((64 - ((len + 9) mod 64)) mod 64)%nat in
  (msg ++ [0x80] ++ repeat 0 zeros ++ be_bytes 8 (8 * N.of_nat len))%list.

Fixpoint chunks (fuel : nat) (size : nat) (l : list N) : list (list N) :=
  match fuel, l with
  | O, _ => []
  | _, [] => []
  | S fuel', _ => firstn size l :: chunks fuel' size (skipn size l)
  end.

(** The message schedule, most recent word first. *)
Fixpoint extend (n : nat) (w : list N) : list N :=
  match n with
  | O => w
  | S m =>
      extend m
        (w32 (sigma1 (nth 1 w 0) + nth 6 w 0 + sigma0 (nth 14 w 0) + nth 15 w 0)
         :: w)
  end.

Definition schedule (block : list N) : list N :=
  List.rev (extend 48 (List.rev (map (fun b => be_word b 0) (chunks 16 4 block)))).

Definition round (s : list N) (kw : N * N) : list N :=
  match s with
  | [a; b; c; d; e; f; g; h] =>
      let t1 := h + Sigma1 e + Ch e f g + fst kw + snd kw in
      let t2 := Sigma0 a + Maj a b c in
      [w32 (t1 + t2); a; b; c; w32 (d + t1); e; f; g]
  | _ => s
  end.

Definition compress (h : list N) (block : list N) : list N :=
  map (fun p => w32 (fst p + snd p))
    (combine h (fold_left round (combine K (schedule block)) h)).

Definition sha256 (msg : list N) : list N :=
  let padded := pad msg in
  flat_map (be_bytes 4)
    (fold_left compress (chunks (List.length padded) 64 padded) H0).

Definition hmac_sha256 (key msg : list N) : list N :=
  let key := if Nat.ltb 64 (List.length key) then sha256 key else key in
  let key := (key ++ repeat 0 (64 - List.length key))%list in
  sha256 (map (N.lxor 0x5c) key ++ sha256 (map (N.lxor 0x36) key ++ msg))%list.

Definition bytes_of (s : string) : list N := map N_of_ascii (list_ascii_of_string s).

Definition hex_digit (n : N) : ascii :=
  if n <? 10 then ascii_of_N (48 + n) else ascii_of_N (87 + n).

Fixpoint hex (bs : list N) : string :=
  match bs with
  | [] => EmptyString
  | b :: rest => String (hex_digit (N.shiftr b 4)) (String (hex_digit (N.land b 15)) (hex rest))
  end.

Definition hmac_sha256_hex (secret data : string) : string :=
  hex (hmac_sha256 (bytes_of secret) (bytes_of data)).

End Crypto.

(** RFC 8259 JSON text to [JS.value], numbers read exactly. *)
Module JsonText.

Definition is_ws (c : ascii) : bool :=
  Ascii.eqb c " " || Ascii.eqb c (ascii_of_nat 9)
  || Ascii.eqb c (ascii_of_nat 10) || Ascii.eqb c (ascii_of_nat 13).

Fixpoint skip_ws (s : string) : string :=
  match s with
  | String c rest => if is_ws c then skip_ws rest else s
  | EmptyString => s
  end.

Definition is_digit (c : ascii) : bool :=
  Nat.leb 48 (nat_of_ascii c) && Nat.leb (nat_of_ascii c) 57.

Definition digit_value (c : ascii) : Z := Z.of_nat (nat_of_ascii c) - 48.

Definition hex_value (c : ascii) : option Z :=
  let n := Z.of_nat (nat_of_ascii c) in
  if (48 <=? n)%Z && (n <=? 57)%Z then Some (n - 48)%Z
  else if (65 <=? n)%Z && (n <=? 70)%Z then Some (n - 55)%Z
  else if (97 <=? n)%Z && (n <=? 102)%Z then Some (n - 87)%Z
  else None.

Definition hex4 (a b c d : ascii) : option Z :=
  match hex_value a, hex_value b, hex_value c, hex_value d with
  | Some x, Some y, Some z, Some w => Some (((x * 16 + y) * 16 + z) * 16 + w)%Z
  | _, _, _, _ => None
  end.

(** The characters of a string literal, after its opening quote: a byte
    of the text as it is, or the code unit of a [\u] escape. *)
Fixpoint units (s : string) : option (list (ascii + Z) * string) :=
  match s with
  | EmptyString => None
  | String c rest =>
      if Ascii.eqb c (ascii_of_nat 34) then Some ([], rest)
      else if Nat.ltb (nat_of_ascii c) 32 then None
      else if Ascii.eqb c "\" then
        match rest with
        | String e rest' =>
            if Ascii.eqb e "u" then
              match rest' with
              | String h1 (String h2 (String h3 (String h4 rest''))) =>
                  match hex4 h1 h2 h3 h4, units rest'' with
                  | Some u, Some (us, r) => Some (inr u :: us, r)
                  | _, _ => None
                  end
              | _ => None
              end
            else
              let simple :=
                if Ascii.eqb e (ascii_of_nat 34) then Some (ascii_of_nat 34)
                else if Ascii.eqb e "\" then Some "\"%char
                else if Ascii.eqb e "/" then Some "/"%char
                else if Ascii.eqb e "b" then Some (ascii_of_nat 8)
                else if Ascii.eqb e "f" then Some (ascii_of_nat 12)
                else if Ascii.eqb e "n" then Some (ascii_of_nat 10)
                else if Ascii.eqb e "r" then Some (ascii_of_nat 13)
                else if Ascii.eqb e "t" then Some (ascii_of_nat 9)
                else None in
              match simple, units rest' with
              | Some x, Some (us, r) => Some (inl x :: us, r)
              | _, _ => None
              end
        | EmptyString => None
        end
      else
        match units rest with
        | Some (us, r) => Some (inl c :: us, r)
        | None => None
        end
  end.

Definition char_of (z : Z) : ascii := ascii_of_nat (Z.to_nat z).

(** UTF-8 of a code point. *)
Definition utf8 (cp : Z) : string :=
  if (cp <? 128)%Z then String (char_of cp) ""
  else if (cp <? 2048)%Z then
    String (char_of (192 + cp / 64)) (String (char_of (128 + cp mod 64)) "")
  else if (cp <? 65536)%Z then
    String (char_of (224 + cp / 4096))
      (String (char_of (128 + (cp / 64) mod 64))
         (String (char_of (128 + cp mod 64)) ""))
  else
    String (char_of (240 + cp / 262144))
      (String (char_of (128 + (cp / 4096) mod 64))
         (String (char_of (128 + (cp / 64) mod 64))
            (String (char_of (128 + cp mod 64)) ""))).

Definition high_surrogate (u : Z) : bool := (55296 <=? u)%Z && (u <? 56320)%Z.
Definition low_surrogate (u : Z) : bool := (56320 <=? u)%Z && (u <? 57344)%Z.

(** Pairs surrogates and encodes; a lone surrogate becomes U+FFFD, as it
    does whenever the string is written out as UTF-8. *)
Fixpoint encode (us : list (ascii + Z)) : string :=
  match us with
  | [] => ""
  | inl c :: rest => String c (encode rest)
  | inr u :: rest =>
      if high_surrogate u then
        match rest with
        | inr v :: rest' =>
            if low_surrogate v
            then utf8 (65536 + (u - 55296) * 1024 + (v - 56320)) ++ encode rest'
            else utf8 65533 ++ encode rest
        | _ => utf8 65533 ++ encode rest
        end
      else if low_surrogate u then utf8 65533 ++ encode rest
      else utf8 u ++ encode rest
  end.

Definition string_literal (s : string) : option (string * string) :=
  match units s with
  | Some (us, rest) => Some (encode us, rest)
  | None => None
  end.

Fixpoint digits (s : string) (acc : Z) (count : nat) : Z * nat * string :=
  match s with
  | String c rest =>
      if is_digit c then digits rest (acc * 10 + digit_value c) (S count)
      else (acc, count, s)
  | EmptyString => (acc, count, s)
  end.

Definition scaled (m e : Z) : Q :=
  if (0 <=? e)%Z then inject_Z (m * 10 ^ e)
  else Qmake m (Z.to_pos (10 ^ (- e))).

(** A number literal: [-? int frac? exp?]. *)
Definition number_literal (s : string) : option (Q * string) :=
  let (negative, s1) :=
    match s with
    | String "-" rest => (true, rest)
    | _ => (false, s)
    end in
  match s1 with
  | String c _ =>
      if is_digit c then
        let '(int, n, s2) := digits s1 0 0 in
        if Ascii.eqb c "0" && Nat.ltb 1 n then None
        else
          let frac :=
            match s2 with
            | String "." rest =>
                let '(m, k, s3) := digits rest int 0 in
                if Nat.eqb k 0 then None else Some (m, k, s3)
            | _ => Some (int, O, s2)
            end in
          match frac with
          | None => None
          | Some (m, k, s3) =>
              let signed := if negative then (- m)%Z else m in
              let exp :=
                match s3 with
                | String e rest =>
                    if Ascii.eqb e "e" || Ascii.eqb e "E" then
                      let (minus, s4) :=
                        match rest with
                        | String "-" r => (true, r)
                        | String "+" r => (false, r)
                        | _ => (false, rest)
                        end in
                      let '(x, j, s5) := digits s4 0 0 in
                      if Nat.eqb j 0 then None
                      else Some ((if minus then - x else x)%Z, s5)
                    else Some (0%Z, s3)
                | EmptyString => Some (0%Z, s3)
                end in
              match exp with
              | None => None
              | Some (x, s5) => Some (scaled signed (x - Z.of_nat k), s5)
              end
          end
      else None
  | EmptyString => None
  end.

(** [fields[key] = v]: a repeated key keeps its place and takes the later
    value. *)
Fixpoint set (key : string) (v : JS.value) (fields : list (string * JS.value))
    : list (string * JS.value) :=
  match fields with
  | [] => [(key, v)]
  | (k, x) :: rest =>
      if String.eqb k key then (k, v) :: rest else (k, x) :: set key v rest
  end.

Definition keyword (word : string) (v : JS.value) (s : string)
    : option (JS.value * string) :=
  if String.prefix word s then Some (v, Str.drop (String.length word) s)
  else None.

Fixpoint value (fuel : nat) (s : string) : option (JS.value * string) :=
  match fuel with
  | O => None
  | S fuel' =>
      match skip_ws s with
      | EmptyString => None
      | String c rest as s' =>
          if Ascii.eqb c "n" then keyword "null" JS.Null s'
          else if Ascii.eqb c "t" then keyword "true" (JS.Bool true) s'
          else if Ascii.eqb c "f" then keyword "false" (JS.Bool false) s'
          else if Ascii.eqb c (ascii_of_nat 34) then
            match string_literal rest with
            | Some (x, r) => Some (JS.Str x, r)
            | None => None
            end
          else if Ascii.eqb c "[" then
            match skip_ws rest with
            | String "]" r => Some (JS.Array [], r)
            | _ =>
                match elements fuel' rest with
                | Some (xs, r) => Some (JS.Array xs, r)
                | None => None
                end
            end
          else if Ascii.eqb c "{" then
            match skip_ws rest with
            | String "}" r => Some (JS.Object [], r)
            | _ =>
                match members fuel' rest [] with
                | Some (fs, r) => Some (JS.Object fs, r)
                | None => None
                end
            end
          else
            match number_literal s' with
            | Some (q, r) => Some (JS.Number q, r)
            | None => None
            end
      end
  end
with elements (fuel : nat) (s : string) : option (list JS.value * string) :=
  match fuel with
  | O => None
  | S fuel' =>
      match value fuel' s with
      | Some (x, r) =>
          match skip_ws r with
          | String "," r' =>
              match elements fuel' r' with
              | Some (xs, r'') => Some (x :: xs, r'')
              | None => None
              end
          | String "]" r' => Some ([x], r')
          | _ => None
          end
      | None => None
      end
  end
with members (fuel : nat) (s : string) (acc : list (string * JS.value))
    : option (list (string * JS.value) * string) :=
  match fuel with
  | O => None
  | S fuel' =>
      match skip_ws s with
      | String q rest =>
          if Ascii.eqb q (ascii_of_nat 34) then
            match string_literal rest with
            | Some (key, r) =>
                match skip_ws r with
                | String ":" r1 =>
                    match value fuel' r1 with
                    | Some (x, r2) =>
                        match skip_ws r2 with
                        | String "," r3 => members fuel' r3 (set key x acc)
                        | String "}" r3 => Some (set key x acc, r3)
                        | _ => None
                        end
                    | None => None
                    end
                | _ => None
                end
            | None => None
            end
          else None
      | EmptyString => None
      end
  end.

(** [JSON.parse]: [None] for a [SyntaxError]. *)
Definition parse (text : string) : option JS.value :=
  match value (2 * String.length text + 2) text with
  | Some (v, rest) =>
      match skip_ws rest with
      | EmptyString => Some v
      | _ => None
      end
  | None => None
  end.

End JsonText.

Module Node.

Definition digit (z : Z) : ascii := ascii_of_nat (48 + Z.to_nat z).

Fixpoint decimal_digits (fuel : nat) (z : Z) (acc : string) : string :=
  match fuel with
  | O => acc
  | S fuel' =>
      let acc' := String (digit (z mod 10)) acc in
      if (z <? 10)%Z then acc' else decimal_digits fuel' (z / 10) acc'
  end.

(** Decimal digits of a natural number. *)
Definition decimal (z : Z) : string :=
  decimal_digits (S (Z.to_nat (Z.log2 z))) z "".

Fixpoint fraction_digits (fuel : nat) (r d : Z) : string :=
  match fuel with
  | O => ""
  | S fuel' =>
      if (r =? 0)%Z then ""
      else String (digit (10 * r / d)) (fraction_digits fuel' ((10 * r) mod d) d)
  end.

(** Number::toString: exact for the integers below 10^21 and for the
    fractions with at most twenty decimals, which JavaScript prints in
    full as well when they are not tiny. *)
Definition Number_toString (n : JS.number) : string :=
  let num := Z.abs (Qnum n) in
  let den := Zpos (Qden n) in
  (if (Qnum n <? 0)%Z then "-" else "")
  ++ decimal (num / den)
  ++ (if (num mod den =? 0)%Z then ""
      else "." ++ fraction_digits 20 (num mod den) den).

Definition hmac_sha256_hex : string -> string -> string :=
  Crypto.hmac_sha256_hex.

Definition JSON_parse : string -> option JS.value := JsonText.parse.

End Node.

(** ** Notions of the specification

    The words of the specification the theorems compare the code with. *)

Module Spec.

(** "An object with a string file path, a numeric line, a severity string
    that is exactly one of the three recognized values, and a string
    message." *)
Definition FindingShape (v : JS.value) : Prop :=
  exists fields file line severity message,
    v = JS.Object fields
    /\ JS.lookup "file" fields = JS.Str file
    /\ JS.lookup "line" fields = JS.Number line
    /\ JS.lookup "severity" fields = JS.Str severity
    /\ In severity ["info"; "warning"; "error"]
    /\ JS.lookup "message" fields = JS.Str message.

(** [Retains P l kept]: [kept] is [l] with exactly the members satisfying
    [P], in their original relative order. *)
Inductive Retains {A : Type} (P : A -> Prop) : list A -> list A -> Prop :=
| Retains_nil : Retains P [] []
| Retains_keep x l kept : P x -> Retains P l kept -> Retains P (x :: l) (x :: kept)
| Retains_drop x l kept : ~ P x -> Retains P l kept -> Retains P (x :: l) kept.

(** The entries of a [comments] value: none unless it is an array. *)
Definition entries (v : JS.value) : list JS.value :=
  match v with
  | JS.Array items => items
  | _ => []
  end.

(** A JSON object, as opposed to the other five kinds of JSON value. *)
Definition JsonObject (v : JS.value) : Prop :=
  exists fields, v = JS.Object fields.

(** "The string [sha256=] followed by the lowercase hex HMAC-SHA256 of the
    raw body keyed by the secret." *)
Definition expected_signature (hmac_sha256_hex : string -> string -> string)
    (secret rawBody : string) : string :=
  "sha256=" ++ hmac_sha256_hex secret rawBody.

(** [s'] is [s] with one byte replaced by a different one. *)
Definition OneByteFlipped (s s' : string) : Prop :=
  exists before c c' after,
    c <> c' /\ s = before ++ String c after /\ s' = before ++ String c' after.

(** "A repository full name splittable into exactly two non-empty
    segments on [/]." *)
Definition TwoSegments (fullName : string) : Prop :=
  exists owner repo,
    Str.split "/" fullName = [owner; repo] /\ owner <> "" /\ repo <> "".

(** The first two segments of a full name, when both are there and
    non-empty. *)
Definition owner_and_repo (fullName : string) : option (string * string) :=
  match Str.split "/" fullName with
  | owner :: repo :: _ =>
      if String.eqb owner "" || String.eqb repo "" then None
      else Some (owner, repo)
  | _ => None
  end.

(** [body.repository?.full_name] and [body.pull_request?.number] *)
Definition full_name (body : JS.value) : JS.value :=
  JS.get (JS.get body "repository") "full_name".

Definition number (body : JS.value) : JS.value :=
  JS.get (JS.get body "pull_request") "number".

(** The identity of the pull request of a payload: a full name that is a
    non-empty string, with its first two segments, and a pull-request
    number that is there and neither zero nor any other falsy value. *)
Definition identity (body : JS.value)
    : option (string * JS.value * string * string) :=
  match full_name body with
  | JS.Str fullName =>
      if String.eqb fullName "" then None
      else if negb (JS.truthy (number body)) then None
      else
        match owner_and_repo fullName with
        | Some (owner, repo) => Some (fullName, number body, owner, repo)
        | None => None
        end
  | _ => None
  end.

(** A payload whose full name is there but is no string, beside a
    pull-request number: the one payload with a parsed body that the
    handler neither refuses nor reviews. *)
Definition unsplittable (body : JS.value) : bool :=
  JS.truthy (full_name body) && JS.truthy (number body)
  && negb (String.eqb (JS.typeof (full_name body)) "string").

(** "Event kind is the pull-request kind and action is one of the three
    actionable values." *)
Definition Actionable (eventType : WebhookService.Header)
    (body : JS.value) : Prop :=
  eventType = WebhookService.Single "pull_request"
  /\ exists a,
       JS.get body "action" = JS.Str a
       /\ In a ["opened"; "reopened"; "synchronize"].

(** The shapes of the four calls of a run for one pull request. *)
Definition PipelineCall (fullName : string) (pullNumber : JS.value)
    (owner repo url : string) (c : WebhookService.Call) : Prop :=
  c = WebhookService.PullsGet owner repo pullNumber
  \/ (exists diffUrl,
        c = WebhookService.HttpGet diffUrl "application/vnd.github.v3.diff" 10000)
  \/ (exists diff,
        c = WebhookService.HttpPost url
              (WebhookService.reviewRequestBody fullName pullNumber diff) 120000)
  \/ (exists body,
        c = WebhookService.CreateReview owner repo pullNumber "COMMENT" body).

(** A text without line feed. *)
Fixpoint single_line (s : string) : bool :=
  match s with
  | EmptyString => true
  | String c rest => negb (Ascii.eqb c Str.LF) && single_line rest
  end.

(** The bullet of a finding: [(severity) file:line – message] in its
    markdown dress, severity in bold and location as code. *)
Definition bullet_line (Number_toString : JS.number -> string)
    (c : WebhookService.ReviewComment) : string :=
  "- (**" ++ WebhookService.Severity_string (WebhookService.severity c)
  ++ "**) `" ++ WebhookService.file c ++ ":"
  ++ Number_toString (WebhookService.line c)
  ++ "` – " ++ WebhookService.message c.

(** A finding whose file, line and message are rendered without line
    feed. *)
Definition on_one_line (Number_toString : JS.number -> string)
    (c : WebhookService.ReviewComment) : bool :=
  single_line (WebhookService.file c)
  && single_line (Number_toString (WebhookService.line c))
  && single_line (WebhookService.message c).

(** The lines of a markdown text that open a bullet. *)
Definition bulleted_lines (text : string) : list string :=
  filter (String.prefix "- ") (Str.lines text).

End Spec.

(** ** Data of the examples *)

Module Examples.

Import ReviewService.

Definition q (s : string) : string := ReviewService.quoted s.

(** A review request as the webhook service sends it. *)
Definition request : ReviewRequest :=
  {| repo := "acme/widgets"; prNumber := 42%Q;
     diff := "diff --git a/a.ts b/a.ts"; language := Some "typescript" |}.

(** A model backend that answers every call with the same text. *)
Definition answering (text : string) : BackendCall -> JS.thrown + option string :=
  fun _ => inr (Some text).

Definition finding_text (file line severity message : string) : string :=
  "{" ++ q "file" ++ ":" ++ q file ++ "," ++ q "line" ++ ":" ++ line ++ ","
  ++ q "severity" ++ ":" ++ q severity ++ "," ++ q "message" ++ ":" ++ q message
  ++ "}".

(** A reply whose [comments] mix two valid findings with an entry without
    line, one with an unknown severity, one with a line of the wrong type
    and a number. *)
Definition mixed_reply : string :=
  "{" ++ q "summary" ++ ":" ++ q "Looks fine" ++ "," ++ q "comments" ++ ":["
  ++ finding_text "a.ts" "3" "warning" "unused var" ++ ","
  ++ "{" ++ q "file" ++ ":" ++ q "b.ts" ++ "," ++ q "severity" ++ ":" ++ q "error"
  ++ "," ++ q "message" ++ ":" ++ q "no line" ++ "},"
  ++ finding_text "c.ts" "1" "fatal" "unknown severity" ++ ","
  ++ finding_text "d.ts" (q "9") "info" "line is a string" ++ ","
  ++ "7,"
  ++ finding_text "e.ts" "9" "info" "fine"
  ++ "]}".

Definition finding (file : string) (line : JS.number) (severity message : string)
    : JS.value :=
  JS.Object
    [ ("file", JS.Str file); ("line", JS.Number line);
      ("severity", JS.Str severity); ("message", JS.Str message) ].

Definition mixed_fields : list (string * JS.value) :=
  [ ("summary", JS.Str "Looks fine");
    ("comments",
     JS.Array
       [ finding "a.ts" 3%Q "warning" "unused var";
         JS.Object
           [ ("file", JS.Str "b.ts"); ("severity", JS.Str "error");
             ("message", JS.Str "no line") ];
         finding "c.ts" 1%Q "fatal" "unknown severity";
         JS.Object
           [ ("file", JS.Str "d.ts"); ("line", JS.Str "9");
             ("severity", JS.Str "info");
             ("message", JS.Str "line is a string") ];
         JS.Number 7%Q;
         finding "e.ts" 9%Q "info" "fine" ]) ].

(** A reply with one finding on a fractional line. *)
Definition fractional_reply : string :=
  "{" ++ q "summary" ++ ":" ++ q "One remark" ++ "," ++ q "comments" ++ ":["
  ++ finding_text "a.ts" "3.5" "warning" "between two lines" ++ "]}".


(** A review-service configuration whose diff ceiling is ten characters. *)
Definition small_config : ReviewService.Config :=
  {| ReviewService.port := 4002%Q; ReviewService.openaiApiKey := "sk-test";
     ReviewService.maxDiffSize := 10%Q; ReviewService.maxRequestSize := "10mb";
     ReviewService.rateLimitWindowMs := 900000%Q;
     ReviewService.rateLimitMax := 100%Q |}.

(** The review-service configuration of an environment that sets the key
    only. *)
Definition default_config : ReviewService.Config :=
  {| ReviewService.port := 4002%Q; ReviewService.openaiApiKey := "sk-test";
     ReviewService.maxDiffSize := 1000000%Q;
     ReviewService.maxRequestSize := "10mb";
     ReviewService.rateLimitWindowMs := 900000%Q;
     ReviewService.rateLimitMax := 100%Q |}.

Definition body_with_diff (d : string) : list (string * JS.value) :=
  [ ("repo", JS.Str "acme/widgets"); ("prNumber", JS.Number 42%Q);
    ("diff", JS.Str d); ("language", JS.Str "typescript") ].


(** The example of GitHub's documentation on validating deliveries. *)
Definition webhook_secret : string := "It's a Secret to Everybody".

Definition webhook_body : string := "Hello, World!".

Definition webhook_signature : string :=
  "sha256=757107ea0eb2509fc211221cce984b8a37570b6d7586c22c46f4379c8b043e17".

Definition webhook_config : WebhookService.Config :=
  {| WebhookService.port := 4001%Q;
     WebhookService.reviewServiceUrl := "http://localhost:4002";
     WebhookService.githubToken := "ghp_test";
     WebhookService.githubWebhookSecret := Some webhook_secret;
     WebhookService.maxRequestSize := "10mb";
     WebhookService.rateLimitWindowMs := 900000%Q;
     WebhookService.rateLimitMax := 100%Q |}.


(** The pull request of the end-to-end example of the specification. *)
Definition pull_request_event (action : string) (fullName : JS.value)
    (n : JS.value) : JS.value :=
  JS.Object
    [ ("action", JS.Str action);
      ("repository",
       JS.Object
         [ ("name", JS.Str "widgets");
           ("full_name", fullName);
           ("html_url", JS.Str "https://github.com/acme/widgets") ]);
      ("pull_request",
       JS.Object [ ("number", n); ("title", JS.Str "Add widget") ]) ].

Definition opened (fullName : string) (n : JS.number) : JS.value :=
  pull_request_event "opened" (JS.Str fullName) (JS.Number n).

Definition closed : JS.value :=
  pull_request_event "closed" (JS.Str "acme/widgets") (JS.Number 42%Q).

Definition diff_text : string := "diff --git a/a.ts b/a.ts".

Definition review_envelope : JS.value :=
  JS.Object
    [ ("success", JS.Bool true);
      ("data",
       JS.Object
         [ ("summary", JS.Str "Looks fine");
           ("comments", JS.Array [finding "a.ts" 3%Q "warning" "unused var"]) ]);
      ("requestId", JS.Str "r-1") ].

(** GitHub and the review service both answer. *)
Definition all_up : WebhookService.World :=
  {| WebhookService.pulls_get :=
       fun _ _ _ => inr (Some "https://github.com/acme/widgets/pull/42.diff");
     WebhookService.http_get := fun _ => inr (JS.Str diff_text);
     WebhookService.http_post := fun _ _ => inr review_envelope;
     WebhookService.create_review := fun _ _ _ _ _ => inr tt |}.

(** GitHub does not know the pull request. *)
Definition github_not_found : WebhookService.World :=
  {| WebhookService.pulls_get :=
       fun _ _ _ => inl (JS.ErrorObject "Not Found");
     WebhookService.http_get := WebhookService.http_get all_up;
     WebhookService.http_post := WebhookService.http_post all_up;
     WebhookService.create_review := WebhookService.create_review all_up |}.

(** The review service answers 502 until the retries are used up. *)
Definition review_service_down : WebhookService.World :=
  {| WebhookService.pulls_get := WebhookService.pulls_get all_up;
     WebhookService.http_get := WebhookService.http_get all_up;
     WebhookService.http_post :=
       fun _ _ => inl (JS.ErrorObject "Request failed with status code 502");
     WebhookService.create_review := WebhookService.create_review all_up |}.

(** The review service does not answer in time. *)
Definition review_service_slow : WebhookService.World :=
  {| WebhookService.pulls_get := WebhookService.pulls_get all_up;
     WebhookService.http_get := WebhookService.http_get all_up;
     WebhookService.http_post :=
       fun _ _ => inl (JS.ErrorObject "timeout of 120000ms exceeded");
     WebhookService.create_review := WebhookService.create_review all_up |}.

(** GitHub refuses the review. *)
Definition publication_refused : WebhookService.World :=
  {| WebhookService.pulls_get := WebhookService.pulls_get all_up;
     WebhookService.http_get := WebhookService.http_get all_up;
     WebhookService.http_post := WebhookService.http_post all_up;
     WebhookService.create_review :=
       fun _ _ _ _ _ => inl (JS.ErrorObject "Validation Failed") |}.

Definition delivery (event : string) (payload : JS.value)
    : WebhookService.Request :=
  {| WebhookService.requestId := Some "r-0";
     WebhookService.rawBody := Some webhook_body;
     WebhookService.x_hub_signature_256 :=
       WebhookService.Single webhook_signature;
     WebhookService.x_github_event := WebhookService.Single event;
     WebhookService.payload := payload |}.


Definition unused_var : WebhookService.ReviewComment :=
  {| WebhookService.file := "a.ts"; WebhookService.line := 3%Q;
     WebhookService.severity := WebhookService.warning;
     WebhookService.message := "unused var" |}.

Definition missing_await : WebhookService.ReviewComment :=
  {| WebhookService.file := "b.ts"; WebhookService.line := 12%Q;
     WebhookService.severity := WebhookService.error;
     WebhookService.message := "promise is not awaited" |}.

(** A finding whose message goes on with a list. *)
Definition two_paragraphs : WebhookService.ReviewComment :=
  {| WebhookService.file := "a.ts"; WebhookService.line := 3%Q;
     WebhookService.severity := WebhookService.warning;
     WebhookService.message := "rename:" ++ Str.byte 10 ++ "- x to count" |}.

(** A webhook service for which no secret was configured. *)
Definition open_config : WebhookService.Config :=
  {| WebhookService.port := 4001%Q;
     WebhookService.reviewServiceUrl := "http://localhost:4002";
     WebhookService.githubToken := "ghp_test";
     WebhookService.githubWebhookSecret := None;
     WebhookService.maxRequestSize := "10mb";
     WebhookService.rateLimitWindowMs := 900000%Q;
     WebhookService.rateLimitMax := 100%Q |}.

(** A delivery of a [ping] event without body: nothing was parsed and no
    raw body was kept. *)
Definition bodiless_ping : WebhookService.Request :=
  {| WebhookService.requestId := Some "r-0";
     WebhookService.rawBody := None;
     WebhookService.x_hub_signature_256 := WebhookService.Absent;
     WebhookService.x_github_event := WebhookService.Single "ping";
     WebhookService.payload := JS.Undefined |}.

(** [parseInt(text, 10)] on a text of decimal digits. *)
Definition decimal_value (text : string) : JS.number :=
  inject_Z
    (fold_left (fun acc c => (10 * acc + (Z.of_nat (nat_of_ascii c) - 48))%Z)
       (list_ascii_of_string text) 0%Z).

End Examples.

(** ** Start-up configuration ([config.ts] of both services) *)

Module Startup.

Section Environment.

(** [parseInt(text, 10)], on the texts it reads as a number. *)
Variable parseInt : string -> JS.number.

(** [process.env], once [dotenv.config()] has run. *)
Variable env : string -> option string.

(** [process.env.NAME || fallback] *)
Definition or_default (name fallback : string) : string :=
  match env name with
  | Some v => if JS.truthy (JS.Str v) then v else fallback
  | None => fallback
  end.

(** The review service: [requiredEnvVars], [missingVars] and [config]. *)
Definition requiredEnvVars : list (string * option string) :=
  [("OPENAI_API_KEY", env "OPENAI_API_KEY")].

Definition missingVars : list string :=
  map fst
    (filter (fun entry => WebhookService.missing (snd entry)) requiredEnvVars).

Definition reviewConfig : JS.thrown + ReviewService.Config :=
  if Nat.ltb 0 (length missingVars) then
    inl (JS.ErrorObject
           ("Missing required environment variables: "
            ++ Str.join ", " missingVars))
  else
    inr {| ReviewService.port := parseInt (or_default "PORT" "4002");
           ReviewService.openaiApiKey :=
             match env "OPENAI_API_KEY" with Some key => key | None => "" end;
           ReviewService.maxDiffSize :=
             parseInt (or_default "MAX_DIFF_SIZE" "1000000");
           ReviewService.maxRequestSize := or_default "MAX_REQUEST_SIZE" "10mb";
           ReviewService.rateLimitWindowMs :=
             parseInt (or_default "RATE_LIMIT_WINDOW_MS" "900000");
           ReviewService.rateLimitMax :=
             parseInt (or_default "RATE_LIMIT_MAX" "100") |}.

(** The webhook service: the check of [GITHUB_TOKEN] and [config]. *)
Definition webhookConfig : JS.thrown + WebhookService.Config :=
  match env "GITHUB_TOKEN" with
  | Some githubToken =>
      if negb (JS.truthy (JS.Str githubToken)) then
        inl (JS.ErrorObject "GITHUB_TOKEN environment variable is required")
      else
        inr {| WebhookService.port := parseInt (or_default "PORT" "4001");
               WebhookService.reviewServiceUrl :=
                 or_default "REVIEW_SERVICE_URL" "http://localhost:4002";
               WebhookService.githubToken := githubToken;
               WebhookService.githubWebhookSecret :=
                 env "GITHUB_WEBHOOK_SECRET";
               WebhookService.maxRequestSize :=
                 or_default "MAX_REQUEST_SIZE" "10mb";
               WebhookService.rateLimitWindowMs :=
                 parseInt (or_default "RATE_LIMIT_WINDOW_MS" "900000");
               WebhookService.rateLimitMax :=
                 parseInt (or_default "RATE_LIMIT_MAX" "100") |}
  | None =>
      inl (JS.ErrorObject "GITHUB_TOKEN environment variable is required")
  end.

End Environment.

End Startup.

(** ** Notions of the further properties *)

Module Notions.

(** The [requestId] an envelope carries. *)
Definition requestId_of {T : Type} (r : Api.ApiResponse T) : option string :=
  match r with
  | Api.SuccessResponse _ requestId => requestId
  | Api.ErrorResponse e => Api.error_requestId e
  end.

(** The error code of an envelope, [None] for a success. *)
Definition code_of {T : Type} (r : Api.ApiResponse T) : option Api.ErrorCode :=
  match r with
  | Api.SuccessResponse _ _ => None
  | Api.ErrorResponse e => Some (Api.code e)
  end.

(** The traces of a run in stage order: the pull request is looked up,
    then its diff is fetched, then the review is requested, then it is
    published; a run may stop after any of them. *)
Definition StageOrder (calls : list WebhookService.Call) : Prop :=
  calls = []
  \/ exists owner repo pullNumber,
       calls = [WebhookService.PullsGet owner repo pullNumber]
       \/ exists diffUrl,
            calls = [ WebhookService.PullsGet owner repo pullNumber;
                      WebhookService.HttpGet diffUrl
                        "application/vnd.github.v3.diff" 10000 ]
            \/ exists url data,
                 calls = [ WebhookService.PullsGet owner repo pullNumber;
                           WebhookService.HttpGet diffUrl
                             "application/vnd.github.v3.diff" 10000;
                           WebhookService.HttpPost url data 120000 ]
                 \/ exists text,
                      calls = [ WebhookService.PullsGet owner repo pullNumber;
                                WebhookService.HttpGet diffUrl
                                  "application/vnd.github.v3.diff" 10000;
                                WebhookService.HttpPost url data 120000;
                                WebhookService.CreateReview owner repo
                                  pullNumber "COMMENT" text ].

(** A text of spaces, tabs and line breaks only. *)
Fixpoint ascii_blank (s : string) : bool :=
  match s with
  | EmptyString => true
  | String c rest =>
      existsb (Nat.eqb (nat_of_ascii c)) [9; 10; 11; 12; 13; 32]
      && ascii_blank rest
  end.

(** A string is the UTF-8 encoding of a text: every byte that opens a
    character is followed by its continuation bytes, and by them only. *)
Fixpoint utf8_from (pending : nat) (s : string) : bool :=
  match s with
  | EmptyString => Nat.eqb pending 0
  | String c rest =>
      let n := nat_of_ascii c in
      match pending with
      | O =>
          if Nat.ltb n 128 then utf8_from 0 rest
          else if Nat.ltb n 192 then false
          else if Nat.ltb n 224 then utf8_from 1 rest
          else if Nat.ltb n 240 then utf8_from 2 rest
          else if Nat.ltb n 248 then utf8_from 3 rest
          else false
      | S pending' =>
          if Nat.leb 128 n && Nat.ltb n 192 then utf8_from pending' rest
          else false
      end
  end.

Definition utf8 (s : string) : bool := utf8_from 0 s.

(** No [/] in a text. *)
Fixpoint slashless (s : string) : bool :=
  match s with
  | EmptyString => true
  | String c rest => negb (Ascii.eqb c "/") && slashless rest
  end.

(** The object a validated [ReviewRequest] is at run time. *)
Definition ReviewRequest_value (r : ReviewService.ReviewRequest) : JS.value :=
  JS.Object
    ([ ("repo", JS.Str (ReviewService.repo r));
       ("prNumber", JS.Number (ReviewService.prNumber r));
       ("diff", JS.Str (ReviewService.diff r)) ]
     ++ match ReviewService.language r with
        | Some l => [("language", JS.Str l)]
        | None => []
        end)%list.

(** The one call [generateCodeReview] makes for a diff and a language. *)
Definition modelCall (diff : string) (language : option string)
    : ReviewService.BackendCall :=
  {| ReviewService.system_content := ReviewService.SYSTEM_PROMPT;
     ReviewService.user_content := ReviewService.userPrompt diff language |}.


(** [process.env] holding the given variables and no other. *)
Fixpoint environment (bindings : list (string * string)) (name : string)
    : option string :=
  match bindings with
  | [] => None
  | (k, v) :: rest => if String.eqb k name then Some v else environment rest name
  end.

(** What the [catch] block of [fetchPullRequestDiff] throws for what it
    caught: its message names the pull request, and the conversion of the
    number is what it throws when that cannot be converted. *)
Definition fetchError (Number_toString : JS.number -> string)
    (owner repo : string) (pullNumber : JS.value) (e : JS.thrown)
    : JS.thrown :=
  match WebhookService.pr_in Number_toString pullNumber owner repo with
  | inl unconverted => unconverted
  | inr place =>
      if JS.instanceofError e then
        JS.ErrorObject
          ("Failed to fetch diff for " ++ place ++ ": " ++ JS.errorMessage e)
      else
        JS.ErrorObject ("Unexpected error fetching PR diff for " ++ place)
  end.

(** What the [try] block of [fetchPullRequestDiff] throws for a pull
    request without [diff_url]. *)
Definition noDiffUrl (Number_toString : JS.number -> string)
    (owner repo : string) (pullNumber : JS.value) : JS.thrown :=
  match WebhookService.pr_in Number_toString pullNumber owner repo with
  | inl unconverted => unconverted
  | inr place => JS.ErrorObject ("No diff_url found for " ++ place)
  end.

(** What [postReviewSummary] throws when [createReview] threw [err]. *)
Definition publishError (Number_toString : JS.number -> string)
    (owner repo : string) (pullNumber : JS.value) (err : JS.thrown)
    : JS.thrown :=
  match WebhookService.pr_in Number_toString pullNumber owner repo with
  | inl unconverted => unconverted
  | inr place =>
      JS.ErrorObject
        ("Failed to post review summary to " ++ place ++ ": "
         ++ (if JS.instanceofError err then JS.errorMessage err
             else "Unknown error"))
  end.

(** The values ToString converts: every primitive, an object without a
    member of its own named [toString], and an array whose elements are
    [null], [undefined] or convertible. *)
Fixpoint convertible (v : JS.value) : bool :=
  match v with
  | JS.Array items => forallb convertible items
  | JS.Object fields => negb (JS.has_own "toString" fields)
  | _ => true
  end.

(** The comments the template of [postReviewSummary] renders: neither
    [null] nor [undefined], with four convertible members. *)
Definition renderable (c : JS.value) : bool :=
  negb (JS.nullish c)
  && convertible (JS.get c "severity") && convertible (JS.get c "file")
  && convertible (JS.get c "line") && convertible (JS.get c "message").

(** The [TypeError] of a read of [member] on [null] or [undefined]. *)
Definition unreadable (v : JS.value) (member : string) : JS.thrown :=
  JS.ErrorObject
    ("Cannot read properties of "
     ++ match v with JS.Null => "null" | _ => "undefined" end
     ++ " (reading '" ++ member ++ "')").

(** The body of the 200 of [POST /review] as the HTTP client of the
    webhook service reads it: the success envelope around the review, whose
    values came out of [JSON.parse] and go through JSON unchanged; a
    [requestId] that is [undefined] is left out by [JSON.stringify]. *)
Definition reviewAnswer (review : ReviewService.ReviewResponse)
    (requestId : option string) : JS.value :=
  JS.Object
    ([ ("success", JS.Bool true);
       ("data",
        JS.Object
          [ ("summary", JS.Str (ReviewService.summary review));
            ("comments", JS.Array (ReviewService.comments review)) ]) ]
     ++ match requestId with
        | Some id => [("requestId", JS.Str id)]
        | None => []
        end)%list.

(** The world in which GitHub serves [diff] as the text of every diff. *)
Definition serving (world : WebhookService.World) (diff : string)
    : WebhookService.World :=
  {| WebhookService.pulls_get := WebhookService.pulls_get world;
     WebhookService.http_get := fun _ => inr (JS.Str diff);
     WebhookService.http_post := WebhookService.http_post world;
     WebhookService.create_review := WebhookService.create_review world |}.

(** The world in which the review service answers [data]. *)
Definition answered (world : WebhookService.World) (data : JS.value)
    : WebhookService.World :=
  {| WebhookService.pulls_get := WebhookService.pulls_get world;
     WebhookService.http_get := WebhookService.http_get world;
     WebhookService.http_post := fun _ _ => inr data;
     WebhookService.create_review := WebhookService.create_review world |}.

End Notions.

(** * Properties *)

(** ** JavaScript values *)

Lemma typeof_string (v : JS.value) :
  String.eqb (JS.typeof v) "string" = true <-> exists s, v = JS.Str s.
Proof.
  split.
  - destruct v; simpl; try discriminate. eauto.
  - intros [s ->]. reflexivity.
Qed.

Lemma typeof_number (v : JS.value) :
  String.eqb (JS.typeof v) "number" = true <-> exists n, v = JS.Number n.
Proof.
  split.
  - destruct v; simpl; try discriminate. eauto.
  - intros [n ->]. reflexivity.
Qed.

Lemma truthy_Str (s : string) : JS.truthy (JS.Str s) = true <-> s <> "".
Proof.
  simpl. rewrite negb_true_iff. split.
  - intros H ->. discriminate.
  - intros H. apply String.eqb_neq. exact H.
Qed.

(** ** The sanitizer of the review service *)

Lemma severities_include_spec (v : JS.value) :
  ReviewService.severities_include v = true
  <-> exists s, v = JS.Str s /\ In s ["info"; "warning"; "error"].
Proof.
  split.
  - destruct v; simpl; try discriminate. intros H.
    exists s. split; [reflexivity|].
    change (existsb (String.eqb s) ["info"; "warning"; "error"] = true) in H.
    apply existsb_exists in H. destruct H as [x [Hin Heq]].
    apply String.eqb_eq in Heq. subst x. exact Hin.
  - intros [s [-> Hin]].
    change (existsb (String.eqb s) ["info"; "warning"; "error"] = true).
    apply existsb_exists. exists s. split; [exact Hin | apply String.eqb_refl].
Qed.

(** The predicate of the filter decides the shape the specification
    describes. *)
Lemma isReviewComment_spec (v : JS.value) :
  ReviewService.isReviewComment v = true <-> Spec.FindingShape v.
Proof.
  unfold ReviewService.isReviewComment, Spec.FindingShape. split.
  - destruct v; simpl; try discriminate.
    rewrite !andb_true_iff.
    intros [[[[Hf Hl] Hs] Hi] Hm].
    apply typeof_string in Hf. destruct Hf as [f Hf].
    apply typeof_number in Hl. destruct Hl as [n Hl].
    apply severities_include_spec in Hi. destruct Hi as [sv [Hsv Hin]].
    apply typeof_string in Hm. destruct Hm as [m Hm].
    exists fields, f, n, sv, m. auto 10.
  - intros [fields [f [n [sv [m [-> [Hf [Hl [Hs [Hin Hm]]]]]]]]]].
    cbn [JS.typeof JS.get]. rewrite String.eqb_refl. cbn [negb orb].
    rewrite Hf, Hl, Hs, Hm. cbn [JS.typeof]. rewrite !String.eqb_refl.
    cbn [andb]. rewrite andb_true_r.
    apply severities_include_spec. eauto.
Qed.

Lemma filter_Retains (items : list JS.value) :
  Spec.Retains Spec.FindingShape items
    (filter ReviewService.isReviewComment items).
Proof.
  induction items as [|x items IH]; simpl.
  - constructor.
  - destruct (ReviewService.isReviewComment x) eqn:Hx.
    + apply Spec.Retains_keep; [apply isReviewComment_spec; exact Hx | exact IH].
    + apply Spec.Retains_drop; [|exact IH].
      intros Hshape. apply isReviewComment_spec in Hshape. congruence.
Qed.

Lemma sanitizeComments_entries (v : JS.value) :
  ReviewService.sanitizeComments v
  = filter ReviewService.isReviewComment (Spec.entries v).
Proof. destruct v; reflexivity. Qed.

(** The type guard of the filter is sound: an entry it keeps reads as a
    [ReviewComment]. *)
Lemma isReviewComment_typed (v : JS.value) :
  ReviewService.isReviewComment v = true ->
  exists c : ReviewService.ReviewComment,
    JS.get v "file" = JS.Str (ReviewService.file c)
    /\ JS.get v "line" = JS.Number (ReviewService.line c)
    /\ JS.get v "severity"
       = JS.Str (ReviewService.Severity_string (ReviewService.severity c))
    /\ JS.get v "message" = JS.Str (ReviewService.message c).
Proof.
  intros H. apply isReviewComment_spec in H.
  destruct H as [fields [f [n [sv [m [-> [Hf [Hl [Hs [Hin Hm]]]]]]]]]].
  cbn [JS.get]. rewrite Hf, Hl, Hs, Hm.
  destruct Hin as [<-|[<-|[<-|[]]]].
  - exists {| ReviewService.file := f; ReviewService.line := n;
              ReviewService.severity := ReviewService.info;
              ReviewService.message := m |}. auto.
  - exists {| ReviewService.file := f; ReviewService.line := n;
              ReviewService.severity := ReviewService.warning;
              ReviewService.message := m |}. auto.
  - exists {| ReviewService.file := f; ReviewService.line := n;
              ReviewService.severity := ReviewService.error;
              ReviewService.message := m |}. auto.
Qed.

(** Sanitizing what was sanitized changes nothing. *)
Lemma sanitizeComments_idempotent (v : JS.value) :
  ReviewService.sanitizeComments
    (JS.Array (ReviewService.sanitizeComments v))
  = ReviewService.sanitizeComments v.
Proof.
  rewrite !sanitizeComments_entries. cbn [Spec.entries].
  induction (Spec.entries v) as [|x l IH]; [reflexivity|].
  simpl. destruct (ReviewService.isReviewComment x) eqn:Hx; simpl.
  - rewrite Hx, IH. reflexivity.
  - exact IH.
Qed.

(** A reply that parses to a value passing the type guard is answered
    with its sanitized form. *)
Lemma reviewHandler_guard_passed
    (JSON_parse : string -> option JS.value)
    (backend : ReviewService.BackendCall -> JS.thrown + option string)
    (requestId : option string) (request : ReviewService.ReviewRequest)
    (content : string) (parsed : JS.value) :
  backend
    {| ReviewService.system_content := ReviewService.SYSTEM_PROMPT;
       ReviewService.user_content :=
         ReviewService.userPrompt (ReviewService.diff request)
           (ReviewService.language request) |}
  = inr (Some content) ->
  content <> "" ->
  JSON_parse content = Some parsed ->
  JS.typeof parsed = "object" ->
  parsed <> JS.Null ->
  snd (ReviewService.reviewHandler JSON_parse backend requestId request)
  = Api.respond 200
      (Api.createSuccessResponse (ReviewService.sanitize parsed) requestId).
Proof.
  intros Hb Hc Hp Ht Hn.
  unfold ReviewService.reviewHandler, ReviewService.generateCodeReview.
  cbv zeta. rewrite Hb. unfold ReviewService.readCompletion.
  apply truthy_Str in Hc. rewrite Hc. cbn [negb].
  rewrite Hp, Ht.
  destruct parsed; try discriminate; try contradiction; reflexivity.
Qed.

Lemma Retains_nil_inv {A : Type} (P : A -> Prop) (kept : list A) :
  Spec.Retains P [] kept -> kept = [].
Proof. intros H. inversion H. reflexivity. Qed.

(** C1.  When the model reply parses to a JSON object, the request is
    answered 200 with a review whose comments are exactly the entries of
    the reply's [comments] array that have the shape of a finding, in their
    original order (none when [comments] is not an array); the entries
    dropped do not fail the request, and the summary is computed from the
    [summary] field alone. *)
Theorem sanitizer_filters_comments
    (JSON_parse : string -> option JS.value)
    (backend : ReviewService.BackendCall -> JS.thrown + option string)
    (requestId : option string) (request : ReviewService.ReviewRequest)
    (content : string) (fields : list (string * JS.value)) :
  backend
    {| ReviewService.system_content := ReviewService.SYSTEM_PROMPT;
       ReviewService.user_content :=
         ReviewService.userPrompt (ReviewService.diff request)
           (ReviewService.language request) |}
  = inr (Some content) ->
  content <> "" ->
  JSON_parse content = Some (JS.Object fields) ->
  exists kept : list JS.value,
    snd (ReviewService.reviewHandler JSON_parse backend requestId request)
    = Api.respond 200
        (Api.createSuccessResponse
           {| ReviewService.summary :=
                ReviewService.sanitizeSummary (JS.lookup "summary" fields);
              ReviewService.comments := kept |}
           requestId)
    /\ Spec.Retains Spec.FindingShape
         (Spec.entries (JS.lookup "comments" fields)) kept
    /\ (JS.isArray (JS.lookup "comments" fields) = false -> kept = []).
Proof.
  intros Hb Hc Hp.
  exists (ReviewService.sanitizeComments (JS.lookup "comments" fields)).
  split; [|split].
  - rewrite (reviewHandler_guard_passed JSON_parse backend requestId request
               content (JS.Object fields) Hb Hc Hp eq_refl);
      [reflexivity | discriminate].
  - rewrite sanitizeComments_entries. apply filter_Retains.
  - intros Harr. destruct (JS.lookup "comments" fields);
      try reflexivity. discriminate.
Qed.

Lemma sanitizer_filters_comments_witness :
  Examples.answering Examples.mixed_reply
    {| ReviewService.system_content := ReviewService.SYSTEM_PROMPT;
       ReviewService.user_content :=
         ReviewService.userPrompt (ReviewService.diff Examples.request)
           (ReviewService.language Examples.request) |}
  = inr (Some Examples.mixed_reply)
  /\ Examples.mixed_reply <> ""
  /\ Node.JSON_parse Examples.mixed_reply
     = Some (JS.Object Examples.mixed_fields)
  /\ exists kept : list JS.value,
       snd (ReviewService.reviewHandler Node.JSON_parse
              (Examples.answering Examples.mixed_reply) None Examples.request)
       = Api.respond 200
           (Api.createSuccessResponse
              {| ReviewService.summary :=
                   ReviewService.sanitizeSummary
                     (JS.lookup "summary" Examples.mixed_fields);
                 ReviewService.comments := kept |}
              None)
       /\ Spec.Retains Spec.FindingShape
            (Spec.entries (JS.lookup "comments" Examples.mixed_fields)) kept
       /\ (JS.isArray (JS.lookup "comments" Examples.mixed_fields) = false
           -> kept = []).
Proof.
  split; [reflexivity|]. split; [discriminate|].
  split; [vm_compute; reflexivity|].
  apply (sanitizer_filters_comments Node.JSON_parse
           (Examples.answering Examples.mixed_reply) None Examples.request
           Examples.mixed_reply Examples.mixed_fields).
  - reflexivity.
  - discriminate.
  - vm_compute. reflexivity.
Defined.

(** The review computed for the mixed reply: the two valid findings, in
    order, under the summary the model gave. *)
Example mixed_reply_review :
  snd (ReviewService.reviewHandler Node.JSON_parse
         (Examples.answering Examples.mixed_reply) None Examples.request)
  = Api.respond 200
      (Api.createSuccessResponse
         {| ReviewService.summary := "Looks fine";
            ReviewService.comments :=
              [ Examples.finding "a.ts" 3%Q "warning" "unused var";
                Examples.finding "e.ts" 9%Q "info" "fine" ] |}
         None).
Proof. vm_compute. reflexivity. Qed.

(** ** Replies that are not usable *)

Lemma reviewHandler_calls
    (JSON_parse : string -> option JS.value)
    (backend : ReviewService.BackendCall -> JS.thrown + option string)
    (requestId : option string) (request : ReviewService.ReviewRequest) :
  fst (ReviewService.reviewHandler JSON_parse backend requestId request)
  = [ {| ReviewService.system_content := ReviewService.SYSTEM_PROMPT;
         ReviewService.user_content :=
           ReviewService.userPrompt (ReviewService.diff request)
             (ReviewService.language request) |} ].
Proof. reflexivity. Qed.

(** Whatever [generateCodeReview] throws, the route answers 500 with
    [EXTERNAL_SERVICE_ERROR]. *)
Lemma reviewHandler_thrown
    (JSON_parse : string -> option JS.value)
    (backend : ReviewService.BackendCall -> JS.thrown + option string)
    (requestId : option string) (request : ReviewService.ReviewRequest)
    (e : JS.thrown) :
  snd (ReviewService.generateCodeReview JSON_parse backend
         (ReviewService.diff request) (ReviewService.language request))
  = inl e ->
  snd (ReviewService.reviewHandler JSON_parse backend requestId request)
  = Api.respond 500
      (Api.createErrorResponse Api.EXTERNAL_SERVICE_ERROR
         "Failed to generate code review" None requestId).
Proof.
  unfold ReviewService.reviewHandler.
  destruct (ReviewService.generateCodeReview JSON_parse backend
              (ReviewService.diff request) (ReviewService.language request))
    as [calls outcome].
  simpl. intros ->. reflexivity.
Qed.

(** C3, as the code has it.  A reply that is not JSON, or that parses to a
    value that is neither an object nor an array, fails the request: one
    call to the backend, then 500 with [EXTERNAL_SERVICE_ERROR] and nothing
    of the reply in the response.  A reply that parses to an array passes
    the [typeof] guard: it is answered 200 with the fallback summary and
    no comments. *)
Theorem unusable_reply_fails_request
    (JSON_parse : string -> option JS.value)
    (backend : ReviewService.BackendCall -> JS.thrown + option string)
    (requestId : option string) (request : ReviewService.ReviewRequest)
    (content : string) :
  backend
    {| ReviewService.system_content := ReviewService.SYSTEM_PROMPT;
       ReviewService.user_content :=
         ReviewService.userPrompt (ReviewService.diff request)
           (ReviewService.language request) |}
  = inr (Some content) ->
  (JSON_parse content = None
   \/ (exists v, JSON_parse content = Some v
                 /\ ~ Spec.JsonObject v /\ JS.isArray v = false)
   -> ReviewService.reviewHandler JSON_parse backend requestId request
      = ([ {| ReviewService.system_content := ReviewService.SYSTEM_PROMPT;
              ReviewService.user_content :=
                ReviewService.userPrompt (ReviewService.diff request)
                  (ReviewService.language request) |} ],
         Api.respond 500
           (Api.createErrorResponse Api.EXTERNAL_SERVICE_ERROR
              "Failed to generate code review" None requestId)))
  /\ (forall items,
        content <> "" ->
        JSON_parse content = Some (JS.Array items) ->
        snd (ReviewService.reviewHandler JSON_parse backend requestId request)
        = Api.respond 200
            (Api.createSuccessResponse
               {| ReviewService.summary := "Code review completed";
                  ReviewService.comments := [] |}
               requestId)).
Proof.
  intros Hb. split.
  - intros H.
    rewrite (surjective_pairing
               (ReviewService.reviewHandler JSON_parse backend requestId request)).
    rewrite reviewHandler_calls. f_equal.
    assert (exists e,
              snd (ReviewService.generateCodeReview JSON_parse backend
                     (ReviewService.diff request)
                     (ReviewService.language request)) = inl e) as [e He].
    { unfold ReviewService.generateCodeReview. cbv zeta. cbn [snd].
      rewrite Hb. unfold ReviewService.readCompletion.
      destruct (JS.truthy (JS.Str content)); cbn [negb]; [|eauto].
      destruct H as [-> | [v [-> [Hobj Harr]]]]; [eauto|].
      destruct v; cbn; eauto; try discriminate.
      exfalso. apply Hobj. exists fields. reflexivity. }
    apply (reviewHandler_thrown _ _ _ _ e He).
  - intros items Hc Hp.
    rewrite (reviewHandler_guard_passed JSON_parse backend requestId request
               content (JS.Array items) Hb Hc Hp eq_refl);
      [reflexivity | discriminate].
Qed.

Lemma unusable_reply_fails_request_witness :
  Examples.answering "not json"
    {| ReviewService.system_content := ReviewService.SYSTEM_PROMPT;
       ReviewService.user_content :=
         ReviewService.userPrompt (ReviewService.diff Examples.request)
           (ReviewService.language Examples.request) |}
  = inr (Some "not json")
  /\ Node.JSON_parse "not json" = None
  /\ snd (ReviewService.reviewHandler Node.JSON_parse
            (Examples.answering "not json") None Examples.request)
     = Api.respond 500
         (Api.createErrorResponse Api.EXTERNAL_SERVICE_ERROR
            "Failed to generate code review" None None).
Proof.
  split; [reflexivity|]. split; [vm_compute; reflexivity|].
  destruct (unusable_reply_fails_request Node.JSON_parse
              (Examples.answering "not json") None Examples.request
              "not json" eq_refl) as [Hfail _].
  rewrite Hfail; [reflexivity|].
  left. vm_compute. reflexivity.
Defined.

(** C3 as stated fails on an array: ["[]"] parses to a value that is not
    a JSON object, and the request succeeds. *)
Lemma array_reply_is_answered :
  Node.JSON_parse "[]" = Some (JS.Array [])
  /\ ~ Spec.JsonObject (JS.Array [])
  /\ ReviewService.reviewHandler Node.JSON_parse (Examples.answering "[]")
       None Examples.request
     = ([ {| ReviewService.system_content := ReviewService.SYSTEM_PROMPT;
             ReviewService.user_content :=
               ReviewService.userPrompt (ReviewService.diff Examples.request)
                 (ReviewService.language Examples.request) |} ],
        Api.respond 200
          (Api.createSuccessResponse
             {| ReviewService.summary := "Code review completed";
                ReviewService.comments := [] |}
             None)).
Proof.
  split; [vm_compute; reflexivity|]. split.
  - intros [fields H]. discriminate.
  - vm_compute. reflexivity.
Qed.

(** ** The line of a retained finding *)

(** C6, as the code has it.  A retained entry is one of the entries sent
    and its [line] is a number: the filter tests [typeof c.line] and
    nothing else about it. *)
Theorem retained_line_is_a_number (items : list JS.value) (c : JS.value) :
  In c (ReviewService.sanitizeComments (JS.Array items)) ->
  In c items /\ exists n : JS.number, JS.get c "line" = JS.Number n.
Proof.
  simpl. intros H. apply filter_In in H. destruct H as [Hin Hc].
  split; [exact Hin|].
  apply isReviewComment_spec in Hc.
  destruct Hc as [fields [f [n [sv [m [-> [_ [Hl _]]]]]]]].
  exists n. exact Hl.
Qed.

Lemma retained_line_is_a_number_witness :
  In (Examples.finding "a.ts" 3%Q "warning" "unused var")
    (ReviewService.sanitizeComments
       (JS.Array [JS.Number 7%Q;
                  Examples.finding "a.ts" 3%Q "warning" "unused var"]))
  /\ In (Examples.finding "a.ts" 3%Q "warning" "unused var")
       [JS.Number 7%Q; Examples.finding "a.ts" 3%Q "warning" "unused var"]
  /\ exists n : JS.number,
       JS.get (Examples.finding "a.ts" 3%Q "warning" "unused var") "line"
       = JS.Number n.
Proof.
  split; [left; reflexivity|].
  apply (retained_line_is_a_number
           [JS.Number 7%Q; Examples.finding "a.ts" 3%Q "warning" "unused var"]).
  left. reflexivity.
Defined.

(** C6 as stated fails: a finding on line 3.5 is retained. *)
Lemma fractional_line_is_retained :
  JS.isInteger 3.5%Q = false
  /\ snd (ReviewService.reviewHandler Node.JSON_parse
            (Examples.answering Examples.fractional_reply) None
            Examples.request)
     = Api.respond 200
         (Api.createSuccessResponse
            {| ReviewService.summary := "One remark";
               ReviewService.comments :=
                 [ Examples.finding "a.ts" 3.5%Q "warning" "between two lines" ] |}
            None).
Proof. split; vm_compute; reflexivity. Qed.

(** ** Validation of the review request *)

Lemma checked_inl {T : Type} (issues issues' : list Zod.ZodIssue) (x : T) :
  Zod.checked issues x = inl issues' -> issues' = issues /\ issues <> [].
Proof.
  destruct issues; simpl; intros H; inversion H. split; [reflexivity | discriminate].
Qed.

Lemma checked_nil {T : Type} (x : T) : Zod.checked [] x = inr x.
Proof. reflexivity. Qed.

Lemma checked_nonempty {T : Type} (issues : list Zod.ZodIssue) (x : T) :
  issues <> [] -> Zod.checked issues x = inl issues.
Proof. destruct issues; [contradiction | reflexivity]. Qed.

Section ValidationFacts.

Variable Number_toString : JS.number -> string.
Variable config : ReviewService.Config.

Lemma schema_repo_issues v issues :
  ReviewService.schema_repo v = inl issues -> issues <> [].
Proof.
  destruct v; simpl; intros H; try (inversion H; discriminate).
  apply checked_inl in H. destruct H as [-> H]. exact H.
Qed.

Lemma schema_prNumber_issues v issues :
  ReviewService.schema_prNumber v = inl issues -> issues <> [].
Proof.
  destruct v; simpl; intros H; try (inversion H; discriminate).
  apply checked_inl in H. destruct H as [-> H]. exact H.
Qed.

Lemma schema_diff_issues v issues :
  ReviewService.schema_diff Number_toString config v = inl issues ->
  issues <> [].
Proof.
  destruct v; simpl; intros H; try (inversion H; discriminate).
  apply checked_inl in H. destruct H as [-> H]. exact H.
Qed.

Lemma schema_language_issues v issues :
  ReviewService.schema_language v = inl issues -> issues <> [].
Proof.
  destruct v; simpl; intros H; inversion H; discriminate.
Qed.

(** A rejection reports at least one issue. *)
Lemma safeParse_issues body issues :
  ReviewService.safeParse Number_toString config body = inl issues ->
  issues <> [].
Proof.
  destruct body; simpl; intros H; try (inversion H; discriminate).
  destruct (ReviewService.schema_repo (JS.lookup "repo" fields)) as [r|r] eqn:Hr;
  destruct (ReviewService.schema_prNumber (JS.lookup "prNumber" fields))
    as [n|n] eqn:Hn;
  destruct (ReviewService.schema_diff Number_toString config
              (JS.lookup "diff" fields)) as [d|d] eqn:Hd;
  destruct (ReviewService.schema_language (JS.lookup "language" fields))
    as [l|l] eqn:Hl;
  try discriminate;
  inversion H; subst; clear H; simpl;
  try apply schema_repo_issues in Hr;
  try apply schema_prNumber_issues in Hn;
  try apply schema_diff_issues in Hd;
  try apply schema_language_issues in Hl;
  intros Happ;
  repeat match goal with
         | H : (_ ++ _)%list = [] |- _ =>
             apply app_eq_nil in H; destruct H
         end;
  subst; congruence.
Qed.

(** The issues of the [diff] key are among the issues reported. *)
Lemma safeParse_diff_rejected fields issues :
  ReviewService.schema_diff Number_toString config (JS.lookup "diff" fields)
  = inl issues ->
  exists before after,
    ReviewService.safeParse Number_toString config (JS.Object fields)
    = inl (before ++ issues ++ after)%list.
Proof.
  intros Hd. simpl. rewrite Hd.
  exists (Zod.issues_of (ReviewService.schema_repo (JS.lookup "repo" fields))
          ++ Zod.issues_of
               (ReviewService.schema_prNumber (JS.lookup "prNumber" fields)))%list.
  exists (Zod.issues_of
            (ReviewService.schema_language (JS.lookup "language" fields))).
  destruct (ReviewService.schema_repo (JS.lookup "repo" fields));
  destruct (ReviewService.schema_prNumber (JS.lookup "prNumber" fields));
  destruct (ReviewService.schema_language (JS.lookup "language" fields));
  simpl; rewrite <- ?app_assoc; reflexivity.
Qed.

Lemma exceeds_iff (len : nat) (n : JS.number) :
  ReviewService.exceeds len n = true <-> (n < inject_Z (Z.of_nat len))%Q.
Proof.
  unfold ReviewService.exceeds. rewrite negb_true_iff.
  rewrite <- not_true_iff_false, Qle_bool_iff. split.
  - apply Qnot_le_lt.
  - apply Qlt_not_le.
Qed.

Lemma at_ceiling_not_exceeding (len : nat) (n : JS.number) :
  (inject_Z (Z.of_nat len) == n)%Q -> ReviewService.exceeds len n = false.
Proof.
  intros H. unfold ReviewService.exceeds. rewrite negb_false_iff.
  apply Qle_bool_iff. rewrite H. apply Qle_refl.
Qed.

End ValidationFacts.

(** C9.  A diff longer than the configured maximum is rejected with 400
    and an error on field [diff] whose message names the maximum; a diff
    whose length is exactly the maximum passes validation in a request
    that is valid otherwise; every rejection is a 400 [VALIDATION_ERROR]
    whose details list one field path and message per violation, at least
    one, and is answered without any call to the model backend. *)
Theorem validation_enforces_diff_ceiling
    (Number_toString : JS.number -> string) (config : ReviewService.Config)
    (JSON_parse : string -> option JS.value)
    (backend : ReviewService.BackendCall -> JS.thrown + option string)
    (requestId : option string) :
  (forall fields d,
      JS.lookup "diff" fields = JS.Str d ->
      (ReviewService.maxDiffSize config < inject_Z (Z.of_nat (JS.length d)))%Q ->
      exists errors,
        ReviewService.postReview JSON_parse backend Number_toString config
          requestId (JS.Object fields)
        = ([],
           Api.respond 400
             (Api.createErrorResponse Api.VALIDATION_ERROR
                "Invalid request body"
                (Some (JS.Object [("errors", JS.Array errors)])) requestId))
        /\ In (JS.Object
                 [ ("field", JS.Str "diff");
                   ("message",
                    JS.Str ("Diff exceeds maximum size of "
                            ++ Number_toString (ReviewService.maxDiffSize config)
                            ++ " characters")) ])
             errors)
  /\ (forall fields repo prNumber d language,
        JS.lookup "repo" fields = JS.Str repo ->
        JS.lookup "prNumber" fields = JS.Number prNumber ->
        JS.lookup "diff" fields = JS.Str d ->
        JS.lookup "language" fields
        = match language with Some l => JS.Str l | None => JS.Undefined end ->
        1 <= JS.length repo ->
        JS.isInteger prNumber = true ->
        (0 < prNumber)%Q ->
        1 <= JS.length d ->
        (inject_Z (Z.of_nat (JS.length d)) == ReviewService.maxDiffSize config)%Q ->
        ReviewService.validateReviewRequest Number_toString config requestId
          (JS.Object fields)
        = inr {| ReviewService.repo := repo;
                 ReviewService.prNumber := prNumber;
                 ReviewService.diff := d;
                 ReviewService.language := language |})
  /\ (forall body response,
        ReviewService.validateReviewRequest Number_toString config requestId
          body = inl response ->
        exists issues,
          issues <> []
          /\ response
             = Api.respond 400
                 (Api.createErrorResponse Api.VALIDATION_ERROR
                    "Invalid request body"
                    (Some
                       (JS.Object
                          [("errors",
                            JS.Array
                              (map
                                 (fun i =>
                                    JS.Object
                                      [ ("field",
                                         JS.Str (Str.join "." (Zod.path i)));
                                        ("message", JS.Str (Zod.message i)) ])
                                 issues))]))
                    requestId)
          /\ ReviewService.postReview JSON_parse backend Number_toString
               config requestId body
             = ([], response)).
Proof.
  split; [|split].
  - intros fields d Hd Hlen.
    assert (exists issues,
              ReviewService.schema_diff Number_toString config
                (JS.lookup "diff" fields) = inl issues
              /\ In (Zod.issue ["diff"]
                       (ReviewService.diff_too_big_message Number_toString config))
                   issues) as [issues [Hs Hin]].
    { rewrite Hd. simpl.
      apply (exceeds_iff (JS.length d)) in Hlen. rewrite Hlen.
      eexists. split.
      - apply checked_nonempty. intros H. apply app_eq_nil in H.
        destruct H as [_ H]. discriminate.
      - apply in_or_app. right. left. reflexivity. }
    destruct (safeParse_diff_rejected Number_toString config fields issues Hs)
      as [before [after Hparse]].
    unfold ReviewService.postReview, ReviewService.validateReviewRequest.
    rewrite Hparse. eexists. split; [reflexivity|].
    apply in_map_iff.
    exists (Zod.issue ["diff"]
              (ReviewService.diff_too_big_message Number_toString config)).
    split; [reflexivity|].
    apply in_or_app. right. apply in_or_app. left. exact Hin.
  - intros fields repo prNumber d language Hr Hn Hd Hl Hrepo Hint Hpos Hdiff Hceil.
    unfold ReviewService.validateReviewRequest. simpl.
    rewrite Hr, Hn, Hd, Hl. simpl.
    rewrite Hint.
    assert (Qle_bool prNumber 0 = false) as ->.
    { apply not_true_iff_false. rewrite Qle_bool_iff. apply Qlt_not_le. exact Hpos. }
    rewrite (at_ceiling_not_exceeding _ _ Hceil).
    apply Nat.ltb_ge in Hrepo. apply Nat.ltb_ge in Hdiff.
    rewrite Hrepo, Hdiff. simpl.
    destruct language; reflexivity.
  - intros body response H.
    unfold ReviewService.postReview.
    unfold ReviewService.validateReviewRequest in *.
    destruct (ReviewService.safeParse Number_toString config body)
      as [issues|data] eqn:Hparse; [|discriminate].
    inversion H; subst; clear H.
    exists issues. split; [|split; reflexivity].
    apply (safeParse_issues Number_toString config body). exact Hparse.
Qed.

Lemma validation_enforces_diff_ceiling_witness :
  (JS.lookup "diff" (Examples.body_with_diff "0123456789A")
   = JS.Str "0123456789A"
   /\ (ReviewService.maxDiffSize Examples.small_config
       < inject_Z (Z.of_nat (JS.length "0123456789A")))%Q
   /\ exists errors,
        ReviewService.postReview Node.JSON_parse (Examples.answering "{}")
          Node.Number_toString Examples.small_config None
          (JS.Object (Examples.body_with_diff "0123456789A"))
        = ([],
           Api.respond 400
             (Api.createErrorResponse Api.VALIDATION_ERROR
                "Invalid request body"
                (Some (JS.Object [("errors", JS.Array errors)])) None))
        /\ In (JS.Object
                 [ ("field", JS.Str "diff");
                   ("message",
                    JS.Str "Diff exceeds maximum size of 10 characters") ])
             errors)
  /\ (1 <= JS.length "acme/widgets"
      /\ JS.isInteger 42%Q = true
      /\ (0 < 42)%Q
      /\ 1 <= JS.length "0123456789"
      /\ (inject_Z (Z.of_nat (JS.length "0123456789"))
          == ReviewService.maxDiffSize Examples.small_config)%Q
      /\ ReviewService.validateReviewRequest Node.Number_toString
           Examples.small_config None
           (JS.Object (Examples.body_with_diff "0123456789"))
         = inr {| ReviewService.repo := "acme/widgets";
                  ReviewService.prNumber := 42%Q;
                  ReviewService.diff := "0123456789";
                  ReviewService.language := Some "typescript" |})
  /\ (ReviewService.validateReviewRequest Node.Number_toString
        Examples.small_config None (JS.Array [])
      = inl (Api.respond 400
               (Api.createErrorResponse Api.VALIDATION_ERROR
                  "Invalid request body"
                  (Some
                     (JS.Object
                        [("errors",
                          JS.Array
                            [JS.Object
                               [ ("field", JS.Str "");
                                 ("message",
                                  JS.Str "Expected object, received array") ]])]))
                  None))
      /\ ReviewService.postReview Node.JSON_parse (Examples.answering "{}")
           Node.Number_toString Examples.small_config None (JS.Array [])
         = ([],
            Api.respond 400
              (Api.createErrorResponse Api.VALIDATION_ERROR
                 "Invalid request body"
                 (Some
                    (JS.Object
                       [("errors",
                         JS.Array
                           [JS.Object
                              [ ("field", JS.Str "");
                                ("message",
                                 JS.Str "Expected object, received array") ]])]))
                 None))).
Proof.
  destruct (validation_enforces_diff_ceiling Node.Number_toString
              Examples.small_config Node.JSON_parse (Examples.answering "{}")
              None) as [Hbig [Hceil Hrej]].
  split; [|split].
  - split; [reflexivity|]. split; [reflexivity|].
    apply (Hbig (Examples.body_with_diff "0123456789A") "0123456789A");
      reflexivity.
  - split; [vm_compute; lia|]. split; [reflexivity|]. split; [reflexivity|].
    split; [vm_compute; lia|]. split; [reflexivity|].
    apply (Hceil (Examples.body_with_diff "0123456789") "acme/widgets" 42%Q
             "0123456789" (Some "typescript"));
      try reflexivity; vm_compute; lia.
  - split; [reflexivity|].
    destruct (Hrej (JS.Array []) _ eq_refl) as [issues [_ [_ Hpost]]].
    exact Hpost.
Defined.

(** ** The reference built-ins on published test vectors *)

Example sha256_abc :
  Crypto.hex (Crypto.sha256 (Crypto.bytes_of "abc"))
  = "ba7816bf8f01cfea414140de5dae2223b00361a396177a9cb410ff61f20015ad".
Proof. vm_compute. reflexivity. Qed.

Example hmac_sha256_rfc4231_case2 :
  Node.hmac_sha256_hex "Jefe" "what do ya want for nothing?"
  = "5bdcc146bf60754e6a042426089575c75a003f089d2739839dec58b964ec3843".
Proof. vm_compute. reflexivity. Qed.

Example hmac_sha256_github_documentation :
  "sha256=" ++ Node.hmac_sha256_hex Examples.webhook_secret Examples.webhook_body
  = Examples.webhook_signature.
Proof. vm_compute. reflexivity. Qed.

(** ** Signature verification *)

Lemma append_length (a b : string) :
  String.length (a ++ b) = String.length a + String.length b.
Proof. induction a as [|c a IH]; simpl; [reflexivity | rewrite IH; reflexivity]. Qed.

Lemma flipped_differs (s s' : string) : Spec.OneByteFlipped s s' -> s <> s'.
Proof.
  intros [before [c [c' [after [Hc [-> ->]]]]]].
  induction before as [|b before IH]; simpl; intros H; inversion H; auto.
Qed.

Lemma flipped_length (s s' : string) :
  Spec.OneByteFlipped s s' -> String.length s = String.length s'.
Proof.
  intros [before [c [c' [after [_ [-> ->]]]]]].
  rewrite !append_length. reflexivity.
Qed.

Lemma eqb_length_differs (a b : string) :
  String.length a <> String.length b -> String.eqb a b = false.
Proof.
  intros H. apply String.eqb_neq. intros ->. apply H. reflexivity.
Qed.

Section SignatureFacts.

Variable hmac_sha256_hex : string -> string -> string.
Variable config : WebhookService.Config.
Variable secret : string.
Hypothesis configured : WebhookService.githubWebhookSecret config = Some secret.
Hypothesis nonempty : secret <> "".

(** With a secret configured and the raw body captured, the outcome is a
    function of the header: [next()] on the expected value, 401 otherwise. *)
Lemma verify_outcome (requestId : option string) (rawBody : string)
    (signature : WebhookService.Header) :
  snd (WebhookService.verifyGitHubSignature
         (T := WebhookService.WebhookData) hmac_sha256_hex config requestId
         (Some rawBody) signature)
  = match signature with
    | WebhookService.Single s =>
        if String.eqb s "" then
          WebhookService.unauthorized "Missing or invalid signature header"
            requestId
        else if String.eqb ("sha256=" ++ hmac_sha256_hex secret rawBody) s
        then WebhookService.Next
        else WebhookService.unauthorized "Invalid signature" requestId
    | _ =>
        WebhookService.unauthorized "Missing or invalid signature header"
          requestId
    end.
Proof.
  unfold WebhookService.verifyGitHubSignature. rewrite configured.
  apply truthy_Str in nonempty. rewrite nonempty. cbn [negb].
  destruct signature as [|s|l]; try reflexivity.
  cbn [JS.truthy]. rewrite negb_involutive.
  destruct (String.eqb s "") eqn:Hs; [reflexivity|].
  unfold WebhookService.timingSafeEqual.
  destruct (Nat.eqb (String.length ("sha256=" ++ hmac_sha256_hex secret rawBody))
              (String.length s)) eqn:Hlen; cbn [negb].
  - destruct (String.eqb ("sha256=" ++ hmac_sha256_hex secret rawBody) s);
      reflexivity.
  - apply Nat.eqb_neq in Hlen. rewrite (eqb_length_differs _ _ Hlen).
    reflexivity.
Qed.

End SignatureFacts.

(** X24.  With a non-empty secret configured and the raw body captured,
    verification calls [next()] if and only if the header is the string
    [sha256=] followed by the hex HMAC-SHA256 of the body under the secret,
    and answers 401 [AUTHENTICATION_ERROR] otherwise.  A header that
    differs from the expected one in one byte is refused.  Another body is
    accepted under the signature of this one exactly when HMAC gives the
    two the same digest, and is refused with 401 when the digests differ:
    the code tells two bodies apart as far as HMAC does, and no further.
    An absent header, and a header whose byte length is not the expected
    one, are refused in a branch of their own: [timingSafeEqual] is called
    on headers of the expected byte length only. *)
Theorem signature_verification
    (hmac_sha256_hex : string -> string -> string)
    (config : WebhookService.Config) (secret : string)
    (requestId : option string) (rawBody : string) :
  WebhookService.githubWebhookSecret config = Some secret ->
  secret <> "" ->
  (forall signature,
      snd (WebhookService.verifyGitHubSignature
             (T := WebhookService.WebhookData) hmac_sha256_hex config requestId
             (Some rawBody) signature)
      = WebhookService.Next
      <-> signature
          = WebhookService.Single
              (Spec.expected_signature hmac_sha256_hex secret rawBody))
  /\ (forall signature,
        signature
        <> WebhookService.Single
             (Spec.expected_signature hmac_sha256_hex secret rawBody) ->
        exists message,
          snd (WebhookService.verifyGitHubSignature
                 (T := WebhookService.WebhookData) hmac_sha256_hex config
                 requestId (Some rawBody) signature)
          = WebhookService.Responded
              (Api.respond 401
                 (Api.createErrorResponse Api.AUTHENTICATION_ERROR message
                    None requestId)))
  /\ (forall signature',
        Spec.OneByteFlipped
          (Spec.expected_signature hmac_sha256_hex secret rawBody) signature' ->
        snd (WebhookService.verifyGitHubSignature
               (T := WebhookService.WebhookData) hmac_sha256_hex config
               requestId (Some rawBody) (WebhookService.Single signature'))
        = WebhookService.Responded
            (Api.respond 401
               (Api.createErrorResponse Api.AUTHENTICATION_ERROR
                  "Invalid signature" None requestId)))
  /\ (forall rawBody',
        (snd (WebhookService.verifyGitHubSignature
                (T := WebhookService.WebhookData) hmac_sha256_hex config
                requestId (Some rawBody')
                (WebhookService.Single
                   (Spec.expected_signature hmac_sha256_hex secret rawBody)))
         = WebhookService.Next
         <-> hmac_sha256_hex secret rawBody' = hmac_sha256_hex secret rawBody)
        /\ (hmac_sha256_hex secret rawBody' <> hmac_sha256_hex secret rawBody ->
            snd (WebhookService.verifyGitHubSignature
                   (T := WebhookService.WebhookData) hmac_sha256_hex config
                   requestId (Some rawBody')
                   (WebhookService.Single
                      (Spec.expected_signature hmac_sha256_hex secret
                         rawBody)))
            = WebhookService.Responded
                (Api.respond 401
                   (Api.createErrorResponse Api.AUTHENTICATION_ERROR
                      "Invalid signature" None requestId))))
  /\ WebhookService.verifyGitHubSignature
       (T := WebhookService.WebhookData) hmac_sha256_hex config requestId
       (Some rawBody) WebhookService.Absent
     = ([WebhookService.Logged "error"
           "Missing or invalid x-hub-signature-256 header"],
        WebhookService.Responded
          (Api.respond 401
             (Api.createErrorResponse Api.AUTHENTICATION_ERROR
                "Missing or invalid signature header" None requestId)))
  /\ (forall s,
        s <> "" ->
        String.length s
        <> String.length
             (Spec.expected_signature hmac_sha256_hex secret rawBody) ->
        WebhookService.verifyGitHubSignature
          (T := WebhookService.WebhookData) hmac_sha256_hex config requestId
          (Some rawBody) (WebhookService.Single s)
        = ([WebhookService.CreateHmac secret rawBody;
            WebhookService.Logged "debug" "Verifying GitHub webhook signature";
            WebhookService.Logged "error" "Signature length mismatch"],
           WebhookService.Responded
             (Api.respond 401
                (Api.createErrorResponse Api.AUTHENTICATION_ERROR
                   "Invalid signature" None requestId))))
  /\ (forall signature a b,
        In (WebhookService.TimingSafeEqual a b)
          (fst (WebhookService.verifyGitHubSignature
                  (T := WebhookService.WebhookData) hmac_sha256_hex config
                  requestId (Some rawBody) signature)) ->
        exists s,
          signature = WebhookService.Single s
          /\ String.length s
             = String.length
                 (Spec.expected_signature hmac_sha256_hex secret rawBody)).
Proof.
  intros Hconf Hne.
  pose proof (verify_outcome hmac_sha256_hex config secret Hconf Hne requestId)
    as Hout.
  unfold Spec.expected_signature.
  split; [|split; [|split; [|split; [|split; [|split]]]]].
  - intros signature. rewrite Hout. destruct signature as [|s|l].
    + split; discriminate.
    + destruct (String.eqb s "") eqn:Hs.
      * apply String.eqb_eq in Hs. subst s. split; discriminate.
      * destruct (String.eqb ("sha256=" ++ hmac_sha256_hex secret rawBody) s)
          eqn:He.
        -- apply String.eqb_eq in He. subst s. split; reflexivity.
        -- apply String.eqb_neq in He. split; [discriminate|].
           intros H. inversion H. congruence.
    + split; discriminate.
  - intros signature Hsig. rewrite Hout. destruct signature as [|s|l].
    + eexists. reflexivity.
    + destruct (String.eqb s ""); [eexists; reflexivity|].
      destruct (String.eqb ("sha256=" ++ hmac_sha256_hex secret rawBody) s)
        eqn:He; [|eexists; reflexivity].
      apply String.eqb_eq in He. subst s. contradiction.
    + eexists. reflexivity.
  - intros s' Hflip. rewrite Hout.
    pose proof (flipped_differs _ _ Hflip) as Hd.
    pose proof (flipped_length _ _ Hflip) as Hl.
    destruct (String.eqb s' "") eqn:Hs.
    + apply String.eqb_eq in Hs. subst s'. discriminate.
    + apply String.eqb_neq in Hd. rewrite Hd. reflexivity.
  - intros rawBody'. rewrite Hout.
    change (String.eqb ("sha256=" ++ hmac_sha256_hex secret rawBody) "")
      with false. cbv iota.
    destruct (String.eqb ("sha256=" ++ hmac_sha256_hex secret rawBody')
                ("sha256=" ++ hmac_sha256_hex secret rawBody)) eqn:He.
    + apply String.eqb_eq in He.
      assert (Hd : hmac_sha256_hex secret rawBody'
                   = hmac_sha256_hex secret rawBody)
        by (simpl in He; injection He as Hd; exact Hd).
      split; [split; [intros _; exact Hd | reflexivity]|].
      intros Hmac. contradiction.
    + apply String.eqb_neq in He.
      split; [|reflexivity].
      split; [discriminate|]. intros Hd. elim He. rewrite Hd. reflexivity.
  - unfold WebhookService.verifyGitHubSignature. rewrite Hconf.
    apply truthy_Str in Hne. rewrite Hne. reflexivity.
  - intros s Hs Hlen.
    unfold WebhookService.verifyGitHubSignature. rewrite Hconf.
    apply truthy_Str in Hne. rewrite Hne.
    apply truthy_Str in Hs. rewrite Hs. cbn [negb].
    assert (Nat.eqb (String.length ("sha256=" ++ hmac_sha256_hex secret rawBody))
              (String.length s) = false) as ->.
    { apply Nat.eqb_neq. congruence. }
    reflexivity.
  - intros signature a b.
    unfold WebhookService.verifyGitHubSignature. rewrite Hconf.
    apply truthy_Str in Hne. rewrite Hne. cbn [negb].
    destruct signature as [|s|l]; try (intros [H|[]]; discriminate).
    destruct (negb (JS.truthy (JS.Str s)));
      [intros [H|[]]; discriminate|].
    destruct (Nat.eqb
                (String.length ("sha256=" ++ hmac_sha256_hex secret rawBody))
                (String.length s)) eqn:Hlen; cbn [negb].
    + intros _. exists s. apply Nat.eqb_eq in Hlen. auto.
    + intros H. cbn in H. destruct H as [H|[H|[H|[]]]]; discriminate.
Qed.

Lemma signature_verification_witness :
  WebhookService.githubWebhookSecret Examples.webhook_config
  = Some Examples.webhook_secret
  /\ Examples.webhook_secret <> ""
  /\ snd (WebhookService.verifyGitHubSignature
            (T := WebhookService.WebhookData) Node.hmac_sha256_hex
            Examples.webhook_config None (Some Examples.webhook_body)
            (WebhookService.Single Examples.webhook_signature))
     = WebhookService.Next
  /\ Node.hmac_sha256_hex Examples.webhook_secret "Hello, World?"
     <> Node.hmac_sha256_hex Examples.webhook_secret Examples.webhook_body
  /\ snd (WebhookService.verifyGitHubSignature
            (T := WebhookService.WebhookData) Node.hmac_sha256_hex
            Examples.webhook_config None (Some "Hello, World?")
            (WebhookService.Single Examples.webhook_signature))
     = WebhookService.Responded
         (Api.respond 401
            (Api.createErrorResponse Api.AUTHENTICATION_ERROR
               "Invalid signature" None None))
  /\ "sha256" <> ""
  /\ String.length "sha256" <> String.length Examples.webhook_signature
  /\ WebhookService.verifyGitHubSignature
       (T := WebhookService.WebhookData) Node.hmac_sha256_hex
       Examples.webhook_config None (Some Examples.webhook_body)
       (WebhookService.Single "sha256")
     = ([WebhookService.CreateHmac Examples.webhook_secret Examples.webhook_body;
         WebhookService.Logged "debug" "Verifying GitHub webhook signature";
         WebhookService.Logged "error" "Signature length mismatch"],
        WebhookService.Responded
          (Api.respond 401
             (Api.createErrorResponse Api.AUTHENTICATION_ERROR
                "Invalid signature" None None))).
Proof.
  assert (Spec.expected_signature Node.hmac_sha256_hex Examples.webhook_secret
            Examples.webhook_body = Examples.webhook_signature) as E
    by (vm_compute; reflexivity).
  assert (Node.hmac_sha256_hex Examples.webhook_secret "Hello, World?"
          <> Node.hmac_sha256_hex Examples.webhook_secret Examples.webhook_body)
    as Hmac by (vm_compute; discriminate).
  destruct (signature_verification Node.hmac_sha256_hex Examples.webhook_config
              Examples.webhook_secret None Examples.webhook_body eq_refl)
    as [Hiff [_ [_ [Hbody [_ [Hlen _]]]]]]; [discriminate|].
  rewrite E in Hiff, Hbody, Hlen.
  split; [reflexivity|]. split; [discriminate|].
  split; [apply Hiff; reflexivity|].
  split; [exact Hmac|].
  split; [exact (proj2 (Hbody "Hello, World?") Hmac)|].
  split; [discriminate|].
  split; [vm_compute; discriminate|].
  apply Hlen; [discriminate | vm_compute; discriminate].
Defined.

(** ** The webhook handler *)

Lemma actionable_spec (eventType : WebhookService.Header) (body : JS.value) :
  WebhookService.actionable eventType body = true
  <-> Spec.Actionable eventType body.
Proof.
  unfold WebhookService.actionable, Spec.Actionable. split.
  - destruct eventType as [|e|l]; try discriminate.
    rewrite andb_true_iff. intros [He Ha].
    apply String.eqb_eq in He. subst e. split; [reflexivity|].
    apply andb_true_iff in Ha. destruct Ha as [_ Ha].
    destruct (JS.get body "action") as [| | | |a| |]; try discriminate.
    apply existsb_exists in Ha. destruct Ha as [x [Hin Hx]].
    apply String.eqb_eq in Hx. subst x. eauto.
  - intros [-> [a [-> Hin]]]. rewrite String.eqb_refl. cbn [andb].
    apply andb_true_iff. split.
    + apply truthy_Str. intros ->.
      simpl in Hin. intuition discriminate.
    + apply existsb_exists. exists a. split; [exact Hin | apply String.eqb_refl].
Qed.

(** An actionable payload was parsed: it is an object. *)
Lemma actionable_parsed (eventType : WebhookService.Header) (body : JS.value) :
  WebhookService.actionable eventType body = true -> JS.nullish body = false.
Proof.
  intros H. apply actionable_spec in H. destruct H as [_ [a [Ha _]]].
  destruct body; try discriminate; reflexivity.
Qed.

Lemma identity_splittable (body : JS.value) (fullName : string)
    (pullNumber : JS.value) (owner repo : string) :
  Spec.identity body = Some (fullName, pullNumber, owner, repo) ->
  Spec.unsplittable body = false.
Proof.
  unfold Spec.identity, Spec.unsplittable.
  destruct (Spec.full_name body); try discriminate.
  intros _. cbn [JS.typeof]. rewrite String.eqb_refl.
  rewrite andb_false_r. reflexivity.
Qed.

Section HandlerFacts.

Variable Number_toString : JS.number -> string.
Variable config : WebhookService.Config.
Variable world : WebhookService.World.
Variable requestId : option string.

(** With a parsed body the handler reaches its [try] statement, and what
    that answers is what the handler answers. *)
Lemma webhook_guarded eventType body :
  JS.nullish body = false ->
  WebhookService.webhook Number_toString config world requestId eventType body
  = (fst (WebhookService.guarded Number_toString config world requestId
            eventType body),
     inr (snd (WebhookService.guarded Number_toString config world requestId
                 eventType body))).
Proof.
  intros H. unfold WebhookService.webhook.
  destruct (WebhookService.guarded Number_toString config world requestId
              eventType body) as [calls response].
  destruct body; try discriminate; reflexivity.
Qed.

(** Without one it throws at once. *)
Lemma webhook_bodiless eventType body :
  JS.nullish body = true ->
  exists message,
    WebhookService.webhook Number_toString config world requestId eventType
      body
    = ([], inl (JS.ErrorObject message)).
Proof.
  intros H. destruct body; try discriminate; simpl; eauto.
Qed.

(** An event that is not actionable is answered at once. *)
Lemma guarded_ignored eventType body :
  WebhookService.actionable eventType body = false ->
  WebhookService.guarded Number_toString config world requestId eventType body
  = ([], Api.respond 200 (Api.createSuccessResponse WebhookService.Ignored requestId)).
Proof.
  intros H. unfold WebhookService.guarded, WebhookService.dispatch.
  rewrite H. reflexivity.
Qed.

(** An actionable event without the identity of a pull request is
    refused before any call is made, unless its full name is there and is
    no string. *)
Lemma dispatch_without_identity eventType body :
  WebhookService.actionable eventType body = true ->
  Spec.identity body = None ->
  Spec.unsplittable body = false ->
  exists message details,
    WebhookService.dispatch Number_toString config world requestId eventType
      body
    = WebhookService.ret
        (Api.respond 400
           (Api.createErrorResponse Api.VALIDATION_ERROR message details
              requestId)).
Proof.
  intros Ha. unfold Spec.identity, Spec.unsplittable, WebhookService.dispatch.
  rewrite Ha. unfold Spec.full_name, Spec.number.
  destruct (JS.truthy (JS.get (JS.get body "repository") "full_name")) eqn:Hf;
    [|intros _ _; eexists; eexists; reflexivity].
  destruct (JS.truthy (JS.get (JS.get body "pull_request") "number")) eqn:Hn;
    [|intros _ _; eexists; eexists; reflexivity].
  cbn [negb orb andb].
  destruct (JS.get (JS.get body "repository") "full_name")
    as [| |b|x|fullName|items|fields]; try discriminate.
  intros Hid _. cbn [JS.truthy] in Hf. apply negb_true_iff in Hf.
  rewrite Hf in Hid.
  unfold Spec.owner_and_repo in Hid. unfold WebhookService.owner_repo.
  destruct (Str.split "/" fullName) as [|owner [|repo rest]];
    cbn [nth_error]; try (eexists; eexists; reflexivity).
  cbn [JS.truthy]. rewrite !negb_involutive.
  destruct (String.eqb owner ""); cbn [orb];
    [eexists; eexists; reflexivity|].
  destruct (String.eqb repo ""); cbn [orb];
    [eexists; eexists; reflexivity|].
  discriminate.
Qed.

(** A full name that is no string has no [split]. *)
Lemma dispatch_unsplittable eventType body :
  WebhookService.actionable eventType body = true ->
  Spec.unsplittable body = true ->
  WebhookService.dispatch Number_toString config world requestId eventType
    body
  = WebhookService.throw (JS.ErrorObject "fullName.split is not a function").
Proof.
  intros Ha. unfold Spec.unsplittable, WebhookService.dispatch.
  rewrite Ha. unfold Spec.full_name, Spec.number.
  rewrite !andb_true_iff. intros [[Hf Hn] Ht]. rewrite Hf, Hn.
  cbn [negb orb].
  destruct (JS.get (JS.get body "repository") "full_name");
    try reflexivity.
  discriminate Ht.
Qed.

(** With the identity of a pull request, the pipeline runs on the first
    two segments of the full name. *)
Lemma dispatch_with_identity eventType body fullName pullNumber owner repo :
  WebhookService.actionable eventType body = true ->
  Spec.identity body = Some (fullName, pullNumber, owner, repo) ->
  WebhookService.dispatch Number_toString config world requestId eventType body
  = WebhookService.review Number_toString config world requestId fullName
      pullNumber owner repo.
Proof.
  intros Ha. unfold Spec.identity, WebhookService.dispatch. rewrite Ha.
  unfold Spec.full_name, Spec.number.
  destruct (JS.get (JS.get body "repository") "full_name")
    as [| |b|x|f|items|fields]; try discriminate.
  cbn [JS.truthy]. rewrite negb_involutive.
  destruct (String.eqb f ""); [discriminate|].
  destruct (JS.truthy (JS.get (JS.get body "pull_request") "number"));
    [|discriminate].
  cbn [negb orb]. unfold Spec.owner_and_repo, WebhookService.owner_repo.
  destruct (Str.split "/" f) as [|o [|rp rest]];
    cbn [nth_error]; try discriminate.
  rewrite !negb_involutive.
  destruct (String.eqb o ""); cbn [orb]; [discriminate|].
  destruct (String.eqb rp ""); cbn [orb]; [discriminate|].
  intros H. inversion H. reflexivity.
Qed.

End HandlerFacts.

(** C8, as the code has it.  An authenticated webhook with a parsed body
    whose event kind is not [pull_request], or whose action is none of
    [opened], [reopened], [synchronize], is answered 200 with
    [{ ignored: true }], and no call is made: no diff fetch, no
    forwarding, no publication. *)
Theorem ignored_events_have_no_effect
    (hmac_sha256_hex : string -> string -> string)
    (Number_toString : JS.number -> string)
    (config : WebhookService.Config) (world : WebhookService.World)
    (req : WebhookService.Request) :
  WebhookService.authenticate hmac_sha256_hex config req = WebhookService.Next ->
  JS.nullish (WebhookService.payload req) = false ->
  (WebhookService.x_github_event req <> WebhookService.Single "pull_request"
   \/ forall a,
        JS.get (WebhookService.payload req) "action" = JS.Str a ->
        ~ In a ["opened"; "reopened"; "synchronize"]) ->
  WebhookService.postWebhook hmac_sha256_hex Number_toString config world req
  = ([],
     inr (Api.respond 200
            (Api.createSuccessResponse WebhookService.Ignored
               (WebhookService.requestId req)))).
Proof.
  intros Hauth Hbody Hnot. unfold WebhookService.postWebhook. rewrite Hauth.
  rewrite (webhook_guarded Number_toString config world _ _ _ Hbody).
  rewrite guarded_ignored; [reflexivity|].
  apply not_true_iff_false. intros Hact. apply actionable_spec in Hact.
  destruct Hact as [He [a [Ha Hin]]].
  destruct Hnot as [Hnot|Hnot]; [exact (Hnot He) | exact (Hnot a Ha Hin)].
Qed.

Lemma ignored_events_have_no_effect_witness :
  WebhookService.authenticate Node.hmac_sha256_hex Examples.webhook_config
    (Examples.delivery "pull_request" Examples.closed)
  = WebhookService.Next
  /\ (forall a,
        JS.get
          (WebhookService.payload
             (Examples.delivery "pull_request" Examples.closed)) "action"
        = JS.Str a ->
        ~ In a ["opened"; "reopened"; "synchronize"])
  /\ WebhookService.postWebhook Node.hmac_sha256_hex Node.Number_toString
       Examples.webhook_config Examples.all_up
       (Examples.delivery "pull_request" Examples.closed)
     = ([],
        inr (Api.respond 200
               (Api.createSuccessResponse WebhookService.Ignored (Some "r-0")))).
Proof.
  assert (forall a,
             JS.get
               (WebhookService.payload
                  (Examples.delivery "pull_request" Examples.closed)) "action"
             = JS.Str a ->
             ~ In a ["opened"; "reopened"; "synchronize"]) as Hclosed.
  { intros a Ha. inversion Ha. subst a. simpl. intuition discriminate. }
  split; [vm_compute; reflexivity|]. split; [exact Hclosed|].
  apply (ignored_events_have_no_effect Node.hmac_sha256_hex Node.Number_toString
           Examples.webhook_config Examples.all_up
           (Examples.delivery "pull_request" Examples.closed)).
  - vm_compute. reflexivity.
  - reflexivity.
  - right. exact Hclosed.
Defined.

(** C8 as stated fails without a parsed body.  When no secret is
    configured every delivery is admitted, also one that has no JSON body:
    [req.body] is then [undefined], the handler throws when it reads
    [body.action] for its first log line, before the [try], and what the
    client gets is the 500 of the error middleware, not the 200 of an
    ignored event.  No call is made there either. *)
Lemma bodiless_delivery_is_not_ignored :
  WebhookService.authenticate Node.hmac_sha256_hex Examples.open_config
    Examples.bodiless_ping
  = WebhookService.Next
  /\ WebhookService.x_github_event Examples.bodiless_ping
     <> WebhookService.Single "pull_request"
  /\ WebhookService.postWebhook Node.hmac_sha256_hex Node.Number_toString
       Examples.open_config Examples.all_up Examples.bodiless_ping
     = ([],
        inl (JS.ErrorObject
               "Cannot read properties of undefined (reading 'action')"))
  /\ WebhookService.answer Node.hmac_sha256_hex Node.Number_toString
       Examples.open_config Examples.all_up Examples.bodiless_ping
     = ([],
        Api.respond 500
          (Api.createErrorResponse Api.INTERNAL_ERROR
             "An internal error occurred" None (Some "r-0")))
  /\ WebhookService.postWebhook Node.hmac_sha256_hex Node.Number_toString
       Examples.open_config Examples.all_up Examples.bodiless_ping
     <> ([],
         inr (Api.respond 200
                (Api.createSuccessResponse WebhookService.Ignored
                   (Some "r-0")))).
Proof.
  split; [reflexivity|]. split; [discriminate|].
  split; [reflexivity|]. split; [reflexivity|]. discriminate.
Qed.

(** *** The calls of a sequence start with the calls of its first part *)

Lemma bind_calls {A B : Type} (m : WebhookService.M A)
    (k : A -> WebhookService.M B) :
  exists more, fst (WebhookService.bind m k) = (fst m ++ more)%list.
Proof.
  destruct m as [t [e|x]]; simpl.
  - exists []. rewrite app_nil_r. reflexivity.
  - destruct (k x) as [t' r]. exists t'. reflexivity.
Qed.

Lemma try_catch_calls {A : Type} (m : WebhookService.M A)
    (h : JS.thrown -> WebhookService.M A) :
  exists more, fst (WebhookService.try_catch m h) = (fst m ++ more)%list.
Proof.
  destruct m as [t [e|x]]; simpl.
  - destruct (h e) as [t' r]. exists t'. reflexivity.
  - exists []. rewrite app_nil_r. reflexivity.
Qed.

Section PipelineFacts.

Variable Number_toString : JS.number -> string.
Variable config : WebhookService.Config.
Variable world : WebhookService.World.

Lemma fetch_first_call owner repo pullNumber :
  exists more,
    fst (WebhookService.fetchPullRequestDiff Number_toString world owner repo
           pullNumber)
    = WebhookService.PullsGet owner repo pullNumber :: more.
Proof.
  unfold WebhookService.fetchPullRequestDiff.
  match goal with
  | |- context [WebhookService.try_catch ?m ?h] =>
      destruct (try_catch_calls m h) as [more1 H1]; rewrite H1;
      match m with
      | WebhookService.bind ?p ?k =>
          destruct (bind_calls p k) as [more2 H2]; rewrite H2
      end
  end.
  simpl. eexists. reflexivity.
Qed.

Lemma review_first_call requestId fullName pullNumber owner repo :
  exists more,
    fst (WebhookService.review Number_toString config world requestId fullName
           pullNumber owner repo)
    = WebhookService.PullsGet owner repo pullNumber :: more.
Proof.
  unfold WebhookService.review.
  match goal with
  | |- context [WebhookService.bind ?m ?k] =>
      destruct (bind_calls m k) as [more1 H1]; rewrite H1
  end.
  destruct (fetch_first_call owner repo pullNumber) as [more2 H2].
  rewrite H2. simpl. eexists. reflexivity.
Qed.

Lemma guarded_calls requestId eventType body :
  fst (WebhookService.guarded Number_toString config world requestId eventType
         body)
  = fst (WebhookService.dispatch Number_toString config world requestId
           eventType body).
Proof.
  unfold WebhookService.guarded.
  destruct (WebhookService.dispatch Number_toString config world requestId
              eventType body) as [t [e|r]]; reflexivity.
Qed.

(** The calls of the handler are those of its [try] block. *)
Lemma webhook_calls requestId eventType body :
  forall c,
    In c (fst (WebhookService.webhook Number_toString config world requestId
                 eventType body)) ->
    In c (fst (WebhookService.dispatch Number_toString config world requestId
                 eventType body)).
Proof.
  intros c. destruct (JS.nullish body) eqn:Hb.
  - destruct (webhook_bodiless Number_toString config world requestId
                eventType body Hb) as [m ->]. intros [].
  - rewrite (webhook_guarded Number_toString config world requestId eventType
               body Hb).
    cbn [fst]. rewrite guarded_calls. auto.
Qed.

End PipelineFacts.

Lemma split_empty_full_name (sep : ascii) (s : string) (a b : string)
    (rest : list string) :
  Str.split sep s = a :: b :: rest -> s <> "".
Proof. intros H ->. discriminate. Qed.

Lemma identity_of_first_two_segments (body : JS.value)
    (fullName owner repo : string) (rest : list string) :
  Spec.full_name body = JS.Str fullName ->
  Str.split "/" fullName = owner :: repo :: rest ->
  owner <> "" -> repo <> "" ->
  JS.truthy (Spec.number body) = true ->
  Spec.identity body = Some (fullName, Spec.number body, owner, repo).
Proof.
  intros Hf Hs Ho Hrp Hn. unfold Spec.identity, Spec.owner_and_repo.
  rewrite Hf, Hs, Hn.
  apply split_empty_full_name in Hs. apply String.eqb_neq in Hs. rewrite Hs.
  apply String.eqb_neq in Ho. apply String.eqb_neq in Hrp.
  rewrite Ho, Hrp. reflexivity.
Qed.

Lemma no_identity (body : JS.value) :
  JS.truthy (Spec.full_name body) = false
  \/ JS.truthy (Spec.number body) = false
  \/ (exists fullName,
        Spec.full_name body = JS.Str fullName
        /\ Spec.owner_and_repo fullName = None) ->
  Spec.identity body = None /\ Spec.unsplittable body = false.
Proof.
  unfold Spec.identity, Spec.unsplittable.
  intros [H|[H|[fullName [Hf H]]]].
  - rewrite H. split; [|reflexivity].
    destruct (Spec.full_name body); try reflexivity.
    cbn [JS.truthy] in H. apply negb_false_iff in H. rewrite H. reflexivity.
  - rewrite H. rewrite andb_false_r. split; [|reflexivity].
    destruct (Spec.full_name body); try reflexivity.
    destruct (String.eqb s ""); reflexivity.
  - rewrite Hf, H. cbn [JS.typeof]. rewrite String.eqb_refl.
    rewrite andb_false_r. split; [|reflexivity].
    destruct (String.eqb fullName ""); [reflexivity|].
    destruct (negb (JS.truthy (Spec.number body))); reflexivity.
Qed.

(** C5, as the code has it.  For an actionable pull-request webhook, a
    full name or a pull-request number that is missing or falsy (no
    repository, no pull request, an empty full name, the number zero), or
    a full name, a string, whose first two segments are not both there and
    non-empty, ends the pipeline with 400 [VALIDATION_ERROR] before any
    call.  A full name whose first two segments are there and non-empty,
    beside a truthy number, has the diff fetched for the owner and the
    repository these two segments name, however many segments follow. *)
Theorem identity_is_validated
    (Number_toString : JS.number -> string)
    (config : WebhookService.Config) (world : WebhookService.World)
    (requestId : option string) (eventType : WebhookService.Header)
    (body : JS.value) :
  Spec.Actionable eventType body ->
  (JS.truthy (Spec.full_name body) = false
   \/ JS.truthy (Spec.number body) = false
   \/ (exists fullName,
         Spec.full_name body = JS.Str fullName
         /\ Spec.owner_and_repo fullName = None) ->
   exists message details,
     WebhookService.webhook Number_toString config world requestId eventType
       body
     = ([],
        inr (Api.respond 400
               (Api.createErrorResponse Api.VALIDATION_ERROR message details
                  requestId))))
  /\ (forall fullName owner repo rest,
        Spec.full_name body = JS.Str fullName ->
        Str.split "/" fullName = owner :: repo :: rest ->
        owner <> "" -> repo <> "" ->
        JS.truthy (Spec.number body) = true ->
        exists more,
          fst (WebhookService.webhook Number_toString config world requestId
                 eventType body)
          = WebhookService.PullsGet owner repo (Spec.number body) :: more).
Proof.
  intros Hact. apply actionable_spec in Hact.
  rewrite (webhook_guarded Number_toString config world requestId eventType
             body (actionable_parsed _ _ Hact)).
  split.
  - intros H. apply no_identity in H. destruct H as [Hid Hsplit].
    destruct (dispatch_without_identity Number_toString config world requestId
                eventType body Hact Hid Hsplit) as [message [details Hd]].
    exists message, details. unfold WebhookService.guarded. rewrite Hd.
    reflexivity.
  - intros fullName owner repo rest Hf Hs Ho Hrp Hn.
    cbn [fst]. rewrite guarded_calls.
    rewrite (dispatch_with_identity Number_toString config world requestId
               eventType body _ _ _ _ Hact
               (identity_of_first_two_segments body fullName owner repo rest
                  Hf Hs Ho Hrp Hn)).
    apply review_first_call.
Qed.

Lemma identity_is_validated_witness :
  Spec.Actionable (WebhookService.Single "pull_request")
    (Examples.opened "widgets" 42%Q)
  /\ Spec.owner_and_repo "widgets" = None
  /\ (exists message details,
        WebhookService.webhook Node.Number_toString Examples.webhook_config
          Examples.all_up (Some "r-0") (WebhookService.Single "pull_request")
          (Examples.opened "widgets" 42%Q)
        = ([],
           inr (Api.respond 400
                  (Api.createErrorResponse Api.VALIDATION_ERROR message details
                     (Some "r-0")))))
  /\ Spec.Actionable (WebhookService.Single "pull_request")
       (Examples.opened "acme/widgets" 42%Q)
  /\ Str.split "/" "acme/widgets" = ["acme"; "widgets"]
  /\ ~ (42 == 0)%Q
  /\ exists more,
       fst (WebhookService.webhook Node.Number_toString Examples.webhook_config
              Examples.all_up (Some "r-0")
              (WebhookService.Single "pull_request")
              (Examples.opened "acme/widgets" 42%Q))
       = WebhookService.PullsGet "acme" "widgets" (JS.Number 42%Q) :: more.
Proof.
  assert (forall fullName,
             Spec.Actionable (WebhookService.Single "pull_request")
               (Examples.opened fullName 42%Q)) as Hact.
  { intros fullName. split; [reflexivity|].
    exists "opened". split; [reflexivity | left; reflexivity]. }
  split; [apply Hact|]. split; [reflexivity|]. split.
  - apply (identity_is_validated Node.Number_toString Examples.webhook_config
             Examples.all_up (Some "r-0") (WebhookService.Single "pull_request")
             (Examples.opened "widgets" 42%Q) (Hact "widgets")).
    right. right. eexists. split; reflexivity.
  - split; [apply Hact|]. split; [reflexivity|]. split; [discriminate|].
    destruct (identity_is_validated Node.Number_toString Examples.webhook_config
                Examples.all_up (Some "r-0")
                (WebhookService.Single "pull_request")
                (Examples.opened "acme/widgets" 42%Q) (Hact "acme/widgets"))
      as [_ Hfetch].
    apply (Hfetch "acme/widgets" "acme" "widgets" [] eq_refl eq_refl);
      [discriminate | discriminate | reflexivity].
Defined.

(** C5 as stated fails on a third segment: [acme/widgets/extra] does not
    split into exactly two segments, and the pull request is reviewed as
    number 42 of [acme/widgets]. *)
Lemma three_segments_are_reviewed :
  ~ Spec.TwoSegments "acme/widgets/extra"
  /\ WebhookService.webhook Node.Number_toString Examples.webhook_config
       Examples.all_up (Some "r-0") (WebhookService.Single "pull_request")
       (Examples.opened "acme/widgets/extra" 42%Q)
     = ([ WebhookService.PullsGet "acme" "widgets" (JS.Number 42%Q);
          WebhookService.HttpGet "https://github.com/acme/widgets/pull/42.diff"
            "application/vnd.github.v3.diff" 10000;
          WebhookService.HttpPost "http://localhost:4002/review"
            (JS.Object
               [ ("repo", JS.Str "acme/widgets/extra");
                 ("prNumber", JS.Number 42%Q);
                 ("diff", JS.Str Examples.diff_text);
                 ("language", JS.Str "typescript") ])
            120000;
          WebhookService.CreateReview "acme" "widgets" (JS.Number 42%Q)
            "COMMENT"
            (Str.join (Str.byte 10)
               [ "### 🤖 AI Code Review Assistant"; ""; "Looks fine"; "";
                 "#### Findings"; "- (**warning**) `a.ts:3` – unused var" ]) ],
        inr (Api.respond 200
               (Api.createSuccessResponse
                  (WebhookService.Processed true true None) (Some "r-0")))).
Proof.
  split.
  - intros [owner [repo [H _]]]. vm_compute in H. discriminate.
  - vm_compute. reflexivity.
Qed.

(** *** Which calls the pipeline can make *)

Lemma in_bind {A B : Type} (m : WebhookService.M A)
    (k : A -> WebhookService.M B) (c : WebhookService.Call) :
  In c (fst (WebhookService.bind m k)) ->
  In c (fst m) \/ exists x, snd m = inr x /\ In c (fst (k x)).
Proof.
  destruct m as [t [e|x]]; simpl; [auto|].
  destruct (k x) as [t' r] eqn:Hk. simpl. intros H.
  apply in_app_or in H. destruct H as [H|H]; [auto|].
  right. exists x. rewrite Hk. auto.
Qed.

Lemma in_try_catch {A : Type} (m : WebhookService.M A)
    (h : JS.thrown -> WebhookService.M A) (c : WebhookService.Call) :
  In c (fst (WebhookService.try_catch m h)) ->
  In c (fst m) \/ exists e, snd m = inl e /\ In c (fst (h e)).
Proof.
  destruct m as [t [e|x]]; simpl; [|auto].
  destruct (h e) as [t' r] eqn:Hh. simpl. intros H.
  apply in_app_or in H. destruct H as [H|H]; [auto|].
  right. exists e. rewrite Hh. auto.
Qed.

Lemma string_app_assoc (a b c : string) : ((a ++ b) ++ c = a ++ b ++ c)%string.
Proof.
  induction a as [|x a IH]; simpl; [reflexivity | rewrite IH; reflexivity].
Qed.

(** The outcomes of [fetchPullRequestDiff], one per way GitHub answers. *)
Lemma fetch_table (Number_toString : JS.number -> string)
    (world : WebhookService.World) (owner repo : string)
    (pullNumber : JS.value) :
  WebhookService.fetchPullRequestDiff Number_toString world owner repo
    pullNumber
  = match WebhookService.pulls_get world owner repo pullNumber with
    | inl e =>
        ([WebhookService.PullsGet owner repo pullNumber],
         inl (Notions.fetchError Number_toString owner repo pullNumber e))
    | inr None =>
        ([WebhookService.PullsGet owner repo pullNumber],
         inl (Notions.fetchError Number_toString owner repo pullNumber
                (Notions.noDiffUrl Number_toString owner repo pullNumber)))
    | inr (Some diffUrl) =>
        if String.eqb diffUrl "" then
          ([WebhookService.PullsGet owner repo pullNumber],
           inl (Notions.fetchError Number_toString owner repo pullNumber
                  (Notions.noDiffUrl Number_toString owner repo pullNumber)))
        else
          match WebhookService.http_get world diffUrl with
          | inl e =>
              ([ WebhookService.PullsGet owner repo pullNumber;
                 WebhookService.HttpGet diffUrl
                   "application/vnd.github.v3.diff" 10000 ],
               inl (Notions.fetchError Number_toString owner repo pullNumber e))
          | inr (JS.Str diff) =>
              ([ WebhookService.PullsGet owner repo pullNumber;
                 WebhookService.HttpGet diffUrl
                   "application/vnd.github.v3.diff" 10000 ],
               inr diff)
          | inr _ =>
              ([ WebhookService.PullsGet owner repo pullNumber;
                 WebhookService.HttpGet diffUrl
                   "application/vnd.github.v3.diff" 10000 ],
               inl (Notions.fetchError Number_toString owner repo pullNumber
                      (JS.ErrorObject "Invalid diff response format")))
          end
    end.
Proof.
  unfold WebhookService.fetchPullRequestDiff, WebhookService.try_catch,
    WebhookService.bind, WebhookService.perform, WebhookService.throw,
    WebhookService.ret, WebhookService.lift, Notions.fetchError,
    Notions.noDiffUrl.
  destruct (WebhookService.pr_in Number_toString pullNumber owner repo)
    as [unconverted|place];
    destruct (WebhookService.pulls_get world owner repo pullNumber)
      as [e0|[diffUrl|]];
    try (destruct (JS.instanceofError e0); reflexivity);
    try (destruct (JS.instanceofError unconverted); reflexivity);
    try reflexivity;
    cbn [JS.truthy]; rewrite negb_involutive;
    (destruct (String.eqb diffUrl "");
     [try (destruct (JS.instanceofError unconverted); reflexivity);
      reflexivity|]);
    (destruct (WebhookService.http_get world diffUrl) as [e1|data];
     [destruct (JS.instanceofError e1); reflexivity
     |destruct data; reflexivity]).
Qed.

(** The outcomes of [postReviewSummary]. *)
Lemma publish_table (Number_toString : JS.number -> string)
    (world : WebhookService.World) (owner repo : string)
    (pullNumber summary : JS.value) (comments : list JS.value) :
  WebhookService.postReviewSummary Number_toString world owner repo pullNumber
    summary comments
  = match WebhookService.findings Number_toString comments with
    | inl e => ([], inl e)
    | inr text =>
        match WebhookService.reviewBody Number_toString summary text with
        | inl e => ([], inl e)
        | inr body =>
            ([WebhookService.CreateReview owner repo pullNumber "COMMENT" body],
             match WebhookService.create_review world owner repo pullNumber
                     "COMMENT" body with
             | inr done => inr done
             | inl err =>
                 match WebhookService.pr_in Number_toString pullNumber owner
                         repo with
                 | inl unconverted => inl unconverted
                 | inr place =>
                     inl (JS.ErrorObject
                            ("Failed to post review summary to " ++ place
                             ++ ": "
                             ++ (if JS.instanceofError err
                                 then JS.errorMessage err
                                 else "Unknown error")))
                 end
             end)
        end
    end.
Proof.
  unfold WebhookService.postReviewSummary, WebhookService.try_catch,
    WebhookService.bind, WebhookService.perform, WebhookService.throw,
    WebhookService.lift.
  destruct (WebhookService.findings Number_toString comments) as [e|text];
    [reflexivity|].
  destruct (WebhookService.reviewBody Number_toString summary text)
    as [e|body]; [reflexivity|].
  cbn [app].
  destruct (WebhookService.create_review world owner repo pullNumber "COMMENT"
              body) as [err|done]; [|reflexivity].
  destruct (WebhookService.pr_in Number_toString pullNumber owner repo);
    reflexivity.
Qed.

Section CallFacts.

Variable Number_toString : JS.number -> string.
Variable config : WebhookService.Config.
Variable world : WebhookService.World.

Lemma fetch_calls owner repo pullNumber c :
  In c (fst (WebhookService.fetchPullRequestDiff Number_toString world owner
               repo pullNumber)) ->
  c = WebhookService.PullsGet owner repo pullNumber
  \/ exists diffUrl,
       c = WebhookService.HttpGet diffUrl "application/vnd.github.v3.diff" 10000.
Proof.
  rewrite fetch_table.
  destruct (WebhookService.pulls_get world owner repo pullNumber)
    as [e0|[diffUrl|]]; try (intros [H|[]]; auto; fail).
  destruct (String.eqb diffUrl ""); [intros [H|[]]; auto|].
  destruct (WebhookService.http_get world diffUrl) as [e1|data];
    [|destruct data]; (intros [H|[H|[]]]; eauto).
Qed.

Lemma publish_calls owner repo pullNumber summary comments c :
  In c (fst (WebhookService.postReviewSummary Number_toString world owner repo
               pullNumber summary comments)) ->
  exists body,
    c = WebhookService.CreateReview owner repo pullNumber "COMMENT" body.
Proof.
  rewrite publish_table.
  destruct (WebhookService.findings Number_toString comments) as [e|text];
    [intros []|].
  destruct (WebhookService.reviewBody Number_toString summary text)
    as [e|body]; [intros []|].
  intros [H|[]]. eauto.
Qed.

Lemma review_calls requestId fullName pullNumber owner repo c :
  In c (fst (WebhookService.review Number_toString config world requestId
               fullName pullNumber owner repo)) ->
  Spec.PipelineCall fullName pullNumber owner repo
    (WebhookService.reviewServiceUrl config ++ "/review") c.
Proof.
  unfold WebhookService.review, Spec.PipelineCall. intros H.
  apply in_bind in H. destruct H as [H|[diff [_ H]]].
  { apply fetch_calls in H. tauto. }
  match type of H with
  | context [if ?b then _ else _] => destruct b; [destruct H|]
  end.
  apply in_bind in H. destruct H as [H|[data [_ H]]].
  { destruct H as [H|[]]. right. right. left. eauto. }
  apply in_bind in H. destruct H as [H|[inner [_ H]]].
  { destruct data; destruct H. }
  match type of H with
  | context [match ?v with JS.Array _ => _ | _ => _ end] =>
      destruct v; try (destruct H; fail)
  end.
  match type of H with
  | context [if ?b then _ else _] => destruct b; [destruct H|]
  end.
  apply in_try_catch in H. destruct H as [H|[e [_ H]]]; [|destruct H].
  apply in_bind in H. destruct H as [H|[u [_ H]]]; [|destruct H].
  apply publish_calls in H. tauto.
Qed.

Lemma webhook_call requestId eventType body c :
  In c (fst (WebhookService.webhook Number_toString config world requestId
               eventType body)) ->
  exists fullName pullNumber owner repo,
    Spec.identity body = Some (fullName, pullNumber, owner, repo)
    /\ Spec.PipelineCall fullName pullNumber owner repo
         (WebhookService.reviewServiceUrl config ++ "/review") c.
Proof.
  intros H. apply webhook_calls in H. revert H.
  destruct (WebhookService.actionable eventType body) eqn:Hact.
  - destruct (Spec.identity body) as [[[[fullName pullNumber] owner] repo]|]
      eqn:Hid.
    + rewrite (dispatch_with_identity Number_toString config world requestId
                 eventType body _ _ _ _ Hact Hid).
      intros H. apply review_calls in H. eauto 8.
    + destruct (Spec.unsplittable body) eqn:Hs.
      * rewrite (dispatch_unsplittable Number_toString config world requestId
                   eventType body Hact Hs).
        intros [].
      * destruct (dispatch_without_identity Number_toString config world
                    requestId eventType body Hact Hid Hs) as [m [d ->]].
        intros [].
  - unfold WebhookService.dispatch. rewrite Hact. intros [].
Qed.

End CallFacts.

(** C10.  Whatever the webhook and whatever GitHub and the review service
    answer, a request sent to the review service carries
    [language: 'typescript']: the body posted is the object
    [{ repo, prNumber, diff, language: 'typescript' }] built from the
    payload's full name and number and the fetched diff. *)
Theorem forwarded_language_is_typescript
    (hmac_sha256_hex : string -> string -> string)
    (Number_toString : JS.number -> string)
    (config : WebhookService.Config) (world : WebhookService.World)
    (req : WebhookService.Request)
    (url : string) (data : JS.value) (timeout : Z) :
  In (WebhookService.HttpPost url data timeout)
    (fst (WebhookService.postWebhook hmac_sha256_hex Number_toString config
            world req)) ->
  JS.get data "language" = JS.Str "typescript"
  /\ exists fullName pullNumber diff,
       Spec.full_name (WebhookService.payload req) = JS.Str fullName
       /\ Spec.number (WebhookService.payload req) = pullNumber
       /\ data
          = JS.Object
              [ ("repo", JS.Str fullName); ("prNumber", pullNumber);
                ("diff", JS.Str diff); ("language", JS.Str "typescript") ].
Proof.
  unfold WebhookService.postWebhook.
  destruct (WebhookService.authenticate hmac_sha256_hex config req);
    try (intros []; fail).
  intros Hin. apply webhook_call in Hin.
  destruct Hin as [fullName [pullNumber [owner [repo [Hid Hc]]]]].
  destruct Hc as [Hc|[[u Hc]|[[diff Hc]|[b Hc]]]]; try discriminate.
  inversion Hc. subst. split; [reflexivity|].
  exists fullName, pullNumber, diff.
  unfold Spec.identity in Hid.
  destruct (Spec.full_name (WebhookService.payload req)); try discriminate.
  destruct (String.eqb s ""); [discriminate|].
  destruct (negb (JS.truthy (Spec.number (WebhookService.payload req))));
    [discriminate|].
  destruct (Spec.owner_and_repo s) as [[o r]|]; [|discriminate].
  injection Hid as <- <- _ _. auto.
Qed.

Lemma forwarded_language_is_typescript_witness :
  In (WebhookService.HttpPost "http://localhost:4002/review"
        (WebhookService.reviewRequestBody "acme/widgets" (JS.Number 42%Q)
           Examples.diff_text)
        120000)
    (fst (WebhookService.postWebhook Node.hmac_sha256_hex Node.Number_toString
            Examples.webhook_config Examples.all_up
            (Examples.delivery "pull_request"
               (Examples.opened "acme/widgets" 42%Q))))
  /\ JS.get
       (WebhookService.reviewRequestBody "acme/widgets" (JS.Number 42%Q)
          Examples.diff_text)
       "language"
     = JS.Str "typescript".
Proof.
  assert (In (WebhookService.HttpPost "http://localhost:4002/review"
                (WebhookService.reviewRequestBody "acme/widgets"
                   (JS.Number 42%Q) Examples.diff_text) 120000)
            (fst (WebhookService.postWebhook Node.hmac_sha256_hex
                    Node.Number_toString Examples.webhook_config Examples.all_up
                    (Examples.delivery "pull_request"
                       (Examples.opened "acme/widgets" 42%Q))))) as Hin.
  { vm_compute. right. right. left. reflexivity. }
  split; [exact Hin|].
  exact (proj1 (forwarded_language_is_typescript Node.hmac_sha256_hex
                  Node.Number_toString Examples.webhook_config Examples.all_up
                  _ _ _ _ Hin)).
Defined.

(** ** Failures of the three stages *)

(** A conversion to string that throws, throws the one [TypeError]. *)
Lemma toString_throws (Number_toString : JS.number -> string)
    (v : JS.value) (e : JS.thrown) :
  JS.toString Number_toString v = inl e -> e = JS.cannot_convert.
Proof.
  revert v e. fix IH 1.
  intros [| |[|]|n|s|items|fields] e; simpl; try discriminate.
  - induction items as [|x rest IHrest]; [discriminate|].
    destruct (JS.nullish x).
    + destruct ((fix elements (l : list JS.value) : JS.thrown + list string :=
                   match l with
                   | [] => inr []
                   | x :: rest =>
                       match (if JS.nullish x then inr ""
                              else JS.toString Number_toString x) with
                       | inl e => inl e
                       | inr part =>
                           match elements rest with
                           | inl e => inl e
                           | inr parts => inr (part :: parts)
                           end
                       end
                   end) rest) as [e'|parts] eqn:Hrest.
      * intros [= <-]. apply IHrest. reflexivity.
      * discriminate.
    + destruct (JS.toString Number_toString x) as [e'|part] eqn:Hx.
      * intros [= <-]. exact (IH x e' Hx).
      * destruct ((fix elements (l : list JS.value)
                     : JS.thrown + list string :=
                     match l with
                     | [] => inr []
                     | x :: rest =>
                         match (if JS.nullish x then inr ""
                                else JS.toString Number_toString x) with
                         | inl e => inl e
                         | inr part =>
                             match elements rest with
                             | inl e => inl e
                             | inr parts => inr (part :: parts)
                             end
                         end
                     end) rest) as [e'|parts] eqn:Hrest.
        -- intros [= <-]. apply IHrest. reflexivity.
        -- discriminate.
  - destruct (JS.has_own "toString" fields); [|discriminate].
    intros [= <-]. reflexivity.
Qed.

Lemma pr_in_throws (Number_toString : JS.number -> string)
    (pullNumber : JS.value) (owner repo : string) (e : JS.thrown) :
  WebhookService.pr_in Number_toString pullNumber owner repo = inl e ->
  e = JS.cannot_convert.
Proof.
  unfold WebhookService.pr_in, JS.and_then.
  destruct (JS.toString Number_toString pullNumber) as [e'|number] eqn:Hn;
    [|discriminate].
  intros [= <-]. exact (toString_throws _ _ _ Hn).
Qed.

Lemma fetchError_is_error (Number_toString : JS.number -> string)
    (owner repo : string) (pullNumber : JS.value) (e : JS.thrown) :
  exists message,
    Notions.fetchError Number_toString owner repo pullNumber e
    = JS.ErrorObject message.
Proof.
  unfold Notions.fetchError.
  destruct (WebhookService.pr_in Number_toString pullNumber owner repo)
    as [unconverted|place] eqn:Hp.
  - rewrite (pr_in_throws _ _ _ _ _ Hp). unfold JS.cannot_convert. eauto.
  - destruct (JS.instanceofError e); eauto.
Qed.

Lemma publishError_is_error (Number_toString : JS.number -> string)
    (owner repo : string) (pullNumber : JS.value) (err : JS.thrown) :
  exists message,
    Notions.publishError Number_toString owner repo pullNumber err
    = JS.ErrorObject message.
Proof.
  unfold Notions.publishError.
  destruct (WebhookService.pr_in Number_toString pullNumber owner repo)
    as [unconverted|place] eqn:Hp.
  - rewrite (pr_in_throws _ _ _ _ _ Hp). unfold JS.cannot_convert. eauto.
  - eauto.
Qed.

Section StageFacts.

Variable Number_toString : JS.number -> string.
Variable config : WebhookService.Config.
Variable world : WebhookService.World.
Variable requestId : option string.

(** [fetchPullRequestDiff] throws [Error] objects only. *)
Lemma fetch_throws owner repo pullNumber e :
  snd (WebhookService.fetchPullRequestDiff Number_toString world owner repo
         pullNumber) = inl e ->
  exists message, e = JS.ErrorObject message.
Proof.
  rewrite fetch_table.
  destruct (WebhookService.pulls_get world owner repo pullNumber)
    as [e0|[diffUrl|]].
  - intros [= <-]. apply fetchError_is_error.
  - destruct (String.eqb diffUrl "").
    + intros [= <-]. apply fetchError_is_error.
    + destruct (WebhookService.http_get world diffUrl) as [e1|data].
      * intros [= <-]. apply fetchError_is_error.
      * destruct data; simpl; try discriminate;
          intros [= <-]; apply fetchError_is_error.
  - intros [= <-]. apply fetchError_is_error.
Qed.

Lemma review_fetch_failed fullName pullNumber owner repo e :
  snd (WebhookService.fetchPullRequestDiff Number_toString world owner repo
         pullNumber) = inl e ->
  WebhookService.review Number_toString config world requestId fullName
    pullNumber owner repo
  = (fst (WebhookService.fetchPullRequestDiff Number_toString world owner repo
            pullNumber),
     inl e).
Proof.
  unfold WebhookService.review.
  destruct (WebhookService.fetchPullRequestDiff Number_toString world owner
              repo pullNumber) as [t [e'|diff]]; simpl; intros H;
    inversion H. reflexivity.
Qed.

Lemma review_empty fullName pullNumber owner repo t diff :
  WebhookService.fetchPullRequestDiff Number_toString world owner repo
    pullNumber = (t, inr diff) ->
  WebhookService.emptyDiff diff = true ->
  WebhookService.review Number_toString config world requestId fullName
    pullNumber owner repo
  = (t,
     inr (Api.respond 200
            (Api.createSuccessResponse
               (WebhookService.Processed false false
                  (Some "PR has no changes to review"))
               requestId))).
Proof.
  intros Hf He. unfold WebhookService.review. rewrite Hf.
  unfold WebhookService.bind. rewrite He. simpl.
  rewrite app_nil_r. reflexivity.
Qed.

Lemma review_forward_failed fullName pullNumber owner repo t diff e :
  WebhookService.fetchPullRequestDiff Number_toString world owner repo
    pullNumber = (t, inr diff) ->
  WebhookService.emptyDiff diff = false ->
  WebhookService.http_post world
    (WebhookService.reviewServiceUrl config ++ "/review")
    (WebhookService.reviewRequestBody fullName pullNumber diff) = inl e ->
  WebhookService.review Number_toString config world requestId fullName
    pullNumber owner repo
  = ((t ++ [WebhookService.HttpPost
              (WebhookService.reviewServiceUrl config ++ "/review")
              (WebhookService.reviewRequestBody fullName pullNumber diff)
              120000])%list,
     inl e).
Proof.
  intros Hf Hb Hp. unfold WebhookService.review. rewrite Hf.
  unfold WebhookService.bind at 1. rewrite Hb, Hp. reflexivity.
Qed.

Lemma review_nullish fullName pullNumber owner repo t diff data :
  WebhookService.fetchPullRequestDiff Number_toString world owner repo
    pullNumber = (t, inr diff) ->
  WebhookService.emptyDiff diff = false ->
  WebhookService.http_post world
    (WebhookService.reviewServiceUrl config ++ "/review")
    (WebhookService.reviewRequestBody fullName pullNumber diff) = inr data ->
  JS.nullish data = true ->
  WebhookService.review Number_toString config world requestId fullName
    pullNumber owner repo
  = ((t ++ [WebhookService.HttpPost
              (WebhookService.reviewServiceUrl config ++ "/review")
              (WebhookService.reviewRequestBody fullName pullNumber diff)
              120000])%list,
     inl (Notions.unreadable data "data")).
Proof.
  intros Hf He Hp Hn. unfold WebhookService.review. rewrite Hf.
  unfold WebhookService.bind at 1. rewrite He, Hp.
  destruct data; try discriminate; simpl; rewrite ?app_nil_r; reflexivity.
Qed.

Lemma review_invalid fullName pullNumber owner repo t diff data :
  WebhookService.fetchPullRequestDiff Number_toString world owner repo
    pullNumber = (t, inr diff) ->
  WebhookService.emptyDiff diff = false ->
  WebhookService.http_post world
    (WebhookService.reviewServiceUrl config ++ "/review")
    (WebhookService.reviewRequestBody fullName pullNumber diff) = inr data ->
  JS.nullish data = false ->
  JS.truthy (JS.get (WebhookService.reviewData data) "summary") = false
  \/ JS.isArray (JS.get (WebhookService.reviewData data) "comments") = false ->
  WebhookService.review Number_toString config world requestId fullName
    pullNumber owner repo
  = ((t ++ [WebhookService.HttpPost
              (WebhookService.reviewServiceUrl config ++ "/review")
              (WebhookService.reviewRequestBody fullName pullNumber diff)
              120000])%list,
     inr (Api.respond 500
            (Api.createErrorResponse Api.EXTERNAL_SERVICE_ERROR
               "Invalid response format from review service" None requestId))).
Proof.
  intros Hf He Hp Hn Hbad. unfold WebhookService.review. rewrite Hf.
  unfold WebhookService.bind at 1. rewrite He, Hp.
  assert (WebhookService.data_of data = WebhookService.ret (JS.get data "data"))
    as Hd by (destruct data; try discriminate; reflexivity).
  unfold WebhookService.perform, WebhookService.bind at 1.
  rewrite Hd. unfold WebhookService.ret at 1, WebhookService.bind at 1.
  destruct (JS.get (WebhookService.reviewData data) "comments") eqn:Hc;
    try (simpl; rewrite ?app_nil_r; reflexivity).
  destruct Hbad as [Hs|Ha]; [|discriminate Ha].
  rewrite Hs. simpl. rewrite ?app_nil_r. reflexivity.
Qed.

Lemma review_published fullName pullNumber owner repo t diff data summary
    comments :
  WebhookService.fetchPullRequestDiff Number_toString world owner repo
    pullNumber = (t, inr diff) ->
  WebhookService.emptyDiff diff = false ->
  WebhookService.http_post world
    (WebhookService.reviewServiceUrl config ++ "/review")
    (WebhookService.reviewRequestBody fullName pullNumber diff) = inr data ->
  JS.nullish data = false ->
  JS.get (WebhookService.reviewData data) "summary" = summary ->
  JS.get (WebhookService.reviewData data) "comments" = JS.Array comments ->
  JS.truthy summary = true ->
  WebhookService.review Number_toString config world requestId fullName
    pullNumber owner repo
  = ((t ++ WebhookService.HttpPost
             (WebhookService.reviewServiceUrl config ++ "/review")
             (WebhookService.reviewRequestBody fullName pullNumber diff) 120000
           :: fst (WebhookService.postReviewSummary Number_toString world owner
                     repo pullNumber summary comments))%list,
     inr match snd (WebhookService.postReviewSummary Number_toString world
                      owner repo pullNumber summary comments) with
         | inr _ =>
             Api.respond 200
               (Api.createSuccessResponse
                  (WebhookService.Processed true true None) requestId)
         | inl postError =>
             Api.respond 500
               (Api.createErrorResponse Api.EXTERNAL_SERVICE_ERROR
                  ("Failed to post review to GitHub: "
                   ++ (if JS.instanceofError postError
                       then JS.errorMessage postError
                       else "Unknown error"))
                  None requestId)
         end).
Proof.
  intros Hf Hb Hp Hn Hs Hc Ht. unfold WebhookService.review. rewrite Hf.
  unfold WebhookService.bind at 1. rewrite Hb, Hp.
  assert (WebhookService.data_of data = WebhookService.ret (JS.get data "data"))
    as Hd by (destruct data; try discriminate; reflexivity).
  unfold WebhookService.perform, WebhookService.bind at 1.
  rewrite Hd. unfold WebhookService.ret at 1, WebhookService.bind at 1.
  rewrite Hc, Hs, Ht. cbn [negb].
  destruct (WebhookService.postReviewSummary Number_toString world owner repo
              pullNumber summary comments) as [t' [e|u]];
    simpl; rewrite ?app_nil_r; reflexivity.
Qed.

(** The handler on an actionable webhook with an identity: the run of
    [review], with the handler's [catch] around it. *)
Lemma webhook_reviews eventType body fullName pullNumber owner repo :
  WebhookService.actionable eventType body = true ->
  Spec.identity body = Some (fullName, pullNumber, owner, repo) ->
  WebhookService.webhook Number_toString config world requestId eventType body
  = (fst (WebhookService.review Number_toString config world requestId
            fullName pullNumber owner repo),
     inr match snd (WebhookService.review Number_toString config world
                      requestId fullName pullNumber owner repo) with
         | inr response => response
         | inl e => WebhookService.failure requestId e
         end).
Proof.
  intros Hact Hid.
  rewrite (webhook_guarded Number_toString config world requestId eventType
             body (actionable_parsed _ _ Hact)).
  unfold WebhookService.guarded.
  rewrite (dispatch_with_identity Number_toString config world requestId
             eventType body _ _ _ _ Hact Hid).
  destruct (WebhookService.review Number_toString config world requestId
              fullName pullNumber owner repo) as [t [e|response]];
    reflexivity.
Qed.

End StageFacts.

(** C4, as the code has it.  In a run for an actionable webhook with the
    identity of a pull request:
    - the diff fetch calls GitHub's pull-request and diff endpoints only;
      when it fails the run ends with 500 and the code of the handler's
      catch-all, [TIMEOUT_ERROR] when the message of the error contains
      [timeout] or [TIMEOUT] and [INTERNAL_ERROR] otherwise;
    - a request to the review service that throws ends the run the same
      way, after the diff fetch and the one POST to the review service; so
      does an answer that is [null] or [undefined], with [INTERNAL_ERROR];
    - an answer of the review service without a truthy summary or without
      an array of comments ends the run with 500 [EXTERNAL_SERVICE_ERROR],
      after the diff fetch and the POST;
    - a failed publication ends the run with 500 [EXTERNAL_SERVICE_ERROR]:
      after the diff fetch and the POST when the rendering of the findings
      or of the summary throws, after these and the one [createReview]
      when that call throws.
    The calls made are those of the stages reached, in order, with none
    undoing an earlier one, and no review is created after a failed diff
    fetch or forwarding. *)
Theorem stage_failures
    (Number_toString : JS.number -> string)
    (config : WebhookService.Config) (world : WebhookService.World)
    (requestId : option string) (eventType : WebhookService.Header)
    (body : JS.value)
    (fullName : string) (pullNumber : JS.value) (owner repo : string) :
  Spec.Actionable eventType body ->
  Spec.identity body = Some (fullName, pullNumber, owner, repo) ->
  (forall c,
      In c (fst (WebhookService.fetchPullRequestDiff Number_toString world
                   owner repo pullNumber)) ->
      c = WebhookService.PullsGet owner repo pullNumber
      \/ exists diffUrl,
           c = WebhookService.HttpGet diffUrl "application/vnd.github.v3.diff"
                 10000)
  /\ (forall e,
        snd (WebhookService.fetchPullRequestDiff Number_toString world owner
               repo pullNumber) = inl e ->
        exists message,
          e = JS.ErrorObject message
          /\ WebhookService.webhook Number_toString config world requestId
               eventType body
             = (fst (WebhookService.fetchPullRequestDiff Number_toString world
                       owner repo pullNumber),
                inr (Api.respond 500
                       (Api.createErrorResponse
                          (if WebhookService.isTimeout message
                           then Api.TIMEOUT_ERROR else Api.INTERNAL_ERROR)
                          ("Failed to process webhook: " ++ message) None
                          requestId))))
  /\ (forall t diff e,
        WebhookService.fetchPullRequestDiff Number_toString world owner repo
          pullNumber = (t, inr diff) ->
        WebhookService.emptyDiff diff = false ->
        WebhookService.http_post world
          (WebhookService.reviewServiceUrl config ++ "/review")
          (WebhookService.reviewRequestBody fullName pullNumber diff) = inl e ->
        WebhookService.webhook Number_toString config world requestId
          eventType body
        = ((t ++ [WebhookService.HttpPost
                    (WebhookService.reviewServiceUrl config ++ "/review")
                    (WebhookService.reviewRequestBody fullName pullNumber diff)
                    120000])%list,
           inr (Api.respond 500
                  (Api.createErrorResponse
                     (if JS.instanceofError e
                      then if WebhookService.isTimeout (JS.errorMessage e)
                           then Api.TIMEOUT_ERROR else Api.INTERNAL_ERROR
                      else Api.INTERNAL_ERROR)
                     ("Failed to process webhook: "
                      ++ (if JS.instanceofError e then JS.errorMessage e
                          else "Unknown error"))
                     None requestId))))
  /\ (forall t diff data,
        WebhookService.fetchPullRequestDiff Number_toString world owner repo
          pullNumber = (t, inr diff) ->
        WebhookService.emptyDiff diff = false ->
        WebhookService.http_post world
          (WebhookService.reviewServiceUrl config ++ "/review")
          (WebhookService.reviewRequestBody fullName pullNumber diff)
        = inr data ->
        JS.nullish data = true ->
        WebhookService.webhook Number_toString config world requestId
          eventType body
        = ((t ++ [WebhookService.HttpPost
                    (WebhookService.reviewServiceUrl config ++ "/review")
                    (WebhookService.reviewRequestBody fullName pullNumber diff)
                    120000])%list,
           inr (Api.respond 500
                  (Api.createErrorResponse Api.INTERNAL_ERROR
                     ("Failed to process webhook: "
                      ++ JS.errorMessage (Notions.unreadable data "data"))
                     None requestId))))
  /\ (forall t diff data,
        WebhookService.fetchPullRequestDiff Number_toString world owner repo
          pullNumber = (t, inr diff) ->
        WebhookService.emptyDiff diff = false ->
        WebhookService.http_post world
          (WebhookService.reviewServiceUrl config ++ "/review")
          (WebhookService.reviewRequestBody fullName pullNumber diff)
        = inr data ->
        JS.nullish data = false ->
        JS.truthy (JS.get (WebhookService.reviewData data) "summary") = false
        \/ JS.isArray (JS.get (WebhookService.reviewData data) "comments")
           = false ->
        WebhookService.webhook Number_toString config world requestId
          eventType body
        = ((t ++ [WebhookService.HttpPost
                    (WebhookService.reviewServiceUrl config ++ "/review")
                    (WebhookService.reviewRequestBody fullName pullNumber diff)
                    120000])%list,
           inr (Api.respond 500
                  (Api.createErrorResponse Api.EXTERNAL_SERVICE_ERROR
                     "Invalid response format from review service" None
                     requestId))))
  /\ (forall t diff data summary comments,
        WebhookService.fetchPullRequestDiff Number_toString world owner repo
          pullNumber = (t, inr diff) ->
        WebhookService.emptyDiff diff = false ->
        WebhookService.http_post world
          (WebhookService.reviewServiceUrl config ++ "/review")
          (WebhookService.reviewRequestBody fullName pullNumber diff)
        = inr data ->
        JS.nullish data = false ->
        JS.get (WebhookService.reviewData data) "summary" = summary ->
        JS.truthy summary = true ->
        JS.get (WebhookService.reviewData data) "comments" = JS.Array comments ->
        (forall text rendered err,
            WebhookService.findings Number_toString comments = inr text ->
            WebhookService.reviewBody Number_toString summary text
            = inr rendered ->
            WebhookService.create_review world owner repo pullNumber "COMMENT"
              rendered
            = inl err ->
            WebhookService.webhook Number_toString config world requestId
              eventType body
            = ((t ++ [ WebhookService.HttpPost
                         (WebhookService.reviewServiceUrl config ++ "/review")
                         (WebhookService.reviewRequestBody fullName pullNumber
                            diff)
                         120000;
                       WebhookService.CreateReview owner repo pullNumber
                         "COMMENT" rendered ])%list,
               inr (Api.respond 500
                      (Api.createErrorResponse Api.EXTERNAL_SERVICE_ERROR
                         ("Failed to post review to GitHub: "
                          ++ JS.errorMessage
                               (Notions.publishError Number_toString owner repo
                                  pullNumber err))
                         None requestId))))
        /\ (forall e,
              WebhookService.findings Number_toString comments = inl e
              \/ (exists text,
                    WebhookService.findings Number_toString comments = inr text
                    /\ WebhookService.reviewBody Number_toString summary text
                       = inl e) ->
              WebhookService.webhook Number_toString config world requestId
                eventType body
              = ((t ++ [ WebhookService.HttpPost
                           (WebhookService.reviewServiceUrl config ++ "/review")
                           (WebhookService.reviewRequestBody fullName
                              pullNumber diff)
                           120000 ])%list,
                 inr (Api.respond 500
                        (Api.createErrorResponse Api.EXTERNAL_SERVICE_ERROR
                           ("Failed to post review to GitHub: "
                            ++ (if JS.instanceofError e then JS.errorMessage e
                                else "Unknown error"))
                           None requestId))))).
Proof.
  intros Hact Hid. apply actionable_spec in Hact.
  rewrite (webhook_reviews Number_toString config world requestId eventType
             body _ _ _ _ Hact Hid).
  split; [|split; [|split; [|split; [|split]]]].
  - intros c. apply fetch_calls.
  - intros e He.
    destruct (fetch_throws Number_toString world owner repo pullNumber e He)
      as [message ->].
    exists message. split; [reflexivity|].
    rewrite (review_fetch_failed Number_toString config world requestId
               fullName pullNumber owner repo _ He).
    reflexivity.
  - intros t diff e Hf Hb Hp.
    rewrite (review_forward_failed Number_toString config world requestId
               fullName pullNumber owner repo t diff e Hf Hb Hp).
    destruct e; reflexivity.
  - intros t diff data Hf Hb Hp Hn.
    rewrite (review_nullish Number_toString config world requestId fullName
               pullNumber owner repo t diff data Hf Hb Hp Hn).
    destruct data; try discriminate Hn; reflexivity.
  - intros t diff data Hf Hb Hp Hn Hbad.
    rewrite (review_invalid Number_toString config world requestId fullName
               pullNumber owner repo t diff data Hf Hb Hp Hn Hbad).
    reflexivity.
  - intros t diff data summary comments Hf Hb Hp Hn Hs Ht Hc.
    rewrite (review_published Number_toString config world requestId fullName
               pullNumber owner repo t diff data summary comments Hf Hb Hp Hn
               Hs Hc Ht).
    rewrite publish_table. split.
    + intros text rendered err Hfind Hbody Hcreate.
      rewrite Hfind, Hbody. cbn [fst snd]. rewrite Hcreate.
      unfold Notions.publishError.
      destruct (WebhookService.pr_in Number_toString pullNumber owner repo)
        as [unconverted|place] eqn:Hplace; [|reflexivity].
      rewrite (pr_in_throws _ _ _ _ _ Hplace). reflexivity.
    + intros e [Hfind|[text [Hfind Hbody]]].
      * rewrite Hfind. reflexivity.
      * rewrite Hfind, Hbody. reflexivity.
Qed.

Lemma stage_failures_witness :
  Spec.Actionable (WebhookService.Single "pull_request")
    (Examples.opened "acme/widgets" 42%Q)
  /\ Spec.identity (Examples.opened "acme/widgets" 42%Q)
     = Some ("acme/widgets", JS.Number 42%Q, "acme", "widgets")
  /\ (exists message,
        snd (WebhookService.fetchPullRequestDiff Node.Number_toString
               Examples.github_not_found "acme" "widgets" (JS.Number 42%Q))
        = inl (JS.ErrorObject message)
        /\ WebhookService.webhook Node.Number_toString Examples.webhook_config
             Examples.github_not_found (Some "r-0")
             (WebhookService.Single "pull_request")
             (Examples.opened "acme/widgets" 42%Q)
           = ([WebhookService.PullsGet "acme" "widgets" (JS.Number 42%Q)],
              inr (Api.respond 500
                     (Api.createErrorResponse
                        (if WebhookService.isTimeout message
                         then Api.TIMEOUT_ERROR else Api.INTERNAL_ERROR)
                        ("Failed to process webhook: " ++ message) None
                        (Some "r-0")))))
  /\ WebhookService.webhook Node.Number_toString Examples.webhook_config
       Examples.review_service_slow (Some "r-0")
       (WebhookService.Single "pull_request")
       (Examples.opened "acme/widgets" 42%Q)
     = ([ WebhookService.PullsGet "acme" "widgets" (JS.Number 42%Q);
          WebhookService.HttpGet "https://github.com/acme/widgets/pull/42.diff"
            "application/vnd.github.v3.diff" 10000;
          WebhookService.HttpPost "http://localhost:4002/review"
            (WebhookService.reviewRequestBody "acme/widgets" (JS.Number 42%Q)
               Examples.diff_text) 120000 ],
        inr (Api.respond 500
               (Api.createErrorResponse Api.TIMEOUT_ERROR
                  "Failed to process webhook: timeout of 120000ms exceeded"
                  None (Some "r-0"))))
  /\ WebhookService.webhook Node.Number_toString Examples.webhook_config
       Examples.publication_refused (Some "r-0")
       (WebhookService.Single "pull_request")
       (Examples.opened "acme/widgets" 42%Q)
     = ([ WebhookService.PullsGet "acme" "widgets" (JS.Number 42%Q);
          WebhookService.HttpGet "https://github.com/acme/widgets/pull/42.diff"
            "application/vnd.github.v3.diff" 10000;
          WebhookService.HttpPost "http://localhost:4002/review"
            (WebhookService.reviewRequestBody "acme/widgets" (JS.Number 42%Q)
               Examples.diff_text) 120000;
          WebhookService.CreateReview "acme" "widgets" (JS.Number 42%Q)
            "COMMENT"
            (Str.join (Str.byte 10)
               [ "### 🤖 AI Code Review Assistant"; ""; "Looks fine"; "";
                 "#### Findings";
                 "- (**warning**) `a.ts:3` – unused var" ]) ],
        inr (Api.respond 500
               (Api.createErrorResponse Api.EXTERNAL_SERVICE_ERROR
                  "Failed to post review to GitHub: Failed to post review summary to PR #42 in acme/widgets: Validation Failed"
                  None (Some "r-0")))).
Proof.
  assert (Spec.Actionable (WebhookService.Single "pull_request")
            (Examples.opened "acme/widgets" 42%Q)) as Hact.
  { split; [reflexivity|].
    exists "opened". split; [reflexivity | left; reflexivity]. }
  assert (Spec.identity (Examples.opened "acme/widgets" 42%Q)
          = Some ("acme/widgets", JS.Number 42%Q, "acme", "widgets")) as Hid
    by reflexivity.
  split; [exact Hact|]. split; [exact Hid|]. split; [|split].
  - destruct (stage_failures Node.Number_toString Examples.webhook_config
                Examples.github_not_found (Some "r-0") _ _ _ _ _ _ Hact Hid)
      as [_ [Hfetch _]].
    destruct (Hfetch
                (JS.ErrorObject
                   "Failed to fetch diff for PR #42 in acme/widgets: Not Found")
                eq_refl) as [message [Hm Hw]].
    exists message. split; [rewrite <- Hm; reflexivity | exact Hw].
  - destruct (stage_failures Node.Number_toString Examples.webhook_config
                Examples.review_service_slow (Some "r-0") _ _ _ _ _ _ Hact Hid)
      as [_ [_ [Hforward _]]].
    exact (Hforward _ Examples.diff_text
             (JS.ErrorObject "timeout of 120000ms exceeded")
             eq_refl eq_refl eq_refl).
  - destruct (stage_failures Node.Number_toString Examples.webhook_config
                Examples.publication_refused (Some "r-0") _ _ _ _ _ _ Hact Hid)
      as [_ [_ [_ [_ [_ Hpublish]]]]].
    destruct (Hpublish _ Examples.diff_text Examples.review_envelope
                (JS.Str "Looks fine")
                [Examples.finding "a.ts" 3%Q "warning" "unused var"]
                eq_refl eq_refl eq_refl eq_refl eq_refl eq_refl eq_refl)
      as [Hcreate _].
    exact (Hcreate "- (**warning**) `a.ts:3` – unused var" _
             (JS.ErrorObject "Validation Failed") eq_refl eq_refl eq_refl).
Defined.

(** C4 as stated fails: a diff fetch that GitHub refuses and a forwarding
    that the review service refuses end with the same error kind, and it
    is [INTERNAL_ERROR], not the external-service kind. *)
Lemma fetch_and_forwarding_share_a_kind :
  WebhookService.webhook Node.Number_toString Examples.webhook_config
    Examples.github_not_found (Some "r-0")
    (WebhookService.Single "pull_request")
    (Examples.opened "acme/widgets" 42%Q)
  = ([WebhookService.PullsGet "acme" "widgets" (JS.Number 42%Q)],
     inr (Api.respond 500
            (Api.createErrorResponse Api.INTERNAL_ERROR
               "Failed to process webhook: Failed to fetch diff for PR #42 in acme/widgets: Not Found"
               None (Some "r-0"))))
  /\ WebhookService.webhook Node.Number_toString Examples.webhook_config
       Examples.review_service_down (Some "r-0")
       (WebhookService.Single "pull_request")
       (Examples.opened "acme/widgets" 42%Q)
     = ([ WebhookService.PullsGet "acme" "widgets" (JS.Number 42%Q);
          WebhookService.HttpGet "https://github.com/acme/widgets/pull/42.diff"
            "application/vnd.github.v3.diff" 10000;
          WebhookService.HttpPost "http://localhost:4002/review"
            (WebhookService.reviewRequestBody "acme/widgets" (JS.Number 42%Q)
               Examples.diff_text) 120000 ],
        inr (Api.respond 500
               (Api.createErrorResponse Api.INTERNAL_ERROR
                  "Failed to process webhook: Request failed with status code 502"
                  None (Some "r-0")))).
Proof. split; vm_compute; reflexivity. Qed.

(** ** The published review *)

Lemma single_line_app (a b : string) :
  Spec.single_line (a ++ b) = Spec.single_line a && Spec.single_line b.
Proof.
  induction a as [|c a IH]; simpl; [reflexivity|].
  rewrite IH. apply andb_assoc.
Qed.

Lemma split_single_line (s : string) :
  Spec.single_line s = true -> Str.split Str.LF s = [s].
Proof.
  induction s as [|c s IH]; simpl; [reflexivity|].
  intros H. apply andb_true_iff in H. destruct H as [Hc Hs].
  apply negb_true_iff in Hc. rewrite Hc, (IH Hs). reflexivity.
Qed.

Lemma split_line_then (a b : string) :
  Spec.single_line a = true ->
  Str.split Str.LF (a ++ String Str.LF b) = a :: Str.split Str.LF b.
Proof.
  induction a as [|c a IH]; simpl.
  - intros _. reflexivity.
  - intros H. apply andb_true_iff in H. destruct H as [Hc Ha].
    apply negb_true_iff in Hc. rewrite Hc, (IH Ha). reflexivity.
Qed.

(** Splitting what was joined gives the parts back, when no part holds a
    line feed. *)
Lemma lines_join (parts : list string) :
  parts <> [] ->
  Forall (fun p => Spec.single_line p = true) parts ->
  Str.lines (Str.join (Str.byte 10) parts) = parts.
Proof.
  unfold Str.lines, Str.join.
  induction parts as [|p parts IH]; [contradiction|].
  intros _ H. inversion H as [|? ? Hp Hparts]; subst.
  destruct parts as [|p' parts'].
  - simpl. apply split_single_line. exact Hp.
  - change (String.concat (Str.byte 10) (p :: p' :: parts'))
      with (p ++ String Str.LF (String.concat (Str.byte 10) (p' :: parts'))).
    rewrite (split_line_then _ _ Hp). f_equal.
    apply IH; [discriminate | exact Hparts].
Qed.

Lemma filter_all {A : Type} (f : A -> bool) (l : list A) :
  Forall (fun x => f x = true) l -> filter f l = l.
Proof.
  induction 1 as [|x l Hx _ IH]; simpl; [reflexivity|].
  rewrite Hx, IH. reflexivity.
Qed.

Section RenderingFacts.

Variable Number_toString : JS.number -> string.

Lemma bullet_of_comment (c : WebhookService.ReviewComment) :
  WebhookService.bullet Number_toString (WebhookService.ReviewComment_value c)
  = inr (Spec.bullet_line Number_toString c).
Proof. reflexivity. Qed.

Lemma bullets_of_comments (cs : list WebhookService.ReviewComment) :
  WebhookService.bullets Number_toString
    (map WebhookService.ReviewComment_value cs)
  = inr (map (Spec.bullet_line Number_toString) cs).
Proof.
  induction cs as [|c cs IH]; [reflexivity|].
  cbn [map WebhookService.bullets]. rewrite bullet_of_comment, IH.
  reflexivity.
Qed.

Lemma bullet_line_single (c : WebhookService.ReviewComment) :
  Spec.on_one_line Number_toString c = true ->
  Spec.single_line (Spec.bullet_line Number_toString c) = true.
Proof.
  unfold Spec.on_one_line, Spec.bullet_line. rewrite !andb_true_iff.
  intros [[Hf Hl] Hm]. rewrite !single_line_app, Hf, Hl, Hm.
  destruct (WebhookService.severity c); reflexivity.
Qed.

Lemma bullet_line_bulleted (c : WebhookService.ReviewComment) :
  String.prefix "- " (Spec.bullet_line Number_toString c) = true.
Proof. reflexivity. Qed.

End RenderingFacts.

(** C7, as the code has it.  The findings of a review are rendered as the
    fixed placeholder when there are none, and otherwise as the bullets of
    the findings, in order, joined by line feeds, each bullet being
    [- (**severity**) `file:line` – message] with the four fields
    verbatim.  When no file, line or message holds a line feed, the text
    has exactly one line per finding and every line is bulleted.  The
    document is sent in one [createReview] call whose event is [COMMENT],
    with the summary as [join] converts it; a summary that cannot be
    converted ends the publication before any call. *)
Theorem review_rendering
    (Number_toString : JS.number -> string) (world : WebhookService.World)
    (owner repo : string) (pullNumber summary : JS.value)
    (cs : list WebhookService.ReviewComment) :
  exists text,
    WebhookService.findings Number_toString
      (map WebhookService.ReviewComment_value cs) = inr text
    /\ (cs = [] -> text = "_No specific issues were detected. Nice work!_")
    /\ (cs <> [] ->
        text = Str.join (Str.byte 10) (map (Spec.bullet_line Number_toString) cs))
    /\ (cs <> [] ->
        Forall (fun c => Spec.on_one_line Number_toString c = true) cs ->
        Str.lines text = map (Spec.bullet_line Number_toString) cs
        /\ Spec.bulleted_lines text = map (Spec.bullet_line Number_toString) cs
        /\ length (Spec.bulleted_lines text) = length cs)
    /\ (forall rendered,
          (if JS.nullish summary then inr ""
           else JS.toString Number_toString summary) = inr rendered ->
          fst (WebhookService.postReviewSummary Number_toString world owner
                 repo pullNumber summary
                 (map WebhookService.ReviewComment_value cs))
          = [WebhookService.CreateReview owner repo pullNumber "COMMENT"
               (Str.join (Str.byte 10)
                  [ "### 🤖 AI Code Review Assistant"; ""; rendered;
                    ""; "#### Findings"; text ])])
    /\ (forall e,
          (if JS.nullish summary then inr ""
           else JS.toString Number_toString summary) = inl e ->
          WebhookService.postReviewSummary Number_toString world owner repo
            pullNumber summary (map WebhookService.ReviewComment_value cs)
          = ([], inl e)).
Proof.
  assert (forall text,
            WebhookService.findings Number_toString
              (map WebhookService.ReviewComment_value cs) = inr text ->
            (forall rendered,
                (if JS.nullish summary then inr ""
                 else JS.toString Number_toString summary) = inr rendered ->
                fst (WebhookService.postReviewSummary Number_toString world
                       owner repo pullNumber summary
                       (map WebhookService.ReviewComment_value cs))
                = [WebhookService.CreateReview owner repo pullNumber "COMMENT"
                     (Str.join (Str.byte 10)
                        [ "### 🤖 AI Code Review Assistant"; ""; rendered;
                          ""; "#### Findings"; text ])])
            /\ (forall e,
                  (if JS.nullish summary then inr ""
                   else JS.toString Number_toString summary) = inl e ->
                  WebhookService.postReviewSummary Number_toString world owner
                    repo pullNumber summary
                    (map WebhookService.ReviewComment_value cs)
                  = ([], inl e))) as Hsent.
  { intros text Hf. rewrite publish_table, Hf.
    unfold WebhookService.reviewBody, JS.joined, JS.and_then.
    split.
    - intros rendered ->. reflexivity.
    - intros e ->. reflexivity. }
  destruct cs as [|c cs'].
  - exists WebhookService.NO_ISSUES.
    split; [reflexivity|]. split; [reflexivity|].
    split; [intros H; contradiction|]. split; [intros H; contradiction|].
    apply Hsent. reflexivity.
  - set (cs := c :: cs').
    exists (Str.join (Str.byte 10) (map (Spec.bullet_line Number_toString) cs)).
    assert (WebhookService.findings Number_toString
              (map WebhookService.ReviewComment_value cs)
            = inr (Str.join (Str.byte 10)
                     (map (Spec.bullet_line Number_toString) cs))) as Hf.
    { unfold WebhookService.findings.
      rewrite (bullets_of_comments Number_toString cs). reflexivity. }
    split; [exact Hf|]. split; [discriminate|]. split; [reflexivity|].
    split.
    + intros _ Hone.
      assert (Str.lines
                (Str.join (Str.byte 10)
                   (map (Spec.bullet_line Number_toString) cs))
              = map (Spec.bullet_line Number_toString) cs) as Hlines.
      { apply lines_join; [discriminate|].
        apply Forall_map. eapply Forall_impl; [|exact Hone].
        intros a Ha. apply bullet_line_single. exact Ha. }
      split; [exact Hlines|].
      assert (Spec.bulleted_lines
                (Str.join (Str.byte 10)
                   (map (Spec.bullet_line Number_toString) cs))
              = map (Spec.bullet_line Number_toString) cs) as Hb.
      { unfold Spec.bulleted_lines. rewrite Hlines. apply filter_all.
        apply Forall_map. apply Forall_forall. intros a _.
        apply bullet_line_bulleted. }
      split; [exact Hb|]. rewrite Hb. apply length_map.
    + apply Hsent. exact Hf.
Qed.

Lemma review_rendering_witness :
  [Examples.unused_var; Examples.missing_await] <> []
  /\ Forall (fun c => Spec.on_one_line Node.Number_toString c = true)
       [Examples.unused_var; Examples.missing_await]
  /\ exists text,
       WebhookService.findings Node.Number_toString
         (map WebhookService.ReviewComment_value
            [Examples.unused_var; Examples.missing_await]) = inr text
       /\ Str.lines text
          = [ "- (**warning**) `a.ts:3` – unused var";
              "- (**error**) `b.ts:12` – promise is not awaited" ]
       /\ length (Spec.bulleted_lines text) = 2
       /\ fst (WebhookService.postReviewSummary Node.Number_toString
                 Examples.all_up "acme" "widgets" (JS.Number 42%Q)
                 (JS.Str "Looks fine")
                 (map WebhookService.ReviewComment_value
                    [Examples.unused_var; Examples.missing_await]))
          = [WebhookService.CreateReview "acme" "widgets" (JS.Number 42%Q)
               "COMMENT"
               (Str.join (Str.byte 10)
                  [ "### 🤖 AI Code Review Assistant"; ""; "Looks fine";
                    ""; "#### Findings"; text ])].
Proof.
  assert (Forall (fun c => Spec.on_one_line Node.Number_toString c = true)
            [Examples.unused_var; Examples.missing_await]) as Hone
    by (repeat constructor).
  split; [discriminate|]. split; [exact Hone|].
  destruct (review_rendering Node.Number_toString Examples.all_up "acme"
              "widgets" (JS.Number 42%Q) (JS.Str "Looks fine")
              [Examples.unused_var; Examples.missing_await])
    as [text [Hf [_ [_ [Hlines [Hsent _]]]]]].
  exists text. split; [exact Hf|].
  destruct Hlines as [Hl [_ Hn]]; [discriminate | exact Hone |].
  split; [exact Hl|]. split; [exact Hn|].
  apply Hsent. reflexivity.
Defined.

(** C7 as stated fails: one well-formed finding whose message holds a
    line feed followed by a list item is rendered as two bulleted lines. *)
Lemma one_finding_two_bulleted_lines :
  WebhookService.findings Node.Number_toString
    [WebhookService.ReviewComment_value Examples.two_paragraphs]
  = inr ("- (**warning**) `a.ts:3` – rename:" ++ Str.byte 10 ++ "- x to count")
  /\ Spec.bulleted_lines
       ("- (**warning**) `a.ts:3` – rename:" ++ Str.byte 10 ++ "- x to count")
     = ["- (**warning**) `a.ts:3` – rename:"; "- x to count"]
  /\ length [Examples.two_paragraphs] = 1.
Proof. repeat split; vm_compute; reflexivity. Qed.

(** ** Two more properties of the pipeline *)

(** A pull request without effective changes is answered without calling
    the review service. *)
Lemma empty_diff_is_not_forwarded
    (Number_toString : JS.number -> string)
    (config : WebhookService.Config) (world : WebhookService.World)
    (requestId : option string) (eventType : WebhookService.Header)
    (body : JS.value)
    (fullName : string) (pullNumber : JS.value) (owner repo : string)
    (t : list WebhookService.Call) (diff : string) :
  Spec.Actionable eventType body ->
  Spec.identity body = Some (fullName, pullNumber, owner, repo) ->
  WebhookService.fetchPullRequestDiff Number_toString world owner repo
    pullNumber = (t, inr diff) ->
  WebhookService.emptyDiff diff = true ->
  WebhookService.webhook Number_toString config world requestId eventType body
  = (t,
     inr (Api.respond 200
            (Api.createSuccessResponse
               (WebhookService.Processed false false
                  (Some "PR has no changes to review"))
               requestId))).
Proof.
  intros Hact Hid Hf He. apply actionable_spec in Hact.
  rewrite (webhook_reviews Number_toString config world requestId eventType
             body _ _ _ _ Hact Hid).
  rewrite (review_empty Number_toString config world requestId fullName
             pullNumber owner repo t diff Hf He).
  reflexivity.
Qed.

(** Whatever happens, a review is only ever created with the [COMMENT]
    event. *)
Lemma reviews_are_comments
    (hmac_sha256_hex : string -> string -> string)
    (Number_toString : JS.number -> string)
    (config : WebhookService.Config) (world : WebhookService.World)
    (req : WebhookService.Request)
    (owner repo : string) (pullNumber : JS.value) (event text : string) :
  In (WebhookService.CreateReview owner repo pullNumber event text)
    (fst (WebhookService.postWebhook hmac_sha256_hex Number_toString config
            world req)) ->
  event = "COMMENT".
Proof.
  unfold WebhookService.postWebhook.
  destruct (WebhookService.authenticate hmac_sha256_hex config req);
    try (intros []; fail).
  destruct (WebhookService.webhook Number_toString config world
              (WebhookService.requestId req) (WebhookService.x_github_event req)
              (WebhookService.payload req)) as [calls response] eqn:Hw.
  intros H. cbn [fst] in H.
  assert (In (WebhookService.CreateReview owner repo pullNumber event text)
            (fst (WebhookService.webhook Number_toString config world
                    (WebhookService.requestId req)
                    (WebhookService.x_github_event req)
                    (WebhookService.payload req)))) as Hin
    by (rewrite Hw; exact H).
  apply webhook_call in Hin.
  destruct Hin as [fullName [n [o [r [_ Hc]]]]].
  destruct Hc as [Hc|[[u Hc]|[[diff Hc]|[b Hc]]]]; try discriminate.
  inversion Hc. reflexivity.
Qed.

(** ** The end-to-end example of the specification *)

Example opened_pull_request_is_reviewed :
  WebhookService.postWebhook Node.hmac_sha256_hex Node.Number_toString
    Examples.webhook_config Examples.all_up
    (Examples.delivery "pull_request" (Examples.opened "acme/widgets" 42%Q))
  = ([ WebhookService.PullsGet "acme" "widgets" (JS.Number 42%Q);
       WebhookService.HttpGet "https://github.com/acme/widgets/pull/42.diff"
         "application/vnd.github.v3.diff" 10000;
       WebhookService.HttpPost "http://localhost:4002/review"
         (JS.Object
            [ ("repo", JS.Str "acme/widgets"); ("prNumber", JS.Number 42%Q);
              ("diff", JS.Str Examples.diff_text);
              ("language", JS.Str "typescript") ])
         120000;
       WebhookService.CreateReview "acme" "widgets" (JS.Number 42%Q) "COMMENT"
         (Str.join (Str.byte 10)
            [ "### 🤖 AI Code Review Assistant"; ""; "Looks fine"; "";
              "#### Findings"; "- (**warning**) `a.ts:3` – unused var" ]) ],
     inr (Api.respond 200
            (Api.createSuccessResponse (WebhookService.Processed true true None)
               (Some "r-0")))).
Proof. vm_compute. reflexivity. Qed.

(** * Further properties *)

(** ** What the request schema accepts and what it reports *)

Section SchemaFacts.

Variable Number_toString : JS.number -> string.
Variable config : ReviewService.Config.

Lemma schema_repo_accepts v r :
  ReviewService.schema_repo v = inr r <-> v = JS.Str r /\ 1 <= JS.length r.
Proof.
  split.
  - destruct v; simpl; try discriminate.
    destruct (Nat.ltb (JS.length s) 1) eqn:Hlen; simpl; [discriminate|].
    intros H. inversion H. subst. apply Nat.ltb_ge in Hlen. auto.
  - intros [-> Hlen]. simpl. apply Nat.ltb_ge in Hlen. rewrite Hlen.
    reflexivity.
Qed.

Lemma schema_prNumber_accepts v n :
  ReviewService.schema_prNumber v = inr n
  <-> v = JS.Number n /\ JS.isInteger n = true /\ (0 < n)%Q.
Proof.
  split.
  - destruct v; simpl; try discriminate.
    destruct (JS.isInteger n0) eqn:Hint;
      destruct (Qle_bool n0 0) eqn:Hpos; simpl; try discriminate.
    intros H. inversion H. subst. repeat split.
    + exact Hint.
    + apply Qnot_le_lt. intros Hle. apply Qle_bool_iff in Hle. congruence.
  - intros [-> [Hint Hpos]]. simpl. rewrite Hint.
    assert (Qle_bool n 0 = false) as ->.
    { apply not_true_iff_false. rewrite Qle_bool_iff. apply Qlt_not_le.
      exact Hpos. }
    reflexivity.
Qed.

Lemma exceeds_false_iff (len : nat) (n : JS.number) :
  ReviewService.exceeds len n = false <-> (inject_Z (Z.of_nat len) <= n)%Q.
Proof.
  unfold ReviewService.exceeds. rewrite negb_false_iff. apply Qle_bool_iff.
Qed.

Lemma schema_diff_accepts v d :
  ReviewService.schema_diff Number_toString config v = inr d
  <-> v = JS.Str d /\ 1 <= JS.length d
      /\ (inject_Z (Z.of_nat (JS.length d))
          <= ReviewService.maxDiffSize config)%Q.
Proof.
  split.
  - destruct v; simpl; try discriminate.
    destruct (Nat.ltb (JS.length s) 1) eqn:Hlen;
      destruct (ReviewService.exceeds (JS.length s)
                  (ReviewService.maxDiffSize config)) eqn:Hmax;
      simpl; try discriminate.
    intros H. inversion H. subst. apply Nat.ltb_ge in Hlen.
    apply exceeds_false_iff in Hmax. auto.
  - intros [-> [Hlen Hmax]]. simpl.
    apply Nat.ltb_ge in Hlen. apply exceeds_false_iff in Hmax.
    rewrite Hlen, Hmax. reflexivity.
Qed.

Lemma schema_language_accepts v l :
  ReviewService.schema_language v = inr l
  <-> v = match l with Some s => JS.Str s | None => JS.Undefined end.
Proof.
  split.
  - destruct v; simpl; intros H; inversion H; reflexivity.
  - intros ->. destruct l; reflexivity.
Qed.

(** An object is accepted when its four keys are, and only then. *)
Lemma safeParse_object fields :
  ReviewService.safeParse Number_toString config (JS.Object fields)
  = match ReviewService.schema_repo (JS.lookup "repo" fields),
          ReviewService.schema_prNumber (JS.lookup "prNumber" fields),
          ReviewService.schema_diff Number_toString config
            (JS.lookup "diff" fields),
          ReviewService.schema_language (JS.lookup "language" fields)
    with
    | inr r, inr n, inr d, inr l =>
        inr {| ReviewService.repo := r; ReviewService.prNumber := n;
               ReviewService.diff := d; ReviewService.language := l |}
    | r, n, d, l =>
        inl (Zod.issues_of r ++ Zod.issues_of n ++ Zod.issues_of d
             ++ Zod.issues_of l)%list
    end.
Proof.
  simpl.
  destruct (ReviewService.schema_repo (JS.lookup "repo" fields));
    destruct (ReviewService.schema_prNumber (JS.lookup "prNumber" fields));
    destruct (ReviewService.schema_diff Number_toString config
                (JS.lookup "diff" fields));
    destruct (ReviewService.schema_language (JS.lookup "language" fields));
    reflexivity.
Qed.

Lemma safeParse_accepts body request :
  ReviewService.safeParse Number_toString config body = inr request
  <-> exists fields,
        body = JS.Object fields
        /\ JS.lookup "repo" fields = JS.Str (ReviewService.repo request)
        /\ 1 <= JS.length (ReviewService.repo request)
        /\ JS.lookup "prNumber" fields
           = JS.Number (ReviewService.prNumber request)
        /\ JS.isInteger (ReviewService.prNumber request) = true
        /\ (0 < ReviewService.prNumber request)%Q
        /\ JS.lookup "diff" fields = JS.Str (ReviewService.diff request)
        /\ 1 <= JS.length (ReviewService.diff request)
        /\ (inject_Z (Z.of_nat (JS.length (ReviewService.diff request)))
            <= ReviewService.maxDiffSize config)%Q
        /\ JS.lookup "language" fields
           = match ReviewService.language request with
             | Some l => JS.Str l
             | None => JS.Undefined
             end.
Proof.
  split.
  - destruct body; try (simpl; discriminate).
    rewrite safeParse_object.
    destruct (ReviewService.schema_repo (JS.lookup "repo" fields))
      as [ri|r] eqn:Hr;
      destruct (ReviewService.schema_prNumber (JS.lookup "prNumber" fields))
        as [ni|n] eqn:Hn;
      destruct (ReviewService.schema_diff Number_toString config
                  (JS.lookup "diff" fields)) as [di|d] eqn:Hd;
      destruct (ReviewService.schema_language (JS.lookup "language" fields))
        as [li|l] eqn:Hl;
      try discriminate.
    intros H. inversion H. subst. clear H. cbn.
    apply schema_repo_accepts in Hr. apply schema_prNumber_accepts in Hn.
    apply schema_diff_accepts in Hd. apply schema_language_accepts in Hl.
    exists fields. intuition.
  - intros [fields [-> [Hr [Hrl [Hn [Hni [Hnp [Hd [Hdl [Hdm Hl]]]]]]]]]].
    rewrite safeParse_object.
    rewrite (proj2 (schema_repo_accepts _ _) (conj Hr Hrl)).
    rewrite (proj2 (schema_prNumber_accepts _ _) (conj Hn (conj Hni Hnp))).
    rewrite (proj2 (schema_diff_accepts _ _) (conj Hd (conj Hdl Hdm))).
    rewrite (proj2 (schema_language_accepts _ _) Hl).
    destruct request. reflexivity.
Qed.

End SchemaFacts.

(** X1.  The request schema accepts a body exactly when it is an object
    whose [repo] is a non-empty string, whose [prNumber] is a positive
    integer, whose [diff] is a non-empty string no longer than the
    configured maximum and whose [language] is absent or a string; the
    request handed to the handler holds those four values and nothing
    else of the body. *)
Theorem validation_accepts_exactly
    (Number_toString : JS.number -> string) (config : ReviewService.Config)
    (requestId : option string) (body : JS.value)
    (request : ReviewService.ReviewRequest) :
  ReviewService.validateReviewRequest Number_toString config requestId body
  = inr request
  <-> exists fields,
        body = JS.Object fields
        /\ JS.lookup "repo" fields = JS.Str (ReviewService.repo request)
        /\ 1 <= JS.length (ReviewService.repo request)
        /\ JS.lookup "prNumber" fields
           = JS.Number (ReviewService.prNumber request)
        /\ JS.isInteger (ReviewService.prNumber request) = true
        /\ (0 < ReviewService.prNumber request)%Q
        /\ JS.lookup "diff" fields = JS.Str (ReviewService.diff request)
        /\ 1 <= JS.length (ReviewService.diff request)
        /\ (inject_Z (Z.of_nat (JS.length (ReviewService.diff request)))
            <= ReviewService.maxDiffSize config)%Q
        /\ JS.lookup "language" fields
           = match ReviewService.language request with
             | Some l => JS.Str l
             | None => JS.Undefined
             end.
Proof.
  rewrite <- (safeParse_accepts Number_toString config body request).
  unfold ReviewService.validateReviewRequest.
  destruct (ReviewService.safeParse Number_toString config body);
    split; intros H; inversion H; reflexivity.
Qed.

Lemma schema_repo_paths v i :
  In i (Zod.issues_of (ReviewService.schema_repo v)) -> Zod.path i = ["repo"].
Proof.
  destruct v; simpl; try (intros [<-|[]]; reflexivity).
  destruct (Nat.ltb (JS.length s) 1); simpl; [|intros []].
  intros [<-|[]]. reflexivity.
Qed.

Lemma schema_prNumber_paths v i :
  In i (Zod.issues_of (ReviewService.schema_prNumber v)) ->
  Zod.path i = ["prNumber"].
Proof.
  destruct v; simpl; try (intros [<-|[]]; reflexivity).
  destruct (JS.isInteger n); destruct (Qle_bool n 0); simpl;
    intuition (subst; reflexivity).
Qed.

Lemma schema_diff_paths Number_toString config v i :
  In i (Zod.issues_of (ReviewService.schema_diff Number_toString config v)) ->
  Zod.path i = ["diff"].
Proof.
  destruct v; simpl; try (intros [<-|[]]; reflexivity).
  destruct (Nat.ltb (JS.length s) 1);
    destruct (ReviewService.exceeds (JS.length s)
                (ReviewService.maxDiffSize config));
    simpl; intuition (subst; reflexivity).
Qed.

Lemma schema_language_paths v i :
  In i (Zod.issues_of (ReviewService.schema_language v)) ->
  Zod.path i = ["language"].
Proof.
  destruct v; simpl; try (intros [<-|[]]; reflexivity); intros [].
Qed.

Lemma issues_of_nonempty {T : Type} (r : list Zod.ZodIssue + T) :
  (forall issues, r = inl issues -> issues <> []) ->
  (Zod.issues_of r <> [] <-> forall x, r <> inr x).
Proof.
  intros Hne. destruct r as [issues|x]; simpl.
  - split; [intros _ x; discriminate | intros _; apply Hne; reflexivity].
  - split; [intros H; contradiction | intros H; exfalso; apply (H x); reflexivity].
Qed.

Lemma reported_under (p : list string) (l : list Zod.ZodIssue) :
  (forall i, In i l -> Zod.path i = p) ->
  ((exists i, In i l /\ Zod.path i = p) <-> l <> []).
Proof.
  intros Hp. split.
  - intros [i [Hin _]] ->. destruct Hin.
  - destruct l as [|i l]; [contradiction|]. intros _.
    exists i. split; [left; reflexivity | apply Hp; left; reflexivity].
Qed.

Lemma not_reported_under (p q : list string) (l : list Zod.ZodIssue) :
  p <> q ->
  (forall i, In i l -> Zod.path i = q) ->
  ~ exists i, In i l /\ Zod.path i = p.
Proof.
  intros Hpq Hq [i [Hin Hp]]. apply Hpq. rewrite <- Hp. apply Hq. exact Hin.
Qed.

Lemma reported_app (p : list string) (a b : list Zod.ZodIssue) :
  (exists i, In i (a ++ b)%list /\ Zod.path i = p)
  <-> (exists i, In i a /\ Zod.path i = p)
      \/ (exists i, In i b /\ Zod.path i = p).
Proof.
  split.
  - intros [i [Hin Hp]]. apply in_app_or in Hin.
    destruct Hin; [left | right]; eauto.
  - intros [[i [Hin Hp]]|[i [Hin Hp]]]; exists i; split; auto;
      apply in_or_app; auto.
Qed.

(** X2.  When an object is rejected, the errors sent name the keys of the
    schema and nothing else, and a key is named exactly when its value
    breaks the schema: all violations are reported together. *)
Theorem validation_reports_each_invalid_key
    (Number_toString : JS.number -> string) (config : ReviewService.Config)
    (requestId : option string) (fields : list (string * JS.value))
    (response : Api.HttpResponse ReviewService.ReviewResponse) :
  ReviewService.validateReviewRequest Number_toString config requestId
    (JS.Object fields) = inl response ->
  exists issues,
    response
    = Api.respond 400
        (Api.createErrorResponse Api.VALIDATION_ERROR "Invalid request body"
           (Some
              (JS.Object
                 [("errors",
                   JS.Array
                     (map (ReviewService.field_error) issues))]))
           requestId)
    /\ (forall i,
          In i issues ->
          In (Zod.path i) [["repo"]; ["prNumber"]; ["diff"]; ["language"]])
    /\ ((exists i, In i issues /\ Zod.path i = ["repo"])
        <-> ~ exists r,
                JS.lookup "repo" fields = JS.Str r /\ 1 <= JS.length r)
    /\ ((exists i, In i issues /\ Zod.path i = ["prNumber"])
        <-> ~ exists n,
                JS.lookup "prNumber" fields = JS.Number n
                /\ JS.isInteger n = true /\ (0 < n)%Q)
    /\ ((exists i, In i issues /\ Zod.path i = ["diff"])
        <-> ~ exists d,
                JS.lookup "diff" fields = JS.Str d /\ 1 <= JS.length d
                /\ (inject_Z (Z.of_nat (JS.length d))
                    <= ReviewService.maxDiffSize config)%Q)
    /\ ((exists i, In i issues /\ Zod.path i = ["language"])
        <-> ~ exists l,
                JS.lookup "language" fields
                = match l with Some s => JS.Str s | None => JS.Undefined end).
Proof.
  unfold ReviewService.validateReviewRequest.
  destruct (ReviewService.safeParse Number_toString config (JS.Object fields))
    as [issues|data] eqn:Hparse; [|discriminate].
  intros H. inversion H. subst response. clear H.
  exists issues. split; [reflexivity|].
  set (r := ReviewService.schema_repo (JS.lookup "repo" fields)) in *.
  set (n := ReviewService.schema_prNumber (JS.lookup "prNumber" fields)) in *.
  set (d := ReviewService.schema_diff Number_toString config
              (JS.lookup "diff" fields)) in *.
  set (l := ReviewService.schema_language (JS.lookup "language" fields)) in *.
  assert (issues
          = (Zod.issues_of r ++ Zod.issues_of n ++ Zod.issues_of d
             ++ Zod.issues_of l)%list) as ->.
  { rewrite safeParse_object in Hparse. fold r n d l in Hparse.
    destruct r; destruct n; destruct d; destruct l;
      inversion Hparse; reflexivity. }
  pose proof (schema_repo_paths (JS.lookup "repo" fields)) as Pr.
  pose proof (schema_prNumber_paths (JS.lookup "prNumber" fields)) as Pn.
  pose proof (schema_diff_paths Number_toString config
                (JS.lookup "diff" fields)) as Pd.
  pose proof (schema_language_paths (JS.lookup "language" fields)) as Pl.
  fold r in Pr. fold n in Pn. fold d in Pd. fold l in Pl.
  split.
  { intros i Hin. simpl.
    apply in_app_or in Hin. destruct Hin as [Hin|Hin];
      [rewrite (Pr i Hin); auto|].
    apply in_app_or in Hin. destruct Hin as [Hin|Hin];
      [rewrite (Pn i Hin); auto|].
    apply in_app_or in Hin. destruct Hin as [Hin|Hin];
      [rewrite (Pd i Hin); auto | rewrite (Pl i Hin); auto 6]. }
  rewrite !reported_app.
  split; [|split; [|split]].
  - rewrite (reported_under ["repo"] _ Pr).
    rewrite (issues_of_nonempty r
               (fun issues => schema_repo_issues _ issues)).
    split.
    + intros [Hr|[Hx|[Hx|Hx]]].
      * intros [x Hx]. apply (Hr x). apply schema_repo_accepts. exact Hx.
      * exfalso. revert Hx. apply (not_reported_under _ ["prNumber"]);
          [discriminate | exact Pn].
      * exfalso. revert Hx. apply (not_reported_under _ ["diff"]);
          [discriminate | exact Pd].
      * exfalso. revert Hx. apply (not_reported_under _ ["language"]);
          [discriminate | exact Pl].
    + intros Hno. left. intros x Hx. apply Hno. exists x.
      apply schema_repo_accepts. exact Hx.
  - rewrite (reported_under ["prNumber"] _ Pn).
    rewrite (issues_of_nonempty n
               (fun issues => schema_prNumber_issues _ issues)).
    split.
    + intros [Hx|[Hn|[Hx|Hx]]].
      * exfalso. revert Hx. apply (not_reported_under _ ["repo"]);
          [discriminate | exact Pr].
      * intros [x Hx]. apply (Hn x). apply schema_prNumber_accepts. exact Hx.
      * exfalso. revert Hx. apply (not_reported_under _ ["diff"]);
          [discriminate | exact Pd].
      * exfalso. revert Hx. apply (not_reported_under _ ["language"]);
          [discriminate | exact Pl].
    + intros Hno. right. left. intros x Hx. apply Hno. exists x.
      apply schema_prNumber_accepts. exact Hx.
  - rewrite (reported_under ["diff"] _ Pd).
    rewrite (issues_of_nonempty d
               (fun issues =>
                  schema_diff_issues Number_toString config _ issues)).
    split.
    + intros [Hx|[Hx|[Hd|Hx]]].
      * exfalso. revert Hx. apply (not_reported_under _ ["repo"]);
          [discriminate | exact Pr].
      * exfalso. revert Hx. apply (not_reported_under _ ["prNumber"]);
          [discriminate | exact Pn].
      * intros [x Hx]. apply (Hd x).
        apply (schema_diff_accepts Number_toString config). exact Hx.
      * exfalso. revert Hx. apply (not_reported_under _ ["language"]);
          [discriminate | exact Pl].
    + intros Hno. right. right. left. intros x Hx. apply Hno. exists x.
      apply (schema_diff_accepts Number_toString config). exact Hx.
  - rewrite (reported_under ["language"] _ Pl).
    rewrite (issues_of_nonempty l
               (fun issues => schema_language_issues _ issues)).
    split.
    + intros [Hx|[Hx|[Hx|Hl]]].
      * exfalso. revert Hx. apply (not_reported_under _ ["repo"]);
          [discriminate | exact Pr].
      * exfalso. revert Hx. apply (not_reported_under _ ["prNumber"]);
          [discriminate | exact Pn].
      * exfalso. revert Hx. apply (not_reported_under _ ["diff"]);
          [discriminate | exact Pd].
      * intros [x Hx]. apply (Hl x). apply schema_language_accepts. exact Hx.
    + intros Hno. right. right. right. intros x Hx. apply Hno. exists x.
      apply schema_language_accepts. exact Hx.
Qed.

Lemma validation_reports_each_invalid_key_witness :
  exists response,
    ReviewService.validateReviewRequest Node.Number_toString
      Examples.small_config None
      (JS.Object
         [ ("repo", JS.Str ""); ("prNumber", JS.Number 2.5%Q);
           ("diff", JS.Str "0123456789A") ])
    = inl response
    /\ exists issues,
         response
         = Api.respond 400
             (Api.createErrorResponse Api.VALIDATION_ERROR
                "Invalid request body"
                (Some
                   (JS.Object
                      [("errors",
                        JS.Array (map ReviewService.field_error issues))]))
                None)
         /\ ((exists i, In i issues /\ Zod.path i = ["repo"])
             <-> ~ exists r,
                     JS.lookup "repo"
                       [ ("repo", JS.Str ""); ("prNumber", JS.Number 2.5%Q);
                         ("diff", JS.Str "0123456789A") ] = JS.Str r
                     /\ 1 <= JS.length r).
Proof.
  eexists. split; [reflexivity|].
  destruct (validation_reports_each_invalid_key Node.Number_toString
              Examples.small_config None
              [ ("repo", JS.Str ""); ("prNumber", JS.Number 2.5%Q);
                ("diff", JS.Str "0123456789A") ] _ eq_refl)
    as [issues [Hr [_ [Hrepo _]]]].
  exists issues. split; [exact Hr | exact Hrepo].
Defined.

(** The errors sent for a body that breaks the schema three times. *)
Example three_violations_are_reported :
  ReviewService.validateReviewRequest Node.Number_toString
    Examples.small_config None
    (JS.Object
       [ ("repo", JS.Str ""); ("prNumber", JS.Number 2.5%Q);
         ("diff", JS.Str "0123456789A") ])
  = inl (Api.respond 400
           (Api.createErrorResponse Api.VALIDATION_ERROR "Invalid request body"
              (Some
                 (JS.Object
                    [("errors",
                      JS.Array
                        [ JS.Object
                            [ ("field", JS.Str "repo");
                              ("message", JS.Str "Repository name is required") ];
                          JS.Object
                            [ ("field", JS.Str "prNumber");
                              ("message",
                               JS.Str "Expected integer, received float") ];
                          JS.Object
                            [ ("field", JS.Str "diff");
                              ("message",
                               JS.Str "Diff exceeds maximum size of 10 characters") ] ])]))
              None)).
Proof. vm_compute. reflexivity. Qed.

(** X3.  Validation is idempotent: the request handed to the handler,
    written back as an object, passes validation again and gives the same
    request, whatever other keys the original body had. *)
Theorem validation_idempotent
    (Number_toString : JS.number -> string) (config : ReviewService.Config)
    (requestId : option string) (body : JS.value)
    (request : ReviewService.ReviewRequest) :
  ReviewService.validateReviewRequest Number_toString config requestId body
  = inr request ->
  ReviewService.validateReviewRequest Number_toString config requestId
    (Notions.ReviewRequest_value request)
  = inr request.
Proof.
  unfold ReviewService.validateReviewRequest.
  destruct (ReviewService.safeParse Number_toString config body)
    as [issues|data] eqn:Hparse; [discriminate|].
  intros H. inversion H. subst data. clear H.
  apply safeParse_accepts in Hparse.
  destruct Hparse as [fields [_ [_ [Hrl [_ [Hni [Hnp [_ [Hdl [Hdm _]]]]]]]]]].
  assert (ReviewService.safeParse Number_toString config
            (Notions.ReviewRequest_value request) = inr request) as ->;
    [|reflexivity].
  apply safeParse_accepts. unfold Notions.ReviewRequest_value.
  eexists. split; [reflexivity|].
  repeat (split; [first [reflexivity | assumption]|]).
  destruct (ReviewService.language request); reflexivity.
Qed.

Lemma validation_idempotent_witness :
  ReviewService.validateReviewRequest Node.Number_toString
    Examples.small_config None
    (JS.Object (("extra", JS.Bool true) :: Examples.body_with_diff "0123456789"))
  = inr {| ReviewService.repo := "acme/widgets";
           ReviewService.prNumber := 42%Q;
           ReviewService.diff := "0123456789";
           ReviewService.language := Some "typescript" |}
  /\ ReviewService.validateReviewRequest Node.Number_toString
       Examples.small_config None
       (Notions.ReviewRequest_value
          {| ReviewService.repo := "acme/widgets";
             ReviewService.prNumber := 42%Q;
             ReviewService.diff := "0123456789";
             ReviewService.language := Some "typescript" |})
     = inr {| ReviewService.repo := "acme/widgets";
              ReviewService.prNumber := 42%Q;
              ReviewService.diff := "0123456789";
              ReviewService.language := Some "typescript" |}.
Proof.
  split; [reflexivity|].
  apply (validation_idempotent Node.Number_toString Examples.small_config None
           (JS.Object
              (("extra", JS.Bool true) :: Examples.body_with_diff "0123456789"))).
  reflexivity.
Defined.

(** ** What the sanitizer guarantees *)

Lemma sanitizeSummary_cases (v : JS.value) :
  ReviewService.sanitizeSummary v <> ""
  /\ (ReviewService.sanitizeSummary v = "Code review completed"
      \/ exists s, v = JS.Str s /\ ReviewService.sanitizeSummary v = Str.trim s).
Proof.
  destruct v; simpl; try (split; [discriminate | left; reflexivity]).
  destruct (negb (String.eqb (Str.trim s) "")) eqn:Ht.
  - split.
    + apply negb_true_iff in Ht. apply String.eqb_neq. exact Ht.
    + right. eauto.
  - split; [discriminate | left; reflexivity].
Qed.

Lemma sanitizeComments_shaped (v c : JS.value) :
  In c (ReviewService.sanitizeComments v) -> Spec.FindingShape c.
Proof.
  rewrite sanitizeComments_entries. intros H. apply filter_In in H.
  apply isReviewComment_spec. apply H.
Qed.

(** X4.  The summary of a review is the trimmed [summary] of the reply
    when that is a string with something besides white space, and the
    fixed fallback in every other case, whatever else the reply holds; so
    it is never empty. *)
Theorem summary_is_never_empty (reply : JS.value) :
  (forall s,
      JS.get reply "summary" = JS.Str s -> Str.trim s <> "" ->
      ReviewService.summary (ReviewService.sanitize reply) = Str.trim s)
  /\ ((forall s, JS.get reply "summary" = JS.Str s -> Str.trim s = "") ->
      ReviewService.summary (ReviewService.sanitize reply)
      = "Code review completed")
  /\ ReviewService.summary (ReviewService.sanitize reply) <> "".
Proof.
  unfold ReviewService.sanitize. cbn [ReviewService.summary].
  split; [|split].
  - intros s -> Hne. cbn [ReviewService.sanitizeSummary JS.truthy].
    apply String.eqb_neq in Hne. rewrite Hne. reflexivity.
  - intros Hblank.
    destruct (JS.get reply "summary") as [| |b|n|s|items|fields];
      try reflexivity.
    cbn [ReviewService.sanitizeSummary JS.truthy].
    rewrite (Hblank s eq_refl). reflexivity.
  - apply sanitizeSummary_cases.
Qed.

Lemma summary_is_never_empty_witness :
  ReviewService.summary
    (ReviewService.sanitize
       (JS.Object [("summary", JS.Str "  Looks fine  "); ("comments", JS.Null)]))
  = "Looks fine"
  /\ ReviewService.summary
       (ReviewService.sanitize (JS.Object [("summary", JS.Str "   ")]))
     = "Code review completed"
  /\ ReviewService.summary
       (ReviewService.sanitize (JS.Object [("summary", JS.Number 7%Q)]))
     = "Code review completed".
Proof.
  split; [|split].
  - apply (proj1 (summary_is_never_empty
                    (JS.Object [("summary", JS.Str "  Looks fine  ");
                                ("comments", JS.Null)]))
             "  Looks fine  ");
      [reflexivity | discriminate].
  - apply (proj1 (proj2 (summary_is_never_empty
                           (JS.Object [("summary", JS.Str "   ")])))).
    intros s [= <-]. reflexivity.
  - apply (proj1 (proj2 (summary_is_never_empty
                           (JS.Object [("summary", JS.Number 7%Q)])))).
    intros s [=].
Defined.

Lemma ReviewComment_value_passes (c : ReviewService.ReviewComment) :
  ReviewService.isReviewComment (ReviewService.ReviewComment_value c) = true.
Proof.
  apply isReviewComment_spec.
  exists [ ("file", JS.Str (ReviewService.file c));
           ("line", JS.Number (ReviewService.line c));
           ("severity",
            JS.Str (ReviewService.Severity_string (ReviewService.severity c)));
           ("message", JS.Str (ReviewService.message c)) ].
  exists (ReviewService.file c), (ReviewService.line c),
    (ReviewService.Severity_string (ReviewService.severity c)),
    (ReviewService.message c).
  repeat (split; [reflexivity|]). split; [|reflexivity].
  destruct (ReviewService.severity c); simpl; auto.
Qed.

(** X5.  Findings of the declared type pass the sanitizer untouched: a
    [comments] array made of [ReviewComment] objects, whatever their file,
    line, severity and message, comes back entry for entry. *)
Theorem typed_findings_pass_unchanged (cs : list ReviewService.ReviewComment) :
  ReviewService.sanitizeComments
    (JS.Array (map ReviewService.ReviewComment_value cs))
  = map ReviewService.ReviewComment_value cs.
Proof.
  cbn [ReviewService.sanitizeComments].
  induction cs as [|c cs IH]; [reflexivity|].
  cbn [map filter]. rewrite ReviewComment_value_passes, IH. reflexivity.
Qed.

(** X6.  The sanitizer never lengthens, reorders or rewrites: what it
    keeps is the entries sent that have the shape of a finding, each as it
    was sent and in the order they were sent, nothing when [comments] is
    no array; and sanitizing its own output changes nothing. *)
Theorem sanitizer_keeps_a_sublist (v : JS.value) :
  Spec.Retains Spec.FindingShape (Spec.entries v)
    (ReviewService.sanitizeComments v)
  /\ length (ReviewService.sanitizeComments v) <= length (Spec.entries v)
  /\ (forall c,
        In c (ReviewService.sanitizeComments v) -> In c (Spec.entries v))
  /\ (forall c,
        In c (Spec.entries v) -> Spec.FindingShape c ->
        In c (ReviewService.sanitizeComments v))
  /\ ReviewService.sanitizeComments
       (JS.Array (ReviewService.sanitizeComments v))
     = ReviewService.sanitizeComments v.
Proof.
  rewrite !sanitizeComments_entries. cbn [Spec.entries].
  split; [apply filter_Retains|].
  split; [apply filter_length_le|]. split; [|split].
  - intros c H. apply filter_In in H. apply H.
  - intros c Hin Hs. apply filter_In. split; [exact Hin|].
    apply isReviewComment_spec. exact Hs.
  - induction (Spec.entries v) as [|x l IH]; [reflexivity|].
    simpl. destruct (ReviewService.isReviewComment x) eqn:Hx; simpl.
    + rewrite Hx, IH. reflexivity.
    + exact IH.
Qed.

(** ** The model client and the review route *)

Lemma readCompletion_success (JSON_parse : string -> option JS.value)
    (content : option string) (response : ReviewService.ReviewResponse) :
  ReviewService.readCompletion JSON_parse content = inr response
  <-> exists text parsed,
        content = Some text /\ text <> ""
        /\ JSON_parse text = Some parsed
        /\ (Spec.JsonObject parsed \/ exists items, parsed = JS.Array items)
        /\ response = ReviewService.sanitize parsed.
Proof.
  unfold ReviewService.readCompletion. split.
  - destruct content as [text|]; [|discriminate].
    unfold JS.truthy.
    destruct (String.eqb text "") eqn:Ht; [discriminate|].
    cbn [negb]. destruct (JSON_parse text) as [parsed|] eqn:Hp; [|discriminate].
    intros H. exists text, parsed.
    split; [reflexivity|]. split; [apply String.eqb_neq; exact Ht|].
    split; [exact Hp|].
    destruct parsed; simpl in H; try discriminate.
    + split; [right; eauto | congruence].
    + split; [left; eexists; reflexivity | congruence].
  - intros [text [parsed [-> [Hne [Hp [Hk ->]]]]]].
    unfold JS.truthy. apply String.eqb_neq in Hne. rewrite Hne. cbn [negb].
    rewrite Hp. destruct Hk as [[fields ->]|[items ->]]; reflexivity.
Qed.

Lemma readCompletion_failure (JSON_parse : string -> option JS.value)
    (content : option string) (e : JS.thrown) :
  ReviewService.readCompletion JSON_parse content = inl e ->
  exists m,
    e = JS.ErrorObject m
    /\ In m [ "No response content from OpenAI";
              "Invalid JSON response from OpenAI";
              "OpenAI response is not a valid object" ].
Proof.
  unfold ReviewService.readCompletion.
  destruct content as [text|];
    [|intros [= <-]; eexists; split; [reflexivity | simpl; auto]].
  destruct (negb (JS.truthy (JS.Str text)));
    [intros [= <-]; eexists; split; [reflexivity | simpl; auto]|].
  destruct (JSON_parse text) as [parsed|];
    [|intros [= <-]; eexists; split; [reflexivity | simpl; auto]].
  match goal with |- context [if ?b then _ else _] => destruct b end;
    [intros [= <-]; eexists; split; [reflexivity | simpl; auto] | discriminate].
Qed.

(** X7.  [generateCodeReview] calls the model once, with the fixed system
    prompt and the prompt built from the diff and the language.  It
    returns a review exactly when the call succeeded with a non-empty
    content that parses as JSON into an object or an array, and the review
    is then the sanitized reply.  Whatever fails, what it throws is an
    [Error]: one of its three own messages, the one for a thrown value
    that is no [Error], the backend's [Error] as it is, or an API error
    under the prefix [OpenAI API error: ]. *)
Theorem review_generation_outcome (JSON_parse : string -> option JS.value)
    (backend : ReviewService.BackendCall -> JS.thrown + option string)
    (diff : string) (language : option string) :
  fst (ReviewService.generateCodeReview JSON_parse backend diff language)
  = [Notions.modelCall diff language]
  /\ (forall response,
        snd (ReviewService.generateCodeReview JSON_parse backend diff language)
        = inr response
        <-> exists text parsed,
              backend (Notions.modelCall diff language) = inr (Some text)
              /\ text <> ""
              /\ JSON_parse text = Some parsed
              /\ (Spec.JsonObject parsed \/ exists items, parsed = JS.Array items)
              /\ response = ReviewService.sanitize parsed)
  /\ (forall e,
        snd (ReviewService.generateCodeReview JSON_parse backend diff language)
        = inl e ->
        exists m,
          e = JS.ErrorObject m
          /\ (In m [ "No response content from OpenAI";
                     "Invalid JSON response from OpenAI";
                     "OpenAI response is not a valid object" ]
              \/ (backend (Notions.modelCall diff language) = inl JS.NotAnError
                  /\ m = "Unexpected error generating code review")
              \/ backend (Notions.modelCall diff language)
                 = inl (JS.ErrorObject m)
              \/ exists cause,
                   backend (Notions.modelCall diff language)
                   = inl (JS.APIError cause)
                   /\ m = "OpenAI API error: " ++ cause)).
Proof.
  unfold ReviewService.generateCodeReview, Notions.modelCall. cbn [fst snd].
  split; [reflexivity|].
  destruct (backend _) as [thrown|content] eqn:Hb.
  - split.
    + intros response. split; [discriminate|].
      intros [text [parsed [H _]]]. discriminate.
    + intros e [= <-]. destruct thrown as [m|m|]; simpl.
      * exists m. auto.
      * eexists. split; [reflexivity|]. right. right. right. eauto.
      * eexists. split; [reflexivity|]. right. left. auto.
  - split.
    + intros response.
      destruct (ReviewService.readCompletion JSON_parse content) as [e|r] eqn:Hr.
      * split; [discriminate|].
        intros [text [parsed [[= ->] H]]].
        assert (Hs : ReviewService.readCompletion JSON_parse (Some text)
                     = inr response).
        { apply readCompletion_success. exists text, parsed. tauto. }
        congruence.
      * split.
        -- intros [= <-]. apply readCompletion_success in Hr.
           destruct Hr as [text [parsed [-> H]]]. exists text, parsed. tauto.
        -- intros [text [parsed [[= ->] H]]].
           assert (Hs : ReviewService.readCompletion JSON_parse (Some text)
                        = inr response).
           { apply readCompletion_success. exists text, parsed. tauto. }
           congruence.
    + intros e.
      destruct (ReviewService.readCompletion JSON_parse content) as [e'|r] eqn:Hr;
        [|discriminate].
      intros [= <-]. apply readCompletion_failure in Hr.
      destruct Hr as [m [-> Hm]]. exists m. split; [reflexivity|]. left. exact Hm.
Qed.

Lemma generateCodeReview_returns (JSON_parse : string -> option JS.value)
    (backend : ReviewService.BackendCall -> JS.thrown + option string)
    (diff : string) (language : option string)
    (response : ReviewService.ReviewResponse) :
  snd (ReviewService.generateCodeReview JSON_parse backend diff language)
  = inr response ->
  exists parsed, response = ReviewService.sanitize parsed.
Proof.
  unfold ReviewService.generateCodeReview. cbn [snd].
  destruct (backend _) as [thrown|content]; [discriminate|].
  destruct (ReviewService.readCompletion JSON_parse content) as [e|r] eqn:Hr;
    [discriminate|].
  intros [= <-]. apply readCompletion_success in Hr.
  destruct Hr as [text [parsed [_ [_ [_ [_ ->]]]]]]. eauto.
Qed.

Lemma reviewHandler_outcome (JSON_parse : string -> option JS.value)
    (backend : ReviewService.BackendCall -> JS.thrown + option string)
    (requestId : option string) (request : ReviewService.ReviewRequest) :
  (exists parsed,
     snd (ReviewService.reviewHandler JSON_parse backend requestId request)
     = Api.respond 200
         (Api.createSuccessResponse (ReviewService.sanitize parsed) requestId))
  \/ snd (ReviewService.reviewHandler JSON_parse backend requestId request)
     = Api.respond 500
         (Api.createErrorResponse Api.EXTERNAL_SERVICE_ERROR
            "Failed to generate code review" None requestId).
Proof.
  unfold ReviewService.reviewHandler.
  pose proof (generateCodeReview_returns JSON_parse backend
                (ReviewService.diff request) (ReviewService.language request))
    as H.
  destruct (ReviewService.generateCodeReview JSON_parse backend
              (ReviewService.diff request) (ReviewService.language request))
    as [calls outcome].
  cbn [fst snd] in *.
  destruct outcome as [e|r]; [right; reflexivity|].
  left. destruct (H r eq_refl) as [parsed ->]. eauto.
Qed.

(** X8.  What [POST /review] answers, whatever the body and whatever the
    model does.  A body the schema rejects is answered 400 with
    [VALIDATION_ERROR] and the model is not called.  A body it accepts
    costs one model call and is answered either 200, with a review whose
    summary is not empty and whose comments all have the shape of a
    finding, or 500 with [EXTERNAL_SERVICE_ERROR] and the fixed message
    [Failed to generate code review], which tells nothing of the cause.
    Every answer carries the request id it was given. *)
Theorem review_route_answers (JSON_parse : string -> option JS.value)
    (backend : ReviewService.BackendCall -> JS.thrown + option string)
    (Number_toString : JS.number -> string) (config : ReviewService.Config)
    (requestId : option string) (body : JS.value) :
  Notions.requestId_of
    (Api.body (snd (ReviewService.postReview JSON_parse backend Number_toString
                      config requestId body)))
  = requestId
  /\ ((fst (ReviewService.postReview JSON_parse backend Number_toString
              config requestId body) = []
       /\ (forall request,
             ReviewService.validateReviewRequest Number_toString config
               requestId body <> inr request)
       /\ Api.status (snd (ReviewService.postReview JSON_parse backend
                             Number_toString config requestId body)) = 400%Z
       /\ Notions.code_of
            (Api.body (snd (ReviewService.postReview JSON_parse backend
                              Number_toString config requestId body)))
          = Some Api.VALIDATION_ERROR)
      \/ exists request,
           ReviewService.validateReviewRequest Number_toString config
             requestId body = inr request
           /\ fst (ReviewService.postReview JSON_parse backend Number_toString
                     config requestId body)
              = [Notions.modelCall (ReviewService.diff request)
                   (ReviewService.language request)]
           /\ ((exists review,
                  snd (ReviewService.postReview JSON_parse backend
                         Number_toString config requestId body)
                  = Api.respond 200 (Api.createSuccessResponse review requestId)
                  /\ ReviewService.summary review <> ""
                  /\ Forall Spec.FindingShape (ReviewService.comments review))
               \/ snd (ReviewService.postReview JSON_parse backend
                         Number_toString config requestId body)
                  = Api.respond 500
                      (Api.createErrorResponse Api.EXTERNAL_SERVICE_ERROR
                         "Failed to generate code review" None requestId))).
Proof.
  unfold ReviewService.postReview.
  destruct (ReviewService.validateReviewRequest Number_toString config
              requestId body) as [response|request] eqn:Hv.
  - unfold ReviewService.validateReviewRequest in Hv.
    destruct (ReviewService.safeParse Number_toString config body);
      [|discriminate].
    injection Hv as <-. cbn [fst snd]. split; [reflexivity|].
    left. repeat split. intros request. discriminate.
  - pose proof (reviewHandler_outcome JSON_parse backend requestId request)
      as Ho.
    pose proof (reviewHandler_calls JSON_parse backend requestId request)
      as Hc.
    split.
    + destruct Ho as [[parsed ->]| ->]; reflexivity.
    + right. exists request. split; [reflexivity|]. split; [exact Hc|].
      destruct Ho as [[parsed Hp]|Hf]; [left|right; exact Hf].
      exists (ReviewService.sanitize parsed). split; [exact Hp|].
      split.
      * unfold ReviewService.sanitize. cbn [ReviewService.summary].
        apply sanitizeSummary_cases.
      * apply Forall_forall. intros c Hin.
        apply (sanitizeComments_shaped (JS.get parsed "comments")).
        exact Hin.
Qed.

(** ** The endpoint behind the signature check *)

Lemma verify_skipped (hmac_sha256_hex : string -> string -> string)
    (config : WebhookService.Config) (T : Type) (requestId : option string)
    (rawBody : option string) (signature : WebhookService.Header) :
  WebhookService.githubWebhookSecret config = None
  \/ WebhookService.githubWebhookSecret config = Some "" ->
  WebhookService.verifyGitHubSignature (T := T) hmac_sha256_hex config
    requestId rawBody signature
  = ([WebhookService.Logged "warn"
        "GITHUB_WEBHOOK_SECRET is not configured, skipping signature verification"],
     WebhookService.Next).
Proof.
  unfold WebhookService.verifyGitHubSignature.
  intros [-> | ->]; reflexivity.
Qed.




(** ** Start-up configuration *)

Lemma missing_spec (v : option string) :
  WebhookService.missing v = true <-> v = None \/ v = Some "".
Proof.
  destruct v as [s|]; simpl.
  - destruct (String.eqb s "") eqn:Hs; simpl.
    + apply String.eqb_eq in Hs. subst. split; auto.
    + apply String.eqb_neq in Hs. split; [discriminate|].
      intros [H|H]; congruence.
  - split; auto.
Qed.

(** X10.  What the two services need to start.  The review service
    refuses to start exactly when [OPENAI_API_KEY] is unset or empty, with
    a message that names the variable; the webhook service exactly when
    [GITHUB_TOKEN] is unset or empty.  When they start, the credential in
    the configuration is the one of the environment, and the largest diff
    accepted and the address of the review service are the values of
    [MAX_DIFF_SIZE] and [REVIEW_SERVICE_URL], or their defaults when those
    are unset or empty. *)
Theorem startup_requires_credentials (parseInt : string -> JS.number)
    (env : string -> option string) :
  (forall e,
      Startup.reviewConfig parseInt env = inl e
      <-> (env "OPENAI_API_KEY" = None \/ env "OPENAI_API_KEY" = Some "")
          /\ e = JS.ErrorObject
                   "Missing required environment variables: OPENAI_API_KEY")
  /\ (forall config,
        Startup.reviewConfig parseInt env = inr config ->
        env "OPENAI_API_KEY" = Some (ReviewService.openaiApiKey config)
        /\ ReviewService.openaiApiKey config <> ""
        /\ ReviewService.maxDiffSize config
           = parseInt
               (match env "MAX_DIFF_SIZE" with
                | Some "" | None => "1000000"
                | Some text => text
                end))
  /\ (forall e,
        Startup.webhookConfig parseInt env = inl e
        <-> (env "GITHUB_TOKEN" = None \/ env "GITHUB_TOKEN" = Some "")
            /\ e = JS.ErrorObject "GITHUB_TOKEN environment variable is required")
  /\ (forall config,
        Startup.webhookConfig parseInt env = inr config ->
        env "GITHUB_TOKEN" = Some (WebhookService.githubToken config)
        /\ WebhookService.githubToken config <> ""
        /\ WebhookService.githubWebhookSecret config
           = env "GITHUB_WEBHOOK_SECRET"
        /\ WebhookService.reviewServiceUrl config
           = match env "REVIEW_SERVICE_URL" with
             | Some "" | None => "http://localhost:4002"
             | Some text => text
             end).
Proof.
  assert (Hd : forall name fallback,
             Startup.or_default env name fallback
             = match env name with
               | Some "" | None => fallback
               | Some text => text
               end).
  { intros name fallback. unfold Startup.or_default.
    destruct (env name) as [[|c t]|]; reflexivity. }
  unfold Startup.reviewConfig, Startup.webhookConfig, Startup.missingVars,
    Startup.requiredEnvVars.
  cbn [filter snd].
  pose proof (missing_spec (env "OPENAI_API_KEY")) as Hk.
  pose proof (missing_spec (env "GITHUB_TOKEN")) as Ht.
  split; [|split; [|split]].
  - intros e. destruct (WebhookService.missing (env "OPENAI_API_KEY")).
    + cbn. split.
      * intros [= <-]. split; [apply Hk; reflexivity | reflexivity].
      * intros [_ ->]. reflexivity.
    + cbn. split; [discriminate|]. intros [H _]. apply Hk in H. discriminate.
  - intros config. destruct (WebhookService.missing (env "OPENAI_API_KEY")) eqn:Hm.
    + cbn. discriminate.
    + cbn. intros [= <-]. cbn. rewrite Hd.
      destruct (env "OPENAI_API_KEY") as [key|] eqn:He.
      * split; [reflexivity|]. split; [|reflexivity].
        intros ->. discriminate Hm.
      * discriminate Hm.
  - intros e. destruct (env "GITHUB_TOKEN") as [token|] eqn:He.
    + simpl. destruct (String.eqb token "") eqn:Hs; simpl.
      * apply String.eqb_eq in Hs. subst. split.
        -- intros [= <-]. auto.
        -- intros [_ ->]. reflexivity.
      * apply String.eqb_neq in Hs. split; [discriminate|].
        intros [[H|H] _]; congruence.
    + split.
      * intros [= <-]. auto.
      * intros [_ ->]. reflexivity.
  - intros config. destruct (env "GITHUB_TOKEN") as [token|] eqn:He;
      [|discriminate].
    simpl. destruct (String.eqb token "") eqn:Hs; simpl; [discriminate|].
    intros [= <-]. cbn. rewrite Hd.
    apply String.eqb_neq in Hs. auto.
Qed.

(** X11.  A webhook service started without [GITHUB_WEBHOOK_SECRET], or
    with an empty one, checks no signature: every delivery, signed or not,
    with or without a body, is passed on to the handler, and a warning is
    all that is logged. *)
Theorem missing_secret_disables_verification
    (parseInt : string -> JS.number) (env : string -> option string)
    (hmac_sha256_hex : string -> string -> string)
    (config : WebhookService.Config) :
  Startup.webhookConfig parseInt env = inr config ->
  env "GITHUB_WEBHOOK_SECRET" = None \/ env "GITHUB_WEBHOOK_SECRET" = Some "" ->
  forall (requestId : option string) (rawBody : option string)
         (signature : WebhookService.Header),
    WebhookService.verifyGitHubSignature (T := WebhookService.WebhookData)
      hmac_sha256_hex config requestId rawBody signature
    = ([WebhookService.Logged "warn"
          "GITHUB_WEBHOOK_SECRET is not configured, skipping signature verification"],
       WebhookService.Next).
Proof.
  intros Hc He requestId rawBody signature.
  apply verify_skipped.
  unfold Startup.webhookConfig in Hc.
  destruct (env "GITHUB_TOKEN") as [token|]; [|discriminate].
  destruct (negb (JS.truthy (JS.Str token))); [discriminate|].
  injection Hc as <-. cbn. exact He.
Qed.

Lemma missing_secret_disables_verification_witness :
  exists config,
    Startup.webhookConfig Examples.decimal_value
      (Notions.environment [("GITHUB_TOKEN", "ghp_example")])
    = inr config
    /\ WebhookService.verifyGitHubSignature (T := WebhookService.WebhookData)
         Node.hmac_sha256_hex config None None WebhookService.Absent
       = ([WebhookService.Logged "warn"
             "GITHUB_WEBHOOK_SECRET is not configured, skipping signature verification"],
          WebhookService.Next).
Proof.
  eexists. split; [reflexivity|].
  apply (missing_secret_disables_verification Examples.decimal_value
           (Notions.environment [("GITHUB_TOKEN", "ghp_example")])).
  - reflexivity.
  - left. reflexivity.
Defined.

(** ** Every run of the handler *)

(** X12.  [fetchPullRequestDiff] returns a diff exactly when GitHub knows
    the pull request, gives it a non-empty [diff_url], and answers the
    request for that address with a text: the diff returned is that text,
    character for character, and the two calls made are the lookup and the
    download, with the diff media type and a ten-second timeout.  Every
    failure is thrown as an [Error] whose message names the pull request
    and the repository (for a pull number that has no conversion to a
    string, the [TypeError] of that conversion); when the lookup fails or
    gives no address, the lookup is the only call. *)
Theorem diff_fetch_outcome (Number_toString : JS.number -> string)
    (world : WebhookService.World) (owner repo : string)
    (pullNumber : JS.value) :
  (forall diff,
      snd (WebhookService.fetchPullRequestDiff Number_toString world owner repo
             pullNumber) = inr diff
      <-> exists diffUrl,
            WebhookService.pulls_get world owner repo pullNumber
            = inr (Some diffUrl)
            /\ diffUrl <> ""
            /\ WebhookService.http_get world diffUrl = inr (JS.Str diff))
  /\ (forall diff,
        snd (WebhookService.fetchPullRequestDiff Number_toString world owner
               repo pullNumber) = inr diff ->
        exists diffUrl,
          fst (WebhookService.fetchPullRequestDiff Number_toString world owner
                 repo pullNumber)
          = [ WebhookService.PullsGet owner repo pullNumber;
              WebhookService.HttpGet diffUrl "application/vnd.github.v3.diff"
                10000 ])
  /\ (forall e,
        snd (WebhookService.fetchPullRequestDiff Number_toString world owner
               repo pullNumber) = inl e ->
        (forall number,
            JS.toString Number_toString pullNumber = inr number ->
            (exists cause,
               e = JS.ErrorObject
                     ("Failed to fetch diff for PR #" ++ number
                      ++ " in " ++ owner ++ "/" ++ repo ++ ": " ++ cause))
            \/ e = JS.ErrorObject
                     ("Unexpected error fetching PR diff for PR #" ++ number
                      ++ " in " ++ owner ++ "/" ++ repo))
        /\ (forall unconverted,
              JS.toString Number_toString pullNumber = inl unconverted ->
              e = JS.ErrorObject "Cannot convert object to primitive value"))
  /\ ((forall diffUrl,
         WebhookService.pulls_get world owner repo pullNumber
         = inr (Some diffUrl) -> diffUrl = "") ->
      fst (WebhookService.fetchPullRequestDiff Number_toString world owner repo
             pullNumber)
      = [WebhookService.PullsGet owner repo pullNumber]).
Proof.
  assert (Hw : forall e0,
             (forall number,
                 JS.toString Number_toString pullNumber = inr number ->
                 (exists cause,
                    Notions.fetchError Number_toString owner repo pullNumber e0
                    = JS.ErrorObject
                        ("Failed to fetch diff for PR #" ++ number
                         ++ " in " ++ owner ++ "/" ++ repo ++ ": " ++ cause))
                 \/ Notions.fetchError Number_toString owner repo pullNumber e0
                    = JS.ErrorObject
                        ("Unexpected error fetching PR diff for PR #" ++ number
                         ++ " in " ++ owner ++ "/" ++ repo))
             /\ (forall unconverted,
                   JS.toString Number_toString pullNumber = inl unconverted ->
                   Notions.fetchError Number_toString owner repo pullNumber e0
                   = JS.ErrorObject "Cannot convert object to primitive value")).
  { intros e0. unfold Notions.fetchError, WebhookService.pr_in, JS.and_then.
    split.
    - intros number ->.
      destruct (JS.instanceofError e0); [left|right].
      + exists (JS.errorMessage e0).
        rewrite !string_app_assoc. reflexivity.
      + rewrite ?string_app_assoc. reflexivity.
    - intros unconverted Hu. rewrite Hu.
      apply (toString_throws _ _ _ Hu). }
  rewrite fetch_table.
  destruct (WebhookService.pulls_get world owner repo pullNumber)
    as [e0|[diffUrl|]] eqn:Hg.
  - split; [|split; [|split]].
    + intros diff. split; [discriminate|]. intros [u [H _]]. discriminate.
    + discriminate.
    + intros e [= <-]. apply Hw.
    + reflexivity.
  - destruct (String.eqb diffUrl "") eqn:Hu.
    + apply String.eqb_eq in Hu. subst diffUrl.
      split; [|split; [|split]].
      * intros diff. split; [discriminate|].
        intros [u [[= <-] [Hne _]]]. congruence.
      * discriminate.
      * intros e [= <-]. apply Hw.
      * reflexivity.
    + apply String.eqb_neq in Hu.
      destruct (WebhookService.http_get world diffUrl) as [e1|data] eqn:Hd.
      * split; [|split; [|split]].
        -- intros diff. split; [discriminate|].
           intros [u [[= <-] [_ H]]]. congruence.
        -- discriminate.
        -- intros e [= <-]. apply Hw.
        -- intros H. elim Hu. apply H. reflexivity.
      * split; [|split; [|split]].
        -- intros diff. split.
           ++ intros H. exists diffUrl. split; [reflexivity|].
              split; [exact Hu|]. destruct data; try discriminate.
              injection H as <-. exact Hd.
           ++ intros [u [[= <-] [_ H]]]. rewrite Hd in H.
              injection H as ->. reflexivity.
        -- intros diff _. exists diffUrl. destruct data; reflexivity.
        -- intros e H. destruct data; try discriminate;
             injection H as <-; apply Hw.
        -- intros H. elim Hu. apply H. reflexivity.
  - split; [|split; [|split]].
    + intros diff. split; [discriminate|]. intros [u [H _]]. discriminate.
    + discriminate.
    + intros e [= <-]. apply Hw.
    + reflexivity.
Qed.


(** *** A case analysis of the runs

    To show that a property [P] of the calls made and of the way the
    handler ends holds of every run, it is enough to show it of the runs
    that end in each of the twelve places where the handler answers or
    throws. *)

Section OutcomeFacts.

Variable Number_toString : JS.number -> string.
Variable config : WebhookService.Config.
Variable world : WebhookService.World.
Variable requestId : option string.
Variable eventType : WebhookService.Header.
Variable body : JS.value.
Variable P :
  list WebhookService.Call ->
  JS.thrown + Api.HttpResponse WebhookService.WebhookData -> Prop.

Local Abbreviation Lookup owner repo n := (WebhookService.PullsGet owner repo n).
Local Abbreviation Download u :=
  (WebhookService.HttpGet u "application/vnd.github.v3.diff" 10000).
Local Abbreviation Forward fullName n diff :=
  (WebhookService.HttpPost (WebhookService.reviewServiceUrl config ++ "/review")
     (WebhookService.reviewRequestBody fullName n diff) 120000).
Local Abbreviation Publish owner repo n text :=
  (WebhookService.CreateReview owner repo n "COMMENT" text).
Local Abbreviation answer fullName n diff :=
  (WebhookService.http_post world
     (WebhookService.reviewServiceUrl config ++ "/review")
     (WebhookService.reviewRequestBody fullName n diff)).
Local Abbreviation summary_of data :=
  (JS.get (WebhookService.reviewData data) "summary").
Local Abbreviation comments_of data :=
  (JS.get (WebhookService.reviewData data) "comments").

Hypothesis Hbodiless :
  JS.nullish body = true ->
  P [] (inl (Notions.unreadable body "action")).

Hypothesis Hignored :
  JS.nullish body = false ->
  WebhookService.actionable eventType body = false ->
  P [] (inr (Api.respond 200
               (Api.createSuccessResponse WebhookService.Ignored requestId))).

Hypothesis Hrefused :
  WebhookService.actionable eventType body = true ->
  Spec.identity body = None ->
  Spec.unsplittable body = false ->
  forall message details,
    P [] (inr (Api.respond 400
                 (Api.createErrorResponse Api.VALIDATION_ERROR message details
                    requestId))).

Hypothesis Hunsplittable :
  WebhookService.actionable eventType body = true ->
  Spec.unsplittable body = true ->
  P [] (inr (WebhookService.failure requestId
               (JS.ErrorObject "fullName.split is not a function"))).

Hypothesis Hfetch_failed :
  forall fullName n owner repo t e,
    Spec.identity body = Some (fullName, n, owner, repo) ->
    WebhookService.fetchPullRequestDiff Number_toString world owner repo n
    = (t, inl e) ->
    t = [Lookup owner repo n] \/ (exists u, t = [Lookup owner repo n; Download u]) ->
    P t (inr (WebhookService.failure requestId e)).

Hypothesis Hempty :
  forall fullName n owner repo u diff,
    Spec.identity body = Some (fullName, n, owner, repo) ->
    WebhookService.pulls_get world owner repo n = inr (Some u) ->
    WebhookService.http_get world u = inr (JS.Str diff) ->
    WebhookService.emptyDiff diff = true ->
    P [Lookup owner repo n; Download u]
      (inr (Api.respond 200
              (Api.createSuccessResponse
                 (WebhookService.Processed false false
                    (Some "PR has no changes to review"))
                 requestId))).

Hypothesis Hforward_failed :
  forall fullName n owner repo u diff e,
    Spec.identity body = Some (fullName, n, owner, repo) ->
    WebhookService.pulls_get world owner repo n = inr (Some u) ->
    WebhookService.http_get world u = inr (JS.Str diff) ->
    WebhookService.emptyDiff diff = false ->
    answer fullName n diff = inl e ->
    P [Lookup owner repo n; Download u; Forward fullName n diff]
      (inr (WebhookService.failure requestId e)).

Hypothesis Hnullish :
  forall fullName n owner repo u diff data,
    Spec.identity body = Some (fullName, n, owner, repo) ->
    WebhookService.pulls_get world owner repo n = inr (Some u) ->
    WebhookService.http_get world u = inr (JS.Str diff) ->
    WebhookService.emptyDiff diff = false ->
    answer fullName n diff = inr data ->
    JS.nullish data = true ->
    P [Lookup owner repo n; Download u; Forward fullName n diff]
      (inr (WebhookService.failure requestId (Notions.unreadable data "data"))).

Hypothesis Hinvalid :
  forall fullName n owner repo u diff data,
    Spec.identity body = Some (fullName, n, owner, repo) ->
    WebhookService.pulls_get world owner repo n = inr (Some u) ->
    WebhookService.http_get world u = inr (JS.Str diff) ->
    WebhookService.emptyDiff diff = false ->
    answer fullName n diff = inr data ->
    JS.nullish data = false ->
    JS.truthy (summary_of data) = false
    \/ JS.isArray (comments_of data) = false ->
    P [Lookup owner repo n; Download u; Forward fullName n diff]
      (inr (Api.respond 500
              (Api.createErrorResponse Api.EXTERNAL_SERVICE_ERROR
                 "Invalid response format from review service" None
                 requestId))).

Hypothesis Hrender_failed :
  forall fullName n owner repo u diff data comments e,
    Spec.identity body = Some (fullName, n, owner, repo) ->
    WebhookService.pulls_get world owner repo n = inr (Some u) ->
    WebhookService.http_get world u = inr (JS.Str diff) ->
    WebhookService.emptyDiff diff = false ->
    answer fullName n diff = inr data ->
    JS.nullish data = false ->
    JS.truthy (summary_of data) = true ->
    comments_of data = JS.Array comments ->
    WebhookService.findings Number_toString comments = inl e
    \/ (exists text,
          WebhookService.findings Number_toString comments = inr text
          /\ WebhookService.reviewBody Number_toString (summary_of data) text
             = inl e) ->
    P [Lookup owner repo n; Download u; Forward fullName n diff]
      (inr (Api.respond 500
              (Api.createErrorResponse Api.EXTERNAL_SERVICE_ERROR
                 ("Failed to post review to GitHub: "
                  ++ (if JS.instanceofError e then JS.errorMessage e
                      else "Unknown error"))
                 None requestId))).

Hypothesis Hpublish_failed :
  forall fullName n owner repo u diff data comments text rendered e,
    Spec.identity body = Some (fullName, n, owner, repo) ->
    WebhookService.pulls_get world owner repo n = inr (Some u) ->
    WebhookService.http_get world u = inr (JS.Str diff) ->
    WebhookService.emptyDiff diff = false ->
    answer fullName n diff = inr data ->
    JS.nullish data = false ->
    JS.truthy (summary_of data) = true ->
    comments_of data = JS.Array comments ->
    WebhookService.findings Number_toString comments = inr text ->
    WebhookService.reviewBody Number_toString (summary_of data) text
    = inr rendered ->
    WebhookService.create_review world owner repo n "COMMENT" rendered
    = inl e ->
    P [ Lookup owner repo n; Download u; Forward fullName n diff;
        Publish owner repo n rendered ]
      (inr (Api.respond 500
              (Api.createErrorResponse Api.EXTERNAL_SERVICE_ERROR
                 ("Failed to post review to GitHub: "
                  ++ JS.errorMessage
                       (Notions.publishError Number_toString owner repo n e))
                 None requestId))).

Hypothesis Hpublished :
  forall fullName n owner repo u diff data comments text rendered,
    Spec.identity body = Some (fullName, n, owner, repo) ->
    WebhookService.pulls_get world owner repo n = inr (Some u) ->
    WebhookService.http_get world u = inr (JS.Str diff) ->
    WebhookService.emptyDiff diff = false ->
    answer fullName n diff = inr data ->
    JS.nullish data = false ->
    JS.truthy (summary_of data) = true ->
    comments_of data = JS.Array comments ->
    WebhookService.findings Number_toString comments = inr text ->
    WebhookService.reviewBody Number_toString (summary_of data) text
    = inr rendered ->
    WebhookService.create_review world owner repo n "COMMENT" rendered
    = inr tt ->
    P [ Lookup owner repo n; Download u; Forward fullName n diff;
        Publish owner repo n rendered ]
      (inr (Api.respond 200
              (Api.createSuccessResponse
                 (WebhookService.Processed true true None) requestId))).

Lemma webhook_outcome :
  P (fst (WebhookService.webhook Number_toString config world requestId
            eventType body))
    (snd (WebhookService.webhook Number_toString config world requestId
            eventType body)).
Proof.
  destruct (JS.nullish body) eqn:Hb.
  { destruct body; try discriminate Hb; apply Hbodiless; reflexivity. }
  destruct (WebhookService.actionable eventType body) eqn:Ha.
  2:{ rewrite (webhook_guarded Number_toString config world requestId
                 eventType body Hb).
      rewrite (guarded_ignored Number_toString config world requestId
                 eventType body Ha).
      apply Hignored; reflexivity. }
  destruct (Spec.identity body) as [[[[fullName n] owner] repo]|] eqn:Hid.
  2:{ rewrite (webhook_guarded Number_toString config world requestId
                 eventType body Hb).
      unfold WebhookService.guarded.
      destruct (Spec.unsplittable body) eqn:Hs.
      - rewrite (dispatch_unsplittable Number_toString config world requestId
                   eventType body Ha Hs).
        apply Hunsplittable; reflexivity.
      - destruct (dispatch_without_identity Number_toString config world
                    requestId eventType body Ha Hid Hs)
          as [message [details Hd]].
        rewrite Hd. apply Hrefused; reflexivity. }
  rewrite (webhook_reviews Number_toString config world requestId eventType
             body _ _ _ _ Ha Hid).
  cbn [fst snd].
  pose proof (fetch_table Number_toString world owner repo n) as Hf.
  destruct (WebhookService.pulls_get world owner repo n) as [e0|[u|]] eqn:Hg.
  - rewrite (review_fetch_failed Number_toString config world requestId
               fullName n owner repo _ (f_equal snd Hf)).
    rewrite Hf. cbn [fst snd].
    apply (Hfetch_failed fullName n owner repo _ _ eq_refl Hf). auto.
  - destruct (String.eqb u "") eqn:Hu.
    { rewrite (review_fetch_failed Number_toString config world requestId
                 fullName n owner repo _ (f_equal snd Hf)).
      rewrite Hf. cbn [fst snd].
      apply (Hfetch_failed fullName n owner repo _ _ eq_refl Hf). auto. }
    destruct (WebhookService.http_get world u) as [e1|got] eqn:Hd.
    { rewrite (review_fetch_failed Number_toString config world requestId
                 fullName n owner repo _ (f_equal snd Hf)).
      rewrite Hf. cbn [fst snd].
      apply (Hfetch_failed fullName n owner repo _ _ eq_refl Hf). eauto. }
    destruct got as [| |b|x|diff|items|fields];
      try (rewrite (review_fetch_failed Number_toString config world requestId
                      fullName n owner repo _ (f_equal snd Hf));
           rewrite Hf; cbn [fst snd];
           apply (Hfetch_failed fullName n owner repo _ _ eq_refl Hf); eauto).
    destruct (WebhookService.emptyDiff diff) eqn:He.
    { rewrite (review_empty Number_toString config world requestId fullName n
                 owner repo _ diff Hf He).
      apply (Hempty fullName n owner repo u diff); auto. }
    destruct (WebhookService.http_post world
                (WebhookService.reviewServiceUrl config ++ "/review")
                (WebhookService.reviewRequestBody fullName n diff))
      as [e|data] eqn:Hp.
    { rewrite (review_forward_failed Number_toString config world requestId
                 fullName n owner repo _ diff e Hf He Hp).
      apply (Hforward_failed fullName n owner repo u diff e); auto. }
    destruct (JS.nullish data) eqn:Hn.
    { rewrite (review_nullish Number_toString config world requestId
                 fullName n owner repo _ diff data Hf He Hp Hn).
      apply (Hnullish fullName n owner repo u diff data); auto. }
    destruct (JS.truthy (JS.get (WebhookService.reviewData data) "summary"))
      eqn:Ht.
    2:{ rewrite (review_invalid Number_toString config world requestId
                   fullName n owner repo _ diff data Hf He Hp Hn (or_introl Ht)).
        apply (Hinvalid fullName n owner repo u diff data); auto. }
    destruct (JS.isArray (JS.get (WebhookService.reviewData data) "comments"))
      eqn:Hc.
    2:{ rewrite (review_invalid Number_toString config world requestId
                   fullName n owner repo _ diff data Hf He Hp Hn (or_intror Hc)).
        apply (Hinvalid fullName n owner repo u diff data); auto. }
    destruct (JS.get (WebhookService.reviewData data) "comments")
      as [| | | | |comments|] eqn:Hcs; try discriminate Hc.
    rewrite (review_published Number_toString config world requestId fullName
               n owner repo _ diff data _ comments Hf He Hp Hn eq_refl Hcs Ht).
    rewrite publish_table.
    destruct (WebhookService.findings Number_toString comments)
      as [e|text] eqn:Hfind.
    { apply (Hrender_failed fullName n owner repo u diff data comments e);
        auto. }
    destruct (WebhookService.reviewBody Number_toString
                (JS.get (WebhookService.reviewData data) "summary") text)
      as [e|rendered] eqn:Hbody.
    { apply (Hrender_failed fullName n owner repo u diff data comments e);
        eauto. }
    cbn [fst snd app].
    destruct (WebhookService.create_review world owner repo n "COMMENT"
                rendered) as [e|[]] eqn:Hcr.
    + assert (Hq : P [ Lookup owner repo n; Download u;
                       Forward fullName n diff; Publish owner repo n rendered ]
                     (inr (Api.respond 500
                             (Api.createErrorResponse
                                Api.EXTERNAL_SERVICE_ERROR
                                ("Failed to post review to GitHub: "
                                 ++ JS.errorMessage
                                      (Notions.publishError Number_toString
                                         owner repo n e))
                                None requestId))))
        by (apply (Hpublish_failed fullName n owner repo u diff data comments
                     text rendered e); auto).
      unfold Notions.publishError in Hq.
      destruct (WebhookService.pr_in Number_toString n owner repo)
        as [unconverted|place] eqn:Hplace; [|exact Hq].
      rewrite (pr_in_throws _ _ _ _ _ Hplace) in Hq |- *. exact Hq.
    + apply (Hpublished fullName n owner repo u diff data comments text
               rendered); auto.
  - rewrite (review_fetch_failed Number_toString config world requestId
               fullName n owner repo _ (f_equal snd Hf)).
    rewrite Hf. cbn [fst snd].
    apply (Hfetch_failed fullName n owner repo _ _ eq_refl Hf). auto.
Qed.

End OutcomeFacts.

Lemma failure_shape (requestId : option string) (e : JS.thrown) :
  exists code message,
    WebhookService.failure requestId e
    = Api.respond 500 (Api.createErrorResponse code message None requestId)
    /\ (code = Api.INTERNAL_ERROR \/ code = Api.TIMEOUT_ERROR).
Proof.
  unfold WebhookService.failure.
  destruct (JS.instanceofError e).
  - destruct (WebhookService.isTimeout (JS.errorMessage e));
      eexists; eexists; split; try reflexivity; auto.
  - eexists; eexists; split; try reflexivity; auto.
Qed.

(** X13.  How the handler of [POST /webhook] ends, whatever the delivery
    and whatever GitHub and the review service do.  Without a parsed body
    it throws at its first statement, before any call.  With one it
    answers, with status 200, 400 or 500 and the request id of the
    delivery.  A 200 carries a success envelope; a 400 carries
    [VALIDATION_ERROR] and is sent before any call; a 500 carries
    [INTERNAL_ERROR], [TIMEOUT_ERROR] or [EXTERNAL_SERVICE_ERROR], without
    details, and is sent after GitHub was asked for the pull request, or,
    before any call and with [INTERNAL_ERROR], for an actionable event
    whose full name is truthy and is no string. *)
Theorem handler_answers (Number_toString : JS.number -> string)
    (config : WebhookService.Config) (world : WebhookService.World)
    (requestId : option string) (eventType : WebhookService.Header)
    (body : JS.value) :
  (JS.nullish body = true
   /\ WebhookService.webhook Number_toString config world requestId eventType
        body
      = ([], inl (Notions.unreadable body "action")))
  \/ (JS.nullish body = false
      /\ exists response,
           snd (WebhookService.webhook Number_toString config world requestId
                  eventType body) = inr response
           /\ Notions.requestId_of (Api.body response) = requestId
           /\ ((exists data,
                  response
                  = Api.respond 200 (Api.createSuccessResponse data requestId))
               \/ (exists message details,
                     WebhookService.webhook Number_toString config world
                       requestId eventType body
                     = ([],
                        inr (Api.respond 400
                               (Api.createErrorResponse Api.VALIDATION_ERROR
                                  message details requestId))))
               \/ (exists code message,
                     response
                     = Api.respond 500
                         (Api.createErrorResponse code message None requestId)
                     /\ In code [ Api.INTERNAL_ERROR; Api.TIMEOUT_ERROR;
                                  Api.EXTERNAL_SERVICE_ERROR ]
                     /\ ((exists owner repo pullNumber more,
                            fst (WebhookService.webhook Number_toString config
                                   world requestId eventType body)
                            = WebhookService.PullsGet owner repo pullNumber
                              :: more)
                         \/ (fst (WebhookService.webhook Number_toString config
                                    world requestId eventType body) = []
                             /\ WebhookService.actionable eventType body = true
                             /\ Spec.unsplittable body = true
                             /\ code = Api.INTERNAL_ERROR
                             /\ message
                                = "Failed to process webhook: fullName.split is not a function"))))).
Proof.
  pose (Q := fun (calls : list WebhookService.Call)
                 (ending : JS.thrown
                           + Api.HttpResponse WebhookService.WebhookData) =>
          (JS.nullish body = true
           /\ calls = []
           /\ ending = inl (Notions.unreadable body "action"))
          \/ (JS.nullish body = false
              /\ exists response,
                   ending = inr response
                   /\ Notions.requestId_of (Api.body response) = requestId
                   /\ ((exists data,
                          response
                          = Api.respond 200
                              (Api.createSuccessResponse data requestId))
                       \/ (exists message details,
                             calls = []
                             /\ response
                                = Api.respond 400
                                    (Api.createErrorResponse
                                       Api.VALIDATION_ERROR message details
                                       requestId))
                       \/ (exists code message,
                             response
                             = Api.respond 500
                                 (Api.createErrorResponse code message None
                                    requestId)
                             /\ In code [ Api.INTERNAL_ERROR; Api.TIMEOUT_ERROR;
                                          Api.EXTERNAL_SERVICE_ERROR ]
                             /\ ((exists owner repo pullNumber more,
                                    calls
                                    = WebhookService.PullsGet owner repo
                                        pullNumber :: more)
                                 \/ (calls = []
                                     /\ WebhookService.actionable eventType body
                                        = true
                                     /\ Spec.unsplittable body = true
                                     /\ code = Api.INTERNAL_ERROR
                                     /\ message
                                        = "Failed to process webhook: fullName.split is not a function")))))).
  assert (HQ : Q (fst (WebhookService.webhook Number_toString config world
                         requestId eventType body))
                 (snd (WebhookService.webhook Number_toString config world
                         requestId eventType body))).
  { assert (Hparsed : forall fullName n owner repo,
               Spec.identity body = Some (fullName, n, owner, repo) ->
               JS.nullish body = false).
    { intros fullName n owner repo Hid.
      destruct body; try reflexivity; discriminate Hid. }
    assert (Hfail : forall e owner repo n more,
               JS.nullish body = false ->
               Q (WebhookService.PullsGet owner repo n :: more)
                 (inr (WebhookService.failure requestId e))).
    { intros e owner repo n more Hb.
      destruct (failure_shape requestId e) as [code [message [-> Hc]]].
      right. split; [exact Hb|]. eexists. split; [reflexivity|].
      split; [reflexivity|]. right. right.
      exists code, message.
      split; [reflexivity|]. split; [|left; eauto].
      destruct Hc as [-> | ->]; simpl; auto. }
    assert (Hext : forall message owner repo n more,
               JS.nullish body = false ->
               Q (WebhookService.PullsGet owner repo n :: more)
                 (inr (Api.respond 500
                         (Api.createErrorResponse Api.EXTERNAL_SERVICE_ERROR
                            message None requestId)))).
    { intros message owner repo n more Hb.
      right. split; [exact Hb|]. eexists. split; [reflexivity|].
      split; [reflexivity|]. right. right.
      exists Api.EXTERNAL_SERVICE_ERROR, message.
      split; [reflexivity|]. split; [simpl; auto | left; eauto]. }
    apply webhook_outcome; intros.
    - left. auto.
    - right. split; [assumption|]. eexists. split; [reflexivity|].
      split; [reflexivity|]. left. eauto.
    - right. split; [eapply actionable_parsed; eassumption|].
      eexists. split; [reflexivity|].
      split; [reflexivity|]. right. left. eauto.
    - right. split; [eapply actionable_parsed; eassumption|].
      eexists. split; [reflexivity|].
      split; [reflexivity|]. right. right.
      exists Api.INTERNAL_ERROR,
        "Failed to process webhook: fullName.split is not a function".
      split; [reflexivity|]. split; [simpl; auto|]. right. auto.
    - match goal with
      | H : _ \/ _ |- _ => destruct H as [->|[u' ->]]
      end; apply Hfail; eauto.
    - right. split; [eauto|]. eexists. split; [reflexivity|].
      split; [reflexivity|]. left. eauto.
    - apply Hfail; eauto.
    - apply Hfail; eauto.
    - apply Hext; eauto.
    - apply Hext; eauto.
    - apply Hext; eauto.
    - right. split; [eauto|]. eexists. split; [reflexivity|].
      split; [reflexivity|]. left. eauto. }
  destruct (WebhookService.webhook Number_toString config world requestId
              eventType body) as [calls ending].
  cbn [fst snd] in HQ |- *.
  destruct HQ as [[Hb [-> ->]]|[Hb [response [-> [Hid Hcases]]]]].
  - left. auto.
  - right. split; [exact Hb|]. exists response. split; [reflexivity|].
    split; [exact Hid|].
    destruct Hcases as [H|[[message [details [-> ->]]]|H]].
    + left. exact H.
    + right. left. eauto.
    + right. right. exact H.
Qed.

(** X14.  The calls of a run follow the stages: the pull request is looked
    up, then its diff is downloaded, then the review is requested, then it
    is published.  A run may stop after any stage, but it never skips
    one, never repeats one and never makes a call of another kind; the
    lookup and the publication are for the same pull request. *)
Theorem calls_follow_the_stages (Number_toString : JS.number -> string)
    (config : WebhookService.Config) (world : WebhookService.World)
    (requestId : option string) (eventType : WebhookService.Header)
    (body : JS.value) :
  Notions.StageOrder
    (fst (WebhookService.webhook Number_toString config world requestId
            eventType body)).
Proof.
  apply (webhook_outcome Number_toString config world requestId eventType body
           (fun calls _ => Notions.StageOrder calls));
    unfold Notions.StageOrder; intros;
    try (left; reflexivity);
    try (right; eexists; eexists; eexists; right; eexists; left;
         reflexivity);
    try (right; eexists; eexists; eexists; right; eexists; right;
         eexists; eexists; left; reflexivity);
    try (right; eexists; eexists; eexists; right; eexists; right;
         eexists; eexists; right; eexists; reflexivity).
  match goal with
  | H : _ \/ _ |- _ => destruct H as [->|[u' ->]]
  end.
  - right. eexists; eexists; eexists. left. reflexivity.
  - right. eexists; eexists; eexists. right. eexists. left. reflexivity.
Qed.

(** X15.  What a success response tells about the run.  [ignored] is
    answered without any call.  "Forwarded and posted" is answered only
    after the four calls of a full run, the last of which GitHub accepted.
    "Not forwarded, not posted" is answered only after the lookup and the
    download, for a diff that is empty once trimmed; and no success
    response claims one of forwarding and posting without the other. *)
Theorem success_tells_the_run (Number_toString : JS.number -> string)
    (config : WebhookService.Config) (world : WebhookService.World)
    (requestId : option string) (eventType : WebhookService.Header)
    (body : JS.value) :
  (forall response,
      snd (WebhookService.webhook Number_toString config world requestId
             eventType body) = inr response ->
      Api.body response
      = Api.createSuccessResponse WebhookService.Ignored requestId ->
      fst (WebhookService.webhook Number_toString config world requestId
             eventType body) = [])
  /\ (forall response forwarded posted reason,
        snd (WebhookService.webhook Number_toString config world requestId
               eventType body) = inr response ->
        Api.body response
        = Api.createSuccessResponse
            (WebhookService.Processed forwarded posted reason) requestId ->
        forwarded = posted
        /\ exists owner repo pullNumber diffUrl diff,
             WebhookService.pulls_get world owner repo pullNumber
             = inr (Some diffUrl)
             /\ WebhookService.http_get world diffUrl = inr (JS.Str diff)
             /\ if posted then
                  exists url data text,
                    fst (WebhookService.webhook Number_toString config world
                           requestId eventType body)
                    = [ WebhookService.PullsGet owner repo pullNumber;
                        WebhookService.HttpGet diffUrl
                          "application/vnd.github.v3.diff" 10000;
                        WebhookService.HttpPost url data 120000;
                        WebhookService.CreateReview owner repo pullNumber
                          "COMMENT" text ]
                    /\ WebhookService.create_review world owner repo pullNumber
                         "COMMENT" text = inr tt
                else
                  fst (WebhookService.webhook Number_toString config world
                         requestId eventType body)
                  = [ WebhookService.PullsGet owner repo pullNumber;
                      WebhookService.HttpGet diffUrl
                        "application/vnd.github.v3.diff" 10000 ]
                  /\ WebhookService.emptyDiff diff = true).
Proof.
  apply (webhook_outcome Number_toString config world requestId eventType body
           (fun calls ending =>
              (forall response,
                  ending = inr response ->
                  Api.body response
                  = Api.createSuccessResponse WebhookService.Ignored requestId ->
                  calls = [])
              /\ (forall response forwarded posted reason,
                    ending = inr response ->
                    Api.body response
                    = Api.createSuccessResponse
                        (WebhookService.Processed forwarded posted reason)
                        requestId ->
                    forwarded = posted
                    /\ exists owner repo pullNumber diffUrl diff,
                         WebhookService.pulls_get world owner repo pullNumber
                         = inr (Some diffUrl)
                         /\ WebhookService.http_get world diffUrl
                            = inr (JS.Str diff)
                         /\ if posted then
                              exists url data text,
                                calls
                                = [ WebhookService.PullsGet owner repo
                                      pullNumber;
                                    WebhookService.HttpGet diffUrl
                                      "application/vnd.github.v3.diff" 10000;
                                    WebhookService.HttpPost url data 120000;
                                    WebhookService.CreateReview owner repo
                                      pullNumber "COMMENT" text ]
                                /\ WebhookService.create_review world owner
                                     repo pullNumber "COMMENT" text = inr tt
                            else
                              calls
                              = [ WebhookService.PullsGet owner repo pullNumber;
                                  WebhookService.HttpGet diffUrl
                                    "application/vnd.github.v3.diff" 10000 ]
                              /\ WebhookService.emptyDiff diff = true)));
    intros;
    try match goal with
        | |- context [WebhookService.failure ?r ?e] =>
            destruct (failure_shape r e) as [code [message [-> _]]]
        end;
    (split;
     [intros response [= <-]; try discriminate; try reflexivity
     |intros response forwarded posted reason [= <-]; try discriminate]).
  - intros [= <- <- <-]. split; [reflexivity|].
    eexists; eexists; eexists; eexists; eexists.
    split; [eassumption|]. split; [eassumption|]. split; [reflexivity|].
    assumption.
  - intros [= <- <- <-]. split; [reflexivity|].
    eexists; eexists; eexists; eexists; eexists.
    split; [eassumption|]. split; [eassumption|].
    eexists; eexists; eexists. split; [reflexivity|]. assumption.
Qed.

(** X16.  Where a published review comes from.  Whenever the handler
    creates a review on GitHub it does so as a [COMMENT], on the pull
    request of the delivery, and its text is the rendering of an answer
    the review service gave in this run to the diff GitHub returned for
    that pull request: the answer held a truthy summary and an array of
    comments, and the diff was not empty. *)
Theorem published_review_provenance (Number_toString : JS.number -> string)
    (config : WebhookService.Config) (world : WebhookService.World)
    (requestId : option string) (eventType : WebhookService.Header)
    (body : JS.value)
    (owner repo : string) (pullNumber : JS.value) (event text : string) :
  In (WebhookService.CreateReview owner repo pullNumber event text)
    (fst (WebhookService.webhook Number_toString config world requestId
            eventType body)) ->
  event = "COMMENT"
  /\ exists fullName diffUrl diff data comments findings,
       Spec.identity body = Some (fullName, pullNumber, owner, repo)
       /\ WebhookService.pulls_get world owner repo pullNumber
          = inr (Some diffUrl)
       /\ WebhookService.http_get world diffUrl = inr (JS.Str diff)
       /\ WebhookService.emptyDiff diff = false
       /\ WebhookService.http_post world
            (WebhookService.reviewServiceUrl config ++ "/review")
            (WebhookService.reviewRequestBody fullName pullNumber diff)
          = inr data
       /\ JS.truthy (JS.get (WebhookService.reviewData data) "summary") = true
       /\ JS.get (WebhookService.reviewData data) "comments"
          = JS.Array comments
       /\ WebhookService.findings Number_toString comments = inr findings
       /\ WebhookService.reviewBody Number_toString
            (JS.get (WebhookService.reviewData data) "summary") findings
          = inr text.
Proof.
  revert owner repo pullNumber event text.
  apply (webhook_outcome Number_toString config world requestId eventType body
           (fun calls _ =>
              forall owner repo pullNumber event text,
                In (WebhookService.CreateReview owner repo pullNumber event text)
                  calls ->
                event = "COMMENT"
                /\ exists fullName diffUrl diff data comments findings,
                     Spec.identity body
                     = Some (fullName, pullNumber, owner, repo)
                     /\ WebhookService.pulls_get world owner repo pullNumber
                        = inr (Some diffUrl)
                     /\ WebhookService.http_get world diffUrl
                        = inr (JS.Str diff)
                     /\ WebhookService.emptyDiff diff = false
                     /\ WebhookService.http_post world
                          (WebhookService.reviewServiceUrl config ++ "/review")
                          (WebhookService.reviewRequestBody fullName pullNumber
                             diff)
                        = inr data
                     /\ JS.truthy
                          (JS.get (WebhookService.reviewData data) "summary")
                        = true
                     /\ JS.get (WebhookService.reviewData data) "comments"
                        = JS.Array comments
                     /\ WebhookService.findings Number_toString comments
                        = inr findings
                     /\ WebhookService.reviewBody Number_toString
                          (JS.get (WebhookService.reviewData data) "summary")
                          findings
                        = inr text));
    intros;
    try match goal with
        | H : _ \/ (exists u, _ = _) |- _ => destruct H as [->|[u' ->]]
        end;
    match goal with
    | H : In _ _ |- _ => simpl in H; intuition (try discriminate)
    end;
    match goal with
    | H : WebhookService.CreateReview _ _ _ _ _ = _ |- _ =>
        injection H as <- <- <- <- <-
    end;
    try reflexivity;
    do 6 eexists; repeat (split; [eassumption|]); eassumption.
Qed.

Lemma published_review_provenance_witness :
  exists text,
    In (WebhookService.CreateReview "acme" "widgets" (JS.Number 42%Q) "COMMENT" text)
      (fst (WebhookService.webhook Node.Number_toString Examples.webhook_config
              Examples.all_up (Some "r-0")
              (WebhookService.Single "pull_request")
              (Examples.opened "acme/widgets" 42%Q)))
    /\ exists fullName diffUrl diff data comments findings,
         Spec.identity (Examples.opened "acme/widgets" 42%Q)
         = Some (fullName, JS.Number 42%Q, "acme", "widgets")
         /\ WebhookService.pulls_get Examples.all_up "acme" "widgets" (JS.Number 42%Q)
            = inr (Some diffUrl)
         /\ WebhookService.http_get Examples.all_up diffUrl = inr (JS.Str diff)
         /\ WebhookService.emptyDiff diff = false
         /\ WebhookService.http_post Examples.all_up
              (WebhookService.reviewServiceUrl Examples.webhook_config
               ++ "/review")
              (WebhookService.reviewRequestBody fullName (JS.Number 42%Q) diff)
            = inr data
         /\ JS.truthy (JS.get (WebhookService.reviewData data) "summary") = true
         /\ JS.get (WebhookService.reviewData data) "comments"
            = JS.Array comments
         /\ WebhookService.findings Node.Number_toString comments
            = inr findings
         /\ WebhookService.reviewBody Node.Number_toString
              (JS.get (WebhookService.reviewData data) "summary") findings
            = inr text.
Proof.
  eexists. split.
  - vm_compute. right. right. right. left. reflexivity.
  - refine (proj2 (published_review_provenance Node.Number_toString
                     Examples.webhook_config Examples.all_up (Some "r-0")
                     (WebhookService.Single "pull_request")
                     (Examples.opened "acme/widgets" 42%Q)
                     "acme" "widgets" (JS.Number 42%Q) "COMMENT" _ _)).
    vm_compute. right. right. right. left. reflexivity.
Defined.

(** ** The two services together *)

Lemma JS_length_app (a b : string) :
  JS.length (a ++ b) = JS.length a + JS.length b.
Proof.
  induction a as [|c a IH]; simpl; [reflexivity|]. rewrite IH. lia.
Qed.

Lemma JS_length_rev_acc (s acc : string) :
  JS.length (Str.rev_acc s acc) = JS.length s + JS.length acc.
Proof.
  revert acc. induction s as [|c s IH]; intros acc; simpl; [reflexivity|].
  rewrite IH. simpl. lia.
Qed.

Lemma JS_length_rev (s : string) : JS.length (Str.rev s) = JS.length s.
Proof. unfold Str.rev. rewrite JS_length_rev_acc. simpl. lia. Qed.

Lemma prefix_drop (w s : string) :
  String.prefix w s = true -> s = w ++ Str.drop (String.length w) s.
Proof.
  revert s. induction w as [|c w IH]; intros s; simpl.
  - intros _. destruct s; reflexivity.
  - destruct s as [|d s]; [discriminate|]. simpl.
    destruct (Ascii.ascii_dec c d) as [->|Hne]; [|discriminate].
    intros H. rewrite <- (IH s H). reflexivity.
Qed.

Lemma strip_one_shorter (ws : list string) (s s' : string) :
  Str.strip_one ws s = Some s' -> JS.length s' <= JS.length s.
Proof.
  induction ws as [|w ws IH]; simpl; [discriminate|].
  destruct (String.prefix w s) eqn:Hp; [|exact IH].
  intros [= <-]. rewrite (prefix_drop w s Hp) at 2.
  rewrite JS_length_app. lia.
Qed.

Lemma strip_shorter (fuel : nat) (ws : list string) (s : string) :
  JS.length (Str.strip fuel ws s) <= JS.length s.
Proof.
  revert s. induction fuel as [|fuel IH]; intros s; simpl; [lia|].
  destruct (Str.strip_one ws s) as [s'|] eqn:Hs; [|lia].
  apply strip_one_shorter in Hs. specialize (IH s'). lia.
Qed.

(** Trimming never lengthens a text. *)
Lemma trim_shorter (s : string) : JS.length (Str.trim s) <= JS.length s.
Proof.
  unfold Str.trim, Str.trimEnd, Str.trimStart.
  rewrite JS_length_rev.
  etransitivity; [apply strip_shorter|]. rewrite JS_length_rev.
  apply strip_shorter.
Qed.

Lemma emptyDiff_false_length (diff : string) :
  WebhookService.emptyDiff diff = false -> 1 <= JS.length diff.
Proof.
  unfold WebhookService.emptyDiff. intros H.
  apply orb_false_iff in H. destruct H as [_ H].
  apply Nat.eqb_neq in H. pose proof (trim_shorter diff). lia.
Qed.

(** A text that is not empty has at least one UTF-16 code unit. *)
Lemma utf8_length (s : string) :
  Notions.utf8 s = true -> s <> "" -> 1 <= JS.length s.
Proof.
  destruct s as [|c s]; [congruence|]. intros H _.
  unfold Notions.utf8 in H. simpl in H. simpl. unfold Str.utf16_units.
  destruct (Nat.ltb (nat_of_ascii c) 128); [lia|].
  destruct (Nat.ltb (nat_of_ascii c) 192); [discriminate|].
  destruct (Nat.ltb (nat_of_ascii c) 240); lia.
Qed.

Lemma identity_full_name (body : JS.value)
    (fullName : string) (n : JS.value) (owner repo : string) :
  Spec.identity body = Some (fullName, n, owner, repo) ->
  fullName <> ""
  /\ JS.truthy n = true
  /\ Spec.owner_and_repo fullName = Some (owner, repo)
  /\ Spec.full_name body = JS.Str fullName
  /\ Spec.number body = n.
Proof.
  unfold Spec.identity.
  destruct (Spec.full_name body) as [| |b|x|f|items|fields]; try discriminate.
  destruct (String.eqb f "") eqn:Hf; [discriminate|].
  destruct (JS.truthy (Spec.number body)) eqn:Hz; [|discriminate].
  cbn [negb].
  destruct (Spec.owner_and_repo f) as [[o rp]|] eqn:Ho; [|discriminate].
  intros [= <- <- <- <-]. apply String.eqb_neq in Hf.
  repeat split; auto.
Qed.

Lemma forwarded_body (Number_toString : JS.number -> string)
    (config : WebhookService.Config) (world : WebhookService.World)
    (requestId : option string) (eventType : WebhookService.Header)
    (body : JS.value)
    (url : string) (data : JS.value) (timeout : Z) :
  In (WebhookService.HttpPost url data timeout)
    (fst (WebhookService.webhook Number_toString config world requestId
            eventType body)) ->
  exists fullName n owner repo diffUrl diff,
    Spec.identity body = Some (fullName, n, owner, repo)
    /\ WebhookService.pulls_get world owner repo n = inr (Some diffUrl)
    /\ WebhookService.http_get world diffUrl = inr (JS.Str diff)
    /\ WebhookService.emptyDiff diff = false
    /\ url = WebhookService.reviewServiceUrl config ++ "/review"
    /\ data = WebhookService.reviewRequestBody fullName n diff
    /\ timeout = 120000%Z.
Proof.
  revert url data timeout.
  apply (webhook_outcome Number_toString config world requestId eventType body
           (fun calls _ =>
              forall url data timeout,
                In (WebhookService.HttpPost url data timeout) calls ->
                exists fullName n owner repo diffUrl diff,
                  Spec.identity body = Some (fullName, n, owner, repo)
                  /\ WebhookService.pulls_get world owner repo n
                     = inr (Some diffUrl)
                  /\ WebhookService.http_get world diffUrl = inr (JS.Str diff)
                  /\ WebhookService.emptyDiff diff = false
                  /\ url = WebhookService.reviewServiceUrl config ++ "/review"
                  /\ data = WebhookService.reviewRequestBody fullName n diff
                  /\ timeout = 120000%Z));
    intros;
    try match goal with
        | H : _ \/ (exists u, _ = _) |- _ => destruct H as [->|[u' ->]]
        end;
    match goal with
    | H : In _ _ |- _ => simpl in H; intuition (try discriminate)
    end;
    match goal with
    | H : WebhookService.HttpPost _ _ _ = _ |- _ => injection H as <- <- <-
    end;
    do 6 eexists; repeat (split; [eassumption|]); repeat split.
Qed.

(** X17.  What the webhook service forwards is what the review service
    accepts.  The body of every request the handler sends to the review
    service holds the full name of the repository, the number of the pull
    request as the payload gave it, the diff and the language
    [typescript]; for a full name that is well-formed text, the review
    service's validation accepts it exactly when that number is a number,
    a positive integer, and the diff is within the size limit of the
    review service, and the request it hands on holds the same four
    values.  The name, the non-emptiness of the diff and the language are
    never the reason of a refusal. *)
Theorem forwarded_requests_pass_validation
    (Number_toString : JS.number -> string)
    (config : WebhookService.Config) (world : WebhookService.World)
    (requestId : option string) (eventType : WebhookService.Header)
    (body : JS.value)
    (url : string) (data : JS.value) (timeout : Z)
    (reviewConfig : ReviewService.Config) (reviewRequestId : option string) :
  In (WebhookService.HttpPost url data timeout)
    (fst (WebhookService.webhook Number_toString config world requestId
            eventType body)) ->
  (forall fullName,
      Spec.full_name body = JS.Str fullName ->
      Notions.utf8 fullName = true) ->
  exists fullName pullNumber diff,
    data = WebhookService.reviewRequestBody fullName pullNumber diff
    /\ Spec.full_name body = JS.Str fullName
    /\ Spec.number body = pullNumber
    /\ (forall n,
          ReviewService.validateReviewRequest Number_toString reviewConfig
            reviewRequestId data
          = inr {| ReviewService.repo := fullName;
                   ReviewService.prNumber := n;
                   ReviewService.diff := diff;
                   ReviewService.language := Some "typescript" |}
          <-> pullNumber = JS.Number n
              /\ JS.isInteger n = true
              /\ (0 < n)%Q
              /\ (inject_Z (Z.of_nat (JS.length diff))
                  <= ReviewService.maxDiffSize reviewConfig)%Q)
    /\ (forall request,
          ReviewService.validateReviewRequest Number_toString reviewConfig
            reviewRequestId data = inr request ->
          exists n,
            pullNumber = JS.Number n
            /\ request
               = {| ReviewService.repo := fullName;
                    ReviewService.prNumber := n;
                    ReviewService.diff := diff;
                    ReviewService.language := Some "typescript" |}).
Proof.
  intros Hin Hutf.
  destruct (forwarded_body _ _ _ _ _ _ _ _ _ Hin)
    as [fullName [n [owner [repo [u [diff [Hid [_ [_ [He [_ [-> _]]]]]]]]]]]].
  destruct (identity_full_name _ _ _ _ _ Hid) as [Hne [_ [_ [Hfn Hnum]]]].
  assert (Hname : 1 <= JS.length fullName).
  { apply utf8_length; [|exact Hne]. apply Hutf. exact Hfn. }
  pose proof (emptyDiff_false_length diff He) as Hdiff.
  assert (Hv : forall request,
             ReviewService.validateReviewRequest Number_toString reviewConfig
               reviewRequestId
               (WebhookService.reviewRequestBody fullName n diff) = inr request
             <-> ReviewService.safeParse Number_toString reviewConfig
                   (WebhookService.reviewRequestBody fullName n diff)
                 = inr request).
  { intros request. unfold ReviewService.validateReviewRequest.
    destruct (ReviewService.safeParse Number_toString reviewConfig
                (WebhookService.reviewRequestBody fullName n diff));
      split; intros H; inversion H; reflexivity. }
  exists fullName, n, diff. split; [reflexivity|].
  split; [exact Hfn|]. split; [exact Hnum|]. split.
  - intros x. rewrite Hv, safeParse_accepts. split.
    + intros [fields [Hb [_ [_ [Hx [Hi [Hp [_ [_ [Hm _]]]]]]]]]].
      unfold WebhookService.reviewRequestBody in Hb. injection Hb as <-.
      cbn in Hx, Hi, Hp, Hm. auto.
    + intros [-> [Hi [Hp Hm]]].
      eexists. split; [reflexivity|]. cbn. repeat split; auto.
  - intros request H. apply Hv in H. apply safeParse_accepts in H.
    destruct H as [fields [Hb [Hr' [_ [Hn' [_ [_ [Hd' [_ [_ Hl']]]]]]]]]].
    unfold WebhookService.reviewRequestBody in Hb. injection Hb as <-.
    cbn in Hr', Hn', Hd', Hl'.
    destruct request as [rr rn rd rl]. cbn in *.
    exists rn. split; [exact Hn'|].
    injection Hr' as <-. injection Hd' as <-.
    destruct rl as [l|]; [|discriminate]. injection Hl' as <-. reflexivity.
Qed.

Lemma forwarded_requests_pass_validation_witness :
  exists fullName pullNumber diff,
    WebhookService.reviewRequestBody "acme/widgets" (JS.Number 42%Q)
      Examples.diff_text
    = WebhookService.reviewRequestBody fullName (JS.Number pullNumber) diff
    /\ ReviewService.validateReviewRequest Node.Number_toString
         Examples.default_config (Some "r-1")
         (WebhookService.reviewRequestBody "acme/widgets" (JS.Number 42%Q)
            Examples.diff_text)
       = inr {| ReviewService.repo := fullName;
                ReviewService.prNumber := pullNumber;
                ReviewService.diff := diff;
                ReviewService.language := Some "typescript" |}.
Proof.
  destruct (forwarded_requests_pass_validation Node.Number_toString
              Examples.webhook_config Examples.all_up (Some "r-0")
              (WebhookService.Single "pull_request")
              (Examples.opened "acme/widgets" 42%Q)
              "http://localhost:4002/review"
              (WebhookService.reviewRequestBody "acme/widgets" (JS.Number 42%Q)
                 Examples.diff_text)
              120000%Z Examples.default_config (Some "r-1"))
    as [fullName [pullNumber [diff [Hb [_ [_ [Hv _]]]]]]].
  - vm_compute. right. right. left. reflexivity.
  - intros fullName [= <-]. reflexivity.
  - injection Hb as <- <- <-.
    exists "acme/widgets", 42%Q, Examples.diff_text. split; [reflexivity|].
    apply Hv. split; [reflexivity|]. vm_compute.
    repeat split; discriminate.
Defined.

Lemma bullets_of_objects (Number_toString : JS.number -> string)
    (comments : list JS.value) :
  (forall c, In c comments -> Spec.FindingShape c) ->
  exists lines, WebhookService.bullets Number_toString comments = inr lines.
Proof.
  induction comments as [|c comments IH]; intros H; [simpl; eauto|].
  destruct (H c (or_introl eq_refl))
    as [fields [f [l [s [m [-> [Hf [Hn [Hs [_ Hm]]]]]]]]]].
  destruct IH as [lines Hl]; [intros x Hx; apply H; right; exact Hx|].
  cbn [WebhookService.bullets WebhookService.bullet JS.get].
  rewrite Hf, Hn, Hs, Hm. cbn [JS.toString JS.and_then]. rewrite Hl. eauto.
Qed.

Lemma findings_of_objects (Number_toString : JS.number -> string)
    (comments : list JS.value) :
  (forall c, In c comments -> Spec.FindingShape c) ->
  exists text, WebhookService.findings Number_toString comments = inr text.
Proof.
  intros H. unfold WebhookService.findings.
  destruct comments as [|c comments]; [eauto|].
  destruct (bullets_of_objects Number_toString (c :: comments) H) as [lines ->].
  eauto.
Qed.

Lemma reviewAnswer_read (review : ReviewService.ReviewResponse)
    (requestId : option string) :
  JS.nullish (Notions.reviewAnswer review requestId) = false
  /\ JS.get (WebhookService.reviewData (Notions.reviewAnswer review requestId))
       "summary"
     = JS.Str (ReviewService.summary review)
  /\ JS.get (WebhookService.reviewData (Notions.reviewAnswer review requestId))
       "comments"
     = JS.Array (ReviewService.comments review).
Proof. destruct requestId; repeat split. Qed.

(** X18.  What the review service answers is what the webhook service
    can publish.  When the review service answers a forwarded request with
    the 200 of its route, whatever the model replied, the handler finds a
    summary and an array of comments in it, renders every comment without
    failing, and goes on to create the review on GitHub: the run is never
    ended by the format check or by the rendering. *)
Theorem sanitized_reviews_are_published
    (Number_toString : JS.number -> string)
    (config : WebhookService.Config) (world : WebhookService.World)
    (requestId : option string) (eventType : WebhookService.Header)
    (body : JS.value)
    (reply : JS.value) (reviewRequestId : option string)
    (url : string) (data : JS.value) (timeout : Z) :
  In (WebhookService.HttpPost url data timeout)
    (fst (WebhookService.webhook Number_toString config
            (Notions.answered world
               (Notions.reviewAnswer (ReviewService.sanitize reply)
                  reviewRequestId))
            requestId eventType body)) ->
  exists owner repo pullNumber text,
    WebhookService.findings Number_toString
      (ReviewService.comments (ReviewService.sanitize reply))
    = inr text
    /\ In (WebhookService.CreateReview owner repo pullNumber "COMMENT"
             (Str.join (Str.byte 10)
                [ "### 🤖 AI Code Review Assistant"; "";
                  ReviewService.summary (ReviewService.sanitize reply); "";
                  "#### Findings"; text ]))
         (fst (WebhookService.webhook Number_toString config
                 (Notions.answered world
                    (Notions.reviewAnswer (ReviewService.sanitize reply)
                       reviewRequestId))
                 requestId eventType body)).
Proof.
  revert url data timeout.
  destruct (reviewAnswer_read (ReviewService.sanitize reply) reviewRequestId)
    as [Hn [Hs Hc]].
  assert (Ht : JS.truthy
                 (JS.Str (ReviewService.summary (ReviewService.sanitize reply)))
               = true).
  { apply truthy_Str. apply sanitizeSummary_cases. }
  destruct (findings_of_objects Number_toString
              (ReviewService.comments (ReviewService.sanitize reply)))
    as [rendered Hr].
  { intros c Hin. apply (sanitizeComments_shaped (JS.get reply "comments")).
    exact Hin. }
  apply (webhook_outcome Number_toString config
           (Notions.answered world
              (Notions.reviewAnswer (ReviewService.sanitize reply)
                 reviewRequestId))
           requestId eventType body
           (fun calls _ =>
              forall url data timeout,
                In (WebhookService.HttpPost url data timeout) calls ->
                exists owner repo pullNumber text,
                  WebhookService.findings Number_toString
                    (ReviewService.comments (ReviewService.sanitize reply))
                  = inr text
                  /\ In (WebhookService.CreateReview owner repo pullNumber
                           "COMMENT"
                           (Str.join (Str.byte 10)
                              [ "### 🤖 AI Code Review Assistant"; "";
                                ReviewService.summary
                                  (ReviewService.sanitize reply);
                                ""; "#### Findings"; text ]))
                       calls)).
  - intros _ url data timeout [].
  - intros _ _ url data timeout [].
  - intros _ _ _ _ _ url data timeout [].
  - intros _ _ url data timeout [].
  - intros fullName n owner repo t e _ _ [->|[u ->]] url data timeout H;
      simpl in H; intuition discriminate.
  - intros fullName n owner repo u diff _ _ _ _ url data timeout H;
      simpl in H; intuition discriminate.
  - intros fullName n owner repo u diff e _ _ _ _ H. discriminate H.
  - intros fullName n owner repo u diff data0 _ _ _ _ H Hnull.
    injection H as <-. congruence.
  - intros fullName n owner repo u diff data0 _ _ _ _ H _ Hbad.
    injection H as <-. rewrite Hs, Hc in Hbad.
    destruct Hbad as [Hbad|Hbad]; [congruence | discriminate Hbad].
  - intros fullName n owner repo u diff data0 comments e _ _ _ _ H _ _ Hcs Hf.
    injection H as <-. rewrite Hc in Hcs. injection Hcs as <-.
    destruct Hf as [Hf|[text [_ Hf]]].
    + assert (Hx : inl e = inr rendered) by (rewrite <- Hf; exact Hr).
      discriminate Hx.
    + rewrite Hs in Hf. discriminate Hf.
  - intros fullName n owner repo u diff data0 comments text sent e _ _ _ _ H
      _ _ Hcs Hf Hb _ url data timeout _.
    injection H as <-. rewrite Hc in Hcs. injection Hcs as <-.
    rewrite Hs in Hb. injection Hb as <-.
    exists owner, repo, n, text. split; [exact Hf|].
    simpl. auto.
  - intros fullName n owner repo u diff data0 comments text sent _ _ _ _ H
      _ _ Hcs Hf Hb _ url data timeout _.
    injection H as <-. rewrite Hc in Hcs. injection Hcs as <-.
    rewrite Hs in Hb. injection Hb as <-.
    exists owner, repo, n, text. split; [exact Hf|].
    simpl. auto.
Qed.

Lemma sanitized_reviews_are_published_witness :
  exists owner repo pullNumber text,
    WebhookService.findings Node.Number_toString
      (ReviewService.comments
         (ReviewService.sanitize (JS.Object Examples.mixed_fields)))
    = inr text
    /\ In (WebhookService.CreateReview owner repo pullNumber "COMMENT"
             (Str.join (Str.byte 10)
                [ "### 🤖 AI Code Review Assistant"; "";
                  ReviewService.summary
                    (ReviewService.sanitize (JS.Object Examples.mixed_fields));
                  ""; "#### Findings"; text ]))
         (fst (WebhookService.webhook Node.Number_toString
                 Examples.webhook_config
                 (Notions.answered Examples.all_up
                    (Notions.reviewAnswer
                       (ReviewService.sanitize (JS.Object Examples.mixed_fields))
                       (Some "r-1")))
                 (Some "r-0") (WebhookService.Single "pull_request")
                 (Examples.opened "acme/widgets" 42%Q))).
Proof.
  apply (sanitized_reviews_are_published Node.Number_toString
           Examples.webhook_config Examples.all_up (Some "r-0")
           (WebhookService.Single "pull_request")
           (Examples.opened "acme/widgets" 42%Q)
           (JS.Object Examples.mixed_fields) (Some "r-1")
           "http://localhost:4002/review"
           (WebhookService.reviewRequestBody "acme/widgets" (JS.Number 42%Q)
              Examples.diff_text)
           120000%Z).
  vm_compute. right. right. left. reflexivity.
Defined.

(** ** Diffs without changes *)

Lemma prefix_byte (a b : ascii) (rest : string) :
  String.prefix (String a "") (String b rest)
  = if Ascii.eqb a b then true else false.
Proof.
  simpl. destruct (Ascii.ascii_dec a b) as [->|Hn].
  - rewrite Ascii.eqb_refl. destruct rest; reflexivity.
  - apply Ascii.eqb_neq in Hn. rewrite Hn. reflexivity.
Qed.

Lemma strip_one_blank (c : ascii) (rest : string) :
  existsb (Nat.eqb (nat_of_ascii c)) [9; 10; 11; 12; 13; 32] = true ->
  Str.strip_one Str.whitespace (String c rest) = Some rest.
Proof.
  intros H. apply existsb_exists in H. destruct H as [k [Hin Hk]].
  apply Nat.eqb_eq in Hk. rewrite <- (ascii_nat_embedding c), Hk.
  simpl in Hin.
  destruct Hin as [<-|[<-|[<-|[<-|[<-|[<-|[]]]]]]];
    unfold Str.whitespace, Str.byte; cbn [Str.strip_one];
    rewrite !prefix_byte; reflexivity.
Qed.

Lemma strip_blank (s : string) :
  Notions.ascii_blank s = true ->
  forall fuel, String.length s <= fuel ->
  Str.strip fuel Str.whitespace s = "".
Proof.
  induction s as [|c s IH]; intros Hb fuel Hf.
  - destruct fuel; reflexivity.
  - simpl in Hb. apply andb_true_iff in Hb. destruct Hb as [Hc Hs].
    destruct fuel as [|fuel]; [simpl in Hf; lia|].
    cbn [Str.strip]. rewrite (strip_one_blank c s Hc).
    apply IH; [exact Hs | simpl in Hf; lia].
Qed.

(** A text of spaces, tabs and line breaks is empty once trimmed. *)
Lemma blank_is_empty (diff : string) :
  Notions.ascii_blank diff = true -> WebhookService.emptyDiff diff = true.
Proof.
  intros H. unfold WebhookService.emptyDiff, Str.trim, Str.trimStart.
  rewrite (strip_blank diff H _ (Nat.le_refl _)).
  apply orb_true_r.
Qed.

(** X19.  A pull request whose diff is empty, or holds spaces, tabs and
    line breaks only, is not reviewed: the handler answers 200 with
    [forwardedToReviewService] and [postedReviewToGitHub] both false and
    the reason [PR has no changes to review], after the lookup and the
    download and without calling the review service or creating a
    review. *)
Theorem blank_diffs_are_not_reviewed
    (Number_toString : JS.number -> string)
    (config : WebhookService.Config) (world : WebhookService.World)
    (requestId : option string) (eventType : WebhookService.Header)
    (body : JS.value)
    (fullName : string) (pullNumber : JS.value) (owner repo : string)
    (diffUrl diff : string) :
  Spec.Actionable eventType body ->
  Spec.identity body = Some (fullName, pullNumber, owner, repo) ->
  WebhookService.pulls_get world owner repo pullNumber = inr (Some diffUrl) ->
  diffUrl <> "" ->
  WebhookService.http_get world diffUrl = inr (JS.Str diff) ->
  Notions.ascii_blank diff = true ->
  WebhookService.webhook Number_toString config world requestId eventType body
  = ([ WebhookService.PullsGet owner repo pullNumber;
       WebhookService.HttpGet diffUrl "application/vnd.github.v3.diff" 10000 ],
     inr (Api.respond 200
            (Api.createSuccessResponse
               (WebhookService.Processed false false
                  (Some "PR has no changes to review"))
               requestId))).
Proof.
  intros Hact Hid Hg Hu Hd Hb. apply actionable_spec in Hact.
  rewrite (webhook_reviews Number_toString config world requestId eventType
             body _ _ _ _ Hact Hid).
  pose proof (fetch_table Number_toString world owner repo pullNumber) as Hf.
  rewrite Hg in Hf. apply String.eqb_neq in Hu. rewrite Hu, Hd in Hf.
  rewrite (review_empty Number_toString config world requestId fullName
             pullNumber owner repo _ diff Hf (blank_is_empty diff Hb)).
  reflexivity.
Qed.

Lemma blank_diffs_are_not_reviewed_witness :
  WebhookService.webhook Node.Number_toString Examples.webhook_config
    (Notions.serving Examples.all_up (Str.bytes [32; 10; 9; 10]))
    (Some "r-0") (WebhookService.Single "pull_request")
    (Examples.opened "acme/widgets" 42%Q)
  = ([ WebhookService.PullsGet "acme" "widgets" (JS.Number 42%Q);
       WebhookService.HttpGet "https://github.com/acme/widgets/pull/42.diff"
         "application/vnd.github.v3.diff" 10000 ],
     inr (Api.respond 200
            (Api.createSuccessResponse
               (WebhookService.Processed false false
                  (Some "PR has no changes to review"))
               (Some "r-0")))).
Proof.
  apply (blank_diffs_are_not_reviewed Node.Number_toString
           Examples.webhook_config
           (Notions.serving Examples.all_up (Str.bytes [32; 10; 9; 10]))
           (Some "r-0") (WebhookService.Single "pull_request")
           (Examples.opened "acme/widgets" 42%Q)
           "acme/widgets" (JS.Number 42%Q) "acme" "widgets"
           "https://github.com/acme/widgets/pull/42.diff"
           (Str.bytes [32; 10; 9; 10])).
  - split; [reflexivity|]. exists "opened". split; [reflexivity|]. simpl. auto.
  - vm_compute. reflexivity.
  - reflexivity.
  - discriminate.
  - reflexivity.
  - reflexivity.
Defined.

(** ** Failures that read as timeouts *)

Lemma includes_of_prefix (needle hay : string) :
  String.prefix needle hay = true -> Str.includes needle hay = true.
Proof. intros H. destruct hay; cbn [Str.includes]; rewrite H; reflexivity. Qed.

Lemma prefix_app (needle a b : string) :
  String.prefix needle a = true -> String.prefix needle (a ++ b) = true.
Proof.
  revert a. induction needle as [|c needle IH]; intros a;
    [intros _; destruct (a ++ b); reflexivity|].
  destruct a as [|d a]; simpl; [discriminate|].
  destruct (Ascii.ascii_dec c d); [apply IH | discriminate].
Qed.

Lemma includes_app_r (needle a b : string) :
  Str.includes needle b = true -> Str.includes needle (a ++ b) = true.
Proof.
  intros H. induction a as [|c a IH]; [exact H|].
  cbn [String.append Str.includes]. rewrite IH.
  destruct (String.prefix needle (String c (a ++ b))); reflexivity.
Qed.

Lemma includes_app_l (needle a b : string) :
  Str.includes needle a = true -> Str.includes needle (a ++ b) = true.
Proof.
  induction a as [|c a IH].
  - cbn [Str.includes]. destruct (String.prefix needle "") eqn:Hp; [|discriminate].
    intros _. apply includes_of_prefix.
    apply (prefix_app needle "" b Hp).
  - cbn [String.append Str.includes].
    destruct (String.prefix needle (String c a)) eqn:Hp.
    + intros _. pose proof (prefix_app needle (String c a) b Hp) as Hq.
      cbn [String.append] in Hq. rewrite Hq. reflexivity.
    + intros H. rewrite (IH H).
      destruct (String.prefix needle (String c (a ++ b))); reflexivity.
Qed.

Lemma isTimeout_app_r (a b : string) :
  WebhookService.isTimeout b = true -> WebhookService.isTimeout (a ++ b) = true.
Proof.
  unfold WebhookService.isTimeout. intros H.
  apply orb_true_iff in H. apply orb_true_iff.
  destruct H as [H|H]; [left|right]; apply includes_app_r; exact H.
Qed.

Lemma isTimeout_app_l (a b : string) :
  WebhookService.isTimeout a = true -> WebhookService.isTimeout (a ++ b) = true.
Proof.
  unfold WebhookService.isTimeout. intros H.
  apply orb_true_iff in H. apply orb_true_iff.
  destruct H as [H|H]; [left|right]; apply includes_app_l; exact H.
Qed.

Lemma fetchError_timeout (Number_toString : JS.number -> string)
    (owner repo : string) (pullNumber : JS.value) (number : string)
    (e : JS.thrown) :
  JS.toString Number_toString pullNumber = inr number ->
  WebhookService.isTimeout owner = true \/ WebhookService.isTimeout repo = true ->
  exists message,
    Notions.fetchError Number_toString owner repo pullNumber e
    = JS.ErrorObject message
    /\ WebhookService.isTimeout message = true.
Proof.
  intros Hn H.
  assert (Hp : WebhookService.isTimeout
                 ("PR #" ++ number ++ " in " ++ owner ++ "/" ++ repo)
               = true).
  { do 3 apply isTimeout_app_r.
    destruct H as [H|H].
    - apply isTimeout_app_l. exact H.
    - do 2 apply isTimeout_app_r. exact H. }
  unfold Notions.fetchError, WebhookService.pr_in, JS.and_then. rewrite Hn.
  destruct (JS.instanceofError e).
  - eexists. split; [reflexivity|].
    apply isTimeout_app_r. apply isTimeout_app_l. exact Hp.
  - eexists. split; [reflexivity|]. apply isTimeout_app_r. exact Hp.
Qed.

(** X20.  The handler tells a timeout from another failure by looking for
    [timeout] or [TIMEOUT] in the message of the error, and the message of
    a failed diff fetch names the pull request, the owner and the
    repository.  So for a repository whose owner or name contains one of
    the two words, and a pull number that converts to a string as every
    number does, every failure of the diff fetch, whatever its cause, is
    answered 500 with [TIMEOUT_ERROR]. *)
Theorem repository_names_read_as_timeouts
    (Number_toString : JS.number -> string)
    (config : WebhookService.Config) (world : WebhookService.World)
    (requestId : option string) (eventType : WebhookService.Header)
    (body : JS.value)
    (fullName : string) (pullNumber : JS.value) (owner repo : string)
    (number : string) (e : JS.thrown) :
  Spec.Actionable eventType body ->
  Spec.identity body = Some (fullName, pullNumber, owner, repo) ->
  JS.toString Number_toString pullNumber = inr number ->
  WebhookService.isTimeout owner = true \/ WebhookService.isTimeout repo = true ->
  snd (WebhookService.fetchPullRequestDiff Number_toString world owner repo
         pullNumber) = inl e ->
  snd (WebhookService.webhook Number_toString config world requestId eventType
         body)
  = inr (Api.respond 500
           (Api.createErrorResponse Api.TIMEOUT_ERROR
              ("Failed to process webhook: " ++ JS.errorMessage e) None
              requestId)).
Proof.
  intros Hact Hid Hnum Hname He. apply actionable_spec in Hact.
  rewrite (webhook_reviews Number_toString config world requestId eventType
             body _ _ _ _ Hact Hid).
  rewrite (review_fetch_failed Number_toString config world requestId fullName
             pullNumber owner repo e He).
  cbn [snd].
  assert (Hm : exists message,
             e = JS.ErrorObject message
             /\ WebhookService.isTimeout message = true).
  { rewrite fetch_table in He.
    destruct (WebhookService.pulls_get world owner repo pullNumber)
      as [e0|[u|]].
    - injection He as <-. eapply fetchError_timeout; eassumption.
    - destruct (String.eqb u "").
      + injection He as <-. eapply fetchError_timeout; eassumption.
      + destruct (WebhookService.http_get world u) as [e1|data].
        * injection He as <-. eapply fetchError_timeout; eassumption.
        * destruct data; try discriminate;
            injection He as <-; eapply fetchError_timeout; eassumption.
    - injection He as <-. eapply fetchError_timeout; eassumption. }
  destruct Hm as [message [-> Ht]].
  unfold WebhookService.failure. cbn [JS.instanceofError JS.errorMessage].
  rewrite Ht. reflexivity.
Qed.

Lemma repository_names_read_as_timeouts_witness :
  exists e,
    snd (WebhookService.fetchPullRequestDiff Node.Number_toString
           Examples.github_not_found "acme" "timeout-utils" (JS.Number 42%Q))
    = inl e
    /\ JS.errorMessage e
       = "Failed to fetch diff for PR #42 in acme/timeout-utils: Not Found"
    /\ snd (WebhookService.webhook Node.Number_toString Examples.webhook_config
              Examples.github_not_found (Some "r-0")
              (WebhookService.Single "pull_request")
              (Examples.opened "acme/timeout-utils" 42%Q))
       = inr (Api.respond 500
                (Api.createErrorResponse Api.TIMEOUT_ERROR
                   ("Failed to process webhook: " ++ JS.errorMessage e) None
                   (Some "r-0"))).
Proof.
  eexists. split; [vm_compute; reflexivity|]. split; [reflexivity|].
  apply (repository_names_read_as_timeouts Node.Number_toString
           Examples.webhook_config Examples.github_not_found (Some "r-0")
           (WebhookService.Single "pull_request")
           (Examples.opened "acme/timeout-utils" 42%Q)
           "acme/timeout-utils" (JS.Number 42%Q) "acme" "timeout-utils" "42").
  - split; [reflexivity|]. exists "opened". split; [reflexivity|]. simpl. auto.
  - vm_compute. reflexivity.
  - vm_compute. reflexivity.
  - right. vm_compute. reflexivity.
  - vm_compute. reflexivity.
Defined.

(** ** The two shapes of an answer of the review service *)

Lemma data_of_read (data : JS.value) :
  JS.nullish data = false ->
  WebhookService.data_of data = WebhookService.ret (JS.get data "data").
Proof. destruct data; try discriminate; reflexivity. Qed.

Lemma review_answered (Number_toString : JS.number -> string)
    (config : WebhookService.Config) (world : WebhookService.World)
    (requestId : option string) (fullName : string) (pullNumber : JS.value)
    (owner repo : string) (first second : JS.value) :
  JS.nullish first = false ->
  JS.nullish second = false ->
  WebhookService.reviewData first = WebhookService.reviewData second ->
  WebhookService.review Number_toString config
    (Notions.answered world first) requestId fullName pullNumber owner repo
  = WebhookService.review Number_toString config
      (Notions.answered world second) requestId fullName pullNumber owner repo.
Proof.
  intros H1 H2 Heq. unfold WebhookService.review.
  change (WebhookService.fetchPullRequestDiff Number_toString
            (Notions.answered world first) owner repo pullNumber)
    with (WebhookService.fetchPullRequestDiff Number_toString world owner repo
            pullNumber).
  change (WebhookService.fetchPullRequestDiff Number_toString
            (Notions.answered world second) owner repo pullNumber)
    with (WebhookService.fetchPullRequestDiff Number_toString world owner repo
            pullNumber).
  destruct (WebhookService.fetchPullRequestDiff Number_toString world owner
              repo pullNumber) as [t [e|diff]]; [reflexivity|].
  unfold WebhookService.bind, WebhookService.perform.
  destruct (WebhookService.emptyDiff diff); [reflexivity|].
  cbn [WebhookService.http_post Notions.answered].
  rewrite (data_of_read first H1), (data_of_read second H2).
  unfold WebhookService.ret. rewrite Heq. reflexivity.
Qed.

(** X21.  The handler reads a review from the [data] member of the answer
    when that member is truthy and from the answer itself otherwise, so the
    review service may answer with its envelope or with the bare review:
    two answers that hold the same review this way end the run the same
    way, call for call and response for response. *)
Theorem envelope_or_bare_review (Number_toString : JS.number -> string)
    (config : WebhookService.Config) (world : WebhookService.World)
    (requestId : option string) (eventType : WebhookService.Header)
    (body : JS.value) (first second : JS.value) :
  JS.nullish first = false ->
  JS.nullish second = false ->
  WebhookService.reviewData first = WebhookService.reviewData second ->
  WebhookService.webhook Number_toString config (Notions.answered world first)
    requestId eventType body
  = WebhookService.webhook Number_toString config
      (Notions.answered world second) requestId eventType body.
Proof.
  intros H1 H2 Heq.
  assert (Hd : WebhookService.dispatch Number_toString config
                 (Notions.answered world first) requestId eventType body
               = WebhookService.dispatch Number_toString config
                   (Notions.answered world second) requestId eventType body).
  { unfold WebhookService.dispatch.
    destruct (WebhookService.actionable eventType body); [|reflexivity].
    match goal with
    | |- context [if ?b then _ else _] => destruct b; [reflexivity|]
    end.
    destruct (JS.get (JS.get body "repository") "full_name")
      as [| |b|x|fullName|items|fields]; try reflexivity.
    destruct (WebhookService.owner_repo fullName)
      as [[owner|] [repo|]]; try reflexivity.
    match goal with
    | |- context [if ?b then _ else _] => destruct b; [reflexivity|]
    end.
    apply review_answered; assumption. }
  unfold WebhookService.webhook, WebhookService.guarded. rewrite Hd.
  reflexivity.
Qed.

Lemma envelope_or_bare_review_witness :
  WebhookService.reviewData Examples.review_envelope
  = JS.get Examples.review_envelope "data"
  /\ WebhookService.webhook Node.Number_toString Examples.webhook_config
       (Notions.answered Examples.all_up Examples.review_envelope)
       (Some "r-0") (WebhookService.Single "pull_request")
       (Examples.opened "acme/widgets" 42%Q)
     = WebhookService.webhook Node.Number_toString Examples.webhook_config
         (Notions.answered Examples.all_up
            (JS.get Examples.review_envelope "data"))
         (Some "r-0") (WebhookService.Single "pull_request")
         (Examples.opened "acme/widgets" 42%Q).
Proof.
  split; [reflexivity|].
  apply (envelope_or_bare_review Node.Number_toString Examples.webhook_config
           Examples.all_up (Some "r-0") (WebhookService.Single "pull_request")
           (Examples.opened "acme/widgets" 42%Q)
           Examples.review_envelope (JS.get Examples.review_envelope "data"));
    reflexivity.
Defined.

(** ** The repository the calls name *)

Lemma split_nonempty (sep : ascii) (s : string) : Str.split sep s <> [].
Proof.
  destruct s as [|c s]; simpl; [discriminate|].
  destruct (Ascii.eqb c sep); [discriminate|].
  destruct (Str.split sep s); discriminate.
Qed.

Lemma join_split (sep : ascii) (s : string) :
  Str.join (String sep "") (Str.split sep s) = s.
Proof.
  unfold Str.join. induction s as [|c s IH]; [reflexivity|].
  pose proof (split_nonempty sep s) as Hne.
  cbn [Str.split]. destruct (Ascii.eqb c sep) eqn:Hc.
  - apply Ascii.eqb_eq in Hc. subst c.
    destruct (Str.split sep s) as [|w ws]; [contradiction|].
    change (String.concat (String sep "") ("" :: w :: ws))
      with (String sep (String.concat (String sep "") (w :: ws))).
    rewrite IH. reflexivity.
  - destruct (Str.split sep s) as [|w ws]; [contradiction|].
    rewrite <- IH. destruct ws; reflexivity.
Qed.

Lemma split_slashless (s x : string) :
  In x (Str.split "/" s) -> Notions.slashless x = true.
Proof.
  revert x. induction s as [|c s IH]; intros x.
  - simpl. intros [<-|[]]. reflexivity.
  - cbn [Str.split]. destruct (Ascii.eqb c "/") eqn:Hc.
    + intros [<-|H]; [reflexivity | apply IH; exact H].
    + pose proof (split_nonempty "/" s) as Hne.
      destruct (Str.split "/" s) as [|w ws]; [contradiction|].
      intros [<-|H].
      * cbn [Notions.slashless]. rewrite Hc. cbn [negb andb].
        apply IH. left. reflexivity.
      * apply IH. right. exact H.
Qed.

Lemma owner_and_repo_segments (fullName owner repo : string) :
  Spec.owner_and_repo fullName = Some (owner, repo) ->
  owner <> "" /\ repo <> ""
  /\ Notions.slashless owner = true /\ Notions.slashless repo = true
  /\ exists tail,
       fullName = owner ++ "/" ++ repo ++ tail
       /\ (tail = "" \/ exists more, tail = "/" ++ more).
Proof.
  unfold Spec.owner_and_repo.
  pose proof (join_split "/" fullName) as Hj.
  pose proof (split_slashless fullName) as Hs.
  destruct (Str.split "/" fullName) as [|o [|r rest]]; try discriminate.
  destruct (String.eqb o "") eqn:Ho; [discriminate|].
  destruct (String.eqb r "") eqn:Hr; [discriminate|].
  cbn [orb]. intros [= <- <-].
  apply String.eqb_neq in Ho. apply String.eqb_neq in Hr.
  split; [exact Ho|]. split; [exact Hr|].
  split; [apply Hs; simpl; auto|]. split; [apply Hs; simpl; auto|].
  unfold Str.join in Hj.
  destruct rest as [|x rest].
  - exists "". split; [|left; reflexivity].
    rewrite <- Hj. cbn [String.concat].
    assert (He : (r ++ "")%string = r).
    { clear. induction r as [|c r IH]; simpl; [reflexivity | rewrite IH; reflexivity]. }
    rewrite He. reflexivity.
  - exists ("/" ++ String.concat "/" (x :: rest)).
    split; [|right; eexists; reflexivity].
    rewrite <- Hj. reflexivity.
Qed.

(** X22.  The repository the handler asks GitHub about is the one the
    delivery names.  Whenever a run looks up a pull request, the owner and
    the repository of the call are the first two segments of the full name
    of the payload, a string, split on [/]: neither is empty, neither
    contains a [/], and the number is that of the payload's pull request
    and is truthy, so neither zero nor missing. *)
Theorem lookups_name_the_repository (Number_toString : JS.number -> string)
    (config : WebhookService.Config) (world : WebhookService.World)
    (requestId : option string) (eventType : WebhookService.Header)
    (body : JS.value)
    (owner repo : string) (pullNumber : JS.value) :
  In (WebhookService.PullsGet owner repo pullNumber)
    (fst (WebhookService.webhook Number_toString config world requestId
            eventType body)) ->
  owner <> "" /\ repo <> ""
  /\ Notions.slashless owner = true /\ Notions.slashless repo = true
  /\ JS.truthy pullNumber = true
  /\ (forall n, pullNumber = JS.Number n -> ~ (n == 0)%Q)
  /\ Spec.number body = pullNumber
  /\ exists tail,
       Spec.full_name body = JS.Str (owner ++ "/" ++ repo ++ tail)
       /\ (tail = "" \/ exists more, tail = "/" ++ more).
Proof.
  intros Hin. apply webhook_call in Hin.
  destruct Hin as [fullName [n [o [rp [Hid Hc]]]]].
  destruct Hc as [Hc|[[u Hc]|[[d Hc]|[b Hc]]]]; try discriminate.
  injection Hc as <- <- <-.
  destruct (identity_full_name _ _ _ _ _ Hid) as [_ [Hz [Ho [Hfull Hnum]]]].
  destruct (owner_and_repo_segments _ _ _ Ho)
    as [Hoe [Hre [Hos [Hrs [tail [Hfn Ht]]]]]].
  repeat (split; [assumption|]). split.
  - intros x -> Heq. apply Qeq_bool_iff in Heq.
    cbn [JS.truthy] in Hz. unfold JS.isZero in Hz. rewrite Heq in Hz.
    discriminate Hz.
  - split; [exact Hnum|]. exists tail. rewrite Hfull, Hfn. auto.
Qed.

Lemma lookups_name_the_repository_witness :
  In (WebhookService.PullsGet "acme" "widgets" (JS.Number 42%Q))
    (fst (WebhookService.webhook Node.Number_toString Examples.webhook_config
            Examples.all_up (Some "r-0") (WebhookService.Single "pull_request")
            (Examples.opened "acme/widgets/extra" 42%Q)))
  /\ exists tail,
       Spec.full_name (Examples.opened "acme/widgets/extra" 42%Q)
       = JS.Str ("acme" ++ "/" ++ "widgets" ++ tail).
Proof.
  assert (Hin : In (WebhookService.PullsGet "acme" "widgets" (JS.Number 42%Q))
                  (fst (WebhookService.webhook Node.Number_toString
                          Examples.webhook_config Examples.all_up (Some "r-0")
                          (WebhookService.Single "pull_request")
                          (Examples.opened "acme/widgets/extra" 42%Q)))).
  { vm_compute. left. reflexivity. }
  split; [exact Hin|].
  destruct (lookups_name_the_repository Node.Number_toString
              Examples.webhook_config Examples.all_up (Some "r-0")
              (WebhookService.Single "pull_request")
              (Examples.opened "acme/widgets/extra" 42%Q)
              "acme" "widgets" (JS.Number 42%Q) Hin)
    as [_ [_ [_ [_ [_ [_ [_ [tail [Hf _]]]]]]]]].
  exists tail. exact Hf.
Defined.

(** ** Publication *)

(** ToString succeeds exactly on the convertible values. *)
Lemma toString_convertible (Number_toString : JS.number -> string)
    (v : JS.value) :
  if Notions.convertible v
  then exists s, JS.toString Number_toString v = inr s
  else JS.toString Number_toString v = inl JS.cannot_convert.
Proof.
  revert v. fix IH 1.
  intros [| |[|]|n|s|items|fields]; try (simpl; eauto; fail).
  - cbn [Notions.convertible JS.toString].
    assert (He : if forallb Notions.convertible items
                 then exists parts,
                        (fix elements (l : list JS.value)
                           : JS.thrown + list string :=
                           match l with
                           | [] => inr []
                           | x :: rest =>
                               match (if JS.nullish x then inr ""
                                      else JS.toString Number_toString x) with
                               | inl e => inl e
                               | inr part =>
                                   match elements rest with
                                   | inl e => inl e
                                   | inr parts => inr (part :: parts)
                                   end
                               end
                           end) items = inr parts
                 else (fix elements (l : list JS.value)
                         : JS.thrown + list string :=
                         match l with
                         | [] => inr []
                         | x :: rest =>
                             match (if JS.nullish x then inr ""
                                    else JS.toString Number_toString x) with
                             | inl e => inl e
                             | inr part =>
                                 match elements rest with
                                 | inl e => inl e
                                 | inr parts => inr (part :: parts)
                                 end
                             end
                         end) items = inl JS.cannot_convert).
    { induction items as [|x rest IHrest]; [simpl; eauto|].
      cbn [forallb]. specialize (IH x).
      destruct (Notions.convertible x) eqn:Hx; cbn [andb].
      - destruct IH as [part Hpart].
        assert (Hj : exists part',
                   (if JS.nullish x then inr ""
                    else JS.toString Number_toString x)
                   = inr part' :> JS.thrown + string)
          by (destruct (JS.nullish x); eauto).
        destruct Hj as [part' Hj]. rewrite Hj.
        destruct (forallb Notions.convertible rest).
        + destruct IHrest as [parts ->]. eauto.
        + rewrite IHrest. reflexivity.
      - assert (Hn : JS.nullish x = false)
          by (destruct x; try discriminate Hx; reflexivity).
        rewrite Hn, IH. reflexivity. }
    destruct (forallb Notions.convertible items).
    + destruct He as [parts ->]. eauto.
    + rewrite He. reflexivity.
  - cbn [Notions.convertible JS.toString].
    destruct (JS.has_own "toString" fields); simpl; eauto.
Qed.

Lemma joined_convertible (Number_toString : JS.number -> string)
    (v : JS.value) :
  if Notions.convertible v
  then exists s, JS.joined Number_toString v = inr s
  else JS.joined Number_toString v = inl JS.cannot_convert.
Proof.
  pose proof (toString_convertible Number_toString v) as H.
  unfold JS.joined.
  destruct (JS.nullish v) eqn:Hn; [|exact H].
  destruct v; try discriminate Hn; simpl; eauto.
Qed.

Lemma bullet_of_value (Number_toString : JS.number -> string) (c : JS.value) :
  Notions.renderable c = true ->
  exists line, WebhookService.bullet Number_toString c = inr line.
Proof.
  unfold Notions.renderable. rewrite !andb_true_iff.
  intros [[[[Hn Hs] Hf] Hl] Hm].
  pose proof (toString_convertible Number_toString (JS.get c "severity")) as Ts.
  pose proof (toString_convertible Number_toString (JS.get c "file")) as Tf.
  pose proof (toString_convertible Number_toString (JS.get c "line")) as Tl.
  pose proof (toString_convertible Number_toString (JS.get c "message")) as Tm.
  rewrite Hs in Ts. rewrite Hf in Tf. rewrite Hl in Tl. rewrite Hm in Tm.
  destruct Ts as [s Ts], Tf as [f Tf], Tl as [l Tl], Tm as [m Tm].
  destruct c; try discriminate Hn;
    unfold WebhookService.bullet; rewrite Ts, Tf, Tl, Tm; simpl; eauto.
Qed.

Lemma bullet_of_other (Number_toString : JS.number -> string) (c : JS.value) :
  Notions.renderable c = false ->
  exists message,
    WebhookService.bullet Number_toString c = inl (JS.ErrorObject message).
Proof.
  unfold Notions.renderable. intros H.
  destruct (JS.nullish c) eqn:Hn.
  { destruct c; try discriminate Hn; simpl; eauto. }
  cbn [negb andb] in H.
  pose proof (toString_convertible Number_toString (JS.get c "severity")) as Ts.
  pose proof (toString_convertible Number_toString (JS.get c "file")) as Tf.
  pose proof (toString_convertible Number_toString (JS.get c "line")) as Tl.
  pose proof (toString_convertible Number_toString (JS.get c "message")) as Tm.
  assert (Hb : exists message,
             JS.and_then (JS.toString Number_toString (JS.get c "severity"))
               (fun severity =>
             JS.and_then (JS.toString Number_toString (JS.get c "file"))
               (fun file =>
             JS.and_then (JS.toString Number_toString (JS.get c "line"))
               (fun line =>
             JS.and_then (JS.toString Number_toString (JS.get c "message"))
               (fun message =>
             inr ("- (**" ++ severity ++ "**) `" ++ file ++ ":" ++ line
                  ++ "` – " ++ message)))))
             = inl (JS.ErrorObject message) :> JS.thrown + string).
  { unfold JS.cannot_convert in *.
    destruct (Notions.convertible (JS.get c "severity"));
      [destruct Ts as [s ->] | rewrite Ts; simpl; eauto].
    destruct (Notions.convertible (JS.get c "file"));
      [destruct Tf as [f ->] | rewrite Tf; simpl; eauto].
    destruct (Notions.convertible (JS.get c "line"));
      [destruct Tl as [l ->] | rewrite Tl; simpl; eauto].
    destruct (Notions.convertible (JS.get c "message"));
      [discriminate H | rewrite Tm; simpl; eauto]. }
  destruct c; try discriminate Hn; exact Hb.
Qed.

Lemma bullets_of_values (Number_toString : JS.number -> string)
    (comments : list JS.value) :
  (forall c, In c comments -> Notions.renderable c = true) ->
  exists lines, WebhookService.bullets Number_toString comments = inr lines.
Proof.
  induction comments as [|c comments IH]; intros H; [simpl; eauto|].
  destruct (bullet_of_value Number_toString c (H c (or_introl eq_refl)))
    as [line Hl].
  destruct IH as [lines Hls]; [intros x Hx; apply H; right; exact Hx|].
  cbn [WebhookService.bullets]. rewrite Hl, Hls. eauto.
Qed.

Lemma bullets_of_other (Number_toString : JS.number -> string)
    (comments : list JS.value) (c : JS.value) :
  In c comments -> Notions.renderable c = false ->
  exists message,
    WebhookService.bullets Number_toString comments
    = inl (JS.ErrorObject message).
Proof.
  induction comments as [|x comments IH]; [intros []|].
  intros Hin Hc. cbn [WebhookService.bullets].
  destruct (Notions.renderable x) eqn:Hx.
  - destruct (bullet_of_value Number_toString x Hx) as [line ->].
    destruct Hin as [->|Hin]; [congruence|].
    destruct (IH Hin Hc) as [m ->]. eauto.
  - destruct (bullet_of_other Number_toString x Hx) as [m ->]. eauto.
Qed.

(** X23.  What [postReviewSummary] does with the summary and the comments
    it is given.  When one of the comments is [null] or [undefined], or
    holds a severity, file, line or message that has no conversion to a
    string, or when the summary has none, the rendering throws before
    GitHub is called.  Otherwise exactly one review is created, as a
    [COMMENT] on the pull request given, whose body is the heading, the
    summary and the findings; the function returns when GitHub accepts
    it, and when GitHub refuses it throws an [Error] whose message names
    the pull request and the repository and ends with the cause (for a
    pull number without a conversion, the [TypeError] of that
    conversion).  Without comments the findings are the notice that no
    issue was detected. *)
Theorem publication_outcome (Number_toString : JS.number -> string)
    (world : WebhookService.World) (owner repo : string)
    (pullNumber : JS.value) (summary : JS.value) (comments : list JS.value) :
  ((exists c, In c comments /\ Notions.renderable c = false)
   \/ Notions.convertible summary = false ->
   exists message,
     WebhookService.postReviewSummary Number_toString world owner repo
       pullNumber summary comments
     = ([], inl (JS.ErrorObject message)))
  /\ ((forall c, In c comments -> Notions.renderable c = true) ->
      Notions.convertible summary = true ->
      exists text line,
        WebhookService.findings Number_toString comments = inr text
        /\ (comments = [] ->
            text = "_No specific issues were detected. Nice work!_")
        /\ JS.joined Number_toString summary = inr line
        /\ fst (WebhookService.postReviewSummary Number_toString world owner
                  repo pullNumber summary comments)
           = [WebhookService.CreateReview owner repo pullNumber "COMMENT"
                (Str.join (Str.byte 10)
                   [ "### 🤖 AI Code Review Assistant"; ""; line; "";
                     "#### Findings"; text ])]
        /\ (forall done,
              WebhookService.create_review world owner repo pullNumber
                "COMMENT"
                (Str.join (Str.byte 10)
                   [ "### 🤖 AI Code Review Assistant"; ""; line; "";
                     "#### Findings"; text ])
              = inr done ->
              snd (WebhookService.postReviewSummary Number_toString world owner
                     repo pullNumber summary comments) = inr done)
        /\ (forall err,
              WebhookService.create_review world owner repo pullNumber
                "COMMENT"
                (Str.join (Str.byte 10)
                   [ "### 🤖 AI Code Review Assistant"; ""; line; "";
                     "#### Findings"; text ])
              = inl err ->
              (forall number,
                  JS.toString Number_toString pullNumber = inr number ->
                  snd (WebhookService.postReviewSummary Number_toString world
                         owner repo pullNumber summary comments)
                  = inl (JS.ErrorObject
                           ("Failed to post review summary to PR #"
                            ++ number ++ " in " ++ owner
                            ++ "/" ++ repo ++ ": "
                            ++ (if JS.instanceofError err
                                then JS.errorMessage err
                                else "Unknown error"))))
              /\ (Notions.convertible pullNumber = false ->
                  snd (WebhookService.postReviewSummary Number_toString world
                         owner repo pullNumber summary comments)
                  = inl (JS.ErrorObject
                           "Cannot convert object to primitive value")))).
Proof.
  rewrite publish_table. split.
  - intros [[c [Hin Hc]]|Hs].
    + destruct (bullets_of_other Number_toString comments c Hin Hc) as [m Hm].
      unfold WebhookService.findings.
      destruct comments as [|x rest]; [destruct Hin|].
      rewrite Hm. exists m. reflexivity.
    + pose proof (joined_convertible Number_toString summary) as Hj.
      rewrite Hs in Hj.
      destruct (WebhookService.findings Number_toString comments)
        as [e|text] eqn:Hf.
      * unfold WebhookService.findings in Hf.
        destruct comments as [|x rest]; [discriminate Hf|].
        destruct (Notions.renderable x) eqn:Hx.
        -- destruct (forallb Notions.renderable rest) eqn:Hall.
           ++ destruct (bullets_of_values Number_toString (x :: rest))
                as [lines Hl].
              { intros c [<-|Hin]; [exact Hx|].
                rewrite forallb_forall in Hall. apply Hall. exact Hin. }
              rewrite Hl in Hf. discriminate Hf.
           ++ assert (Hex : exists c, In c rest /\ Notions.renderable c = false).
              { clear -Hall. induction rest as [|y rest IH];
                  [discriminate Hall|].
                cbn [forallb] in Hall.
                destruct (Notions.renderable y) eqn:Hy.
                - destruct (IH Hall) as [c [Hin Hc]].
                  exists c. split; [right; exact Hin | exact Hc].
                - exists y. split; [left; reflexivity | exact Hy]. }
              destruct Hex as [c [Hin Hc]].
              destruct (bullets_of_other Number_toString (x :: rest) c
                          (or_intror Hin) Hc) as [m Hm].
              rewrite Hm in Hf. injection Hf as <-. eauto.
        -- destruct (bullets_of_other Number_toString (x :: rest) x
                       (or_introl eq_refl) Hx) as [m Hm].
           rewrite Hm in Hf. injection Hf as <-. eauto.
      * unfold WebhookService.reviewBody. rewrite Hj.
        unfold JS.cannot_convert. simpl. eauto.
  - intros Hall Hs.
    destruct (bullets_of_values Number_toString comments Hall) as [lines Hl].
    assert (Hf : exists text,
               WebhookService.findings Number_toString comments = inr text
               /\ (comments = [] ->
                   text = "_No specific issues were detected. Nice work!_")).
    { unfold WebhookService.findings. destruct comments as [|x rest].
      - eexists. split; reflexivity.
      - rewrite Hl. eexists. split; [reflexivity | discriminate]. }
    destruct Hf as [text [Hf Hnone]].
    pose proof (joined_convertible Number_toString summary) as Hj.
    rewrite Hs in Hj. destruct Hj as [line Hj].
    exists text, line. rewrite Hf.
    split; [reflexivity|]. split; [exact Hnone|]. split; [exact Hj|].
    unfold WebhookService.reviewBody. rewrite Hj. cbn [JS.and_then fst snd].
    split; [reflexivity|]. split.
    + intros done ->. reflexivity.
    + intros err ->. split.
      * intros number Hn.
        unfold WebhookService.pr_in, JS.and_then. rewrite Hn.
        rewrite ?string_app_assoc. reflexivity.
      * intros Hp.
        pose proof (toString_convertible Number_toString pullNumber) as Hc.
        rewrite Hp in Hc.
        unfold WebhookService.pr_in, JS.and_then. rewrite Hc. reflexivity.
Qed.

Lemma publication_outcome_witness :
  exists message,
    WebhookService.postReviewSummary Node.Number_toString Examples.all_up
      "acme" "widgets" (JS.Number 42%Q) (JS.Str "Looks fine")
      [JS.Object [("severity", JS.Object [("toString", JS.Null)])]]
    = ([], inl (JS.ErrorObject message)).
Proof.
  apply (proj1 (publication_outcome Node.Number_toString Examples.all_up
                  "acme" "widgets" (JS.Number 42%Q) (JS.Str "Looks fine")
                  [JS.Object [("severity", JS.Object [("toString", JS.Null)])]])).
  left. eexists. split; [left; reflexivity | reflexivity].
Defined.

